(** * BydlanBot: a shallow embedding of [bot.py] and its verified properties

    The definitions follow [bot.py] class by class:

    - [Py]                      the part of the Python runtime the program
                                relies on: text as code points, [in],
                                [split], [strip], [replace], slices,
                                exceptions, parsed JSON values, [float];
    - [Constants]               [class Constants];
    - [Message], [UserProfile]  the two dataclasses;
    - [VectorMemory]            the similarity index;
    - [DatabaseManager]         the two SQLite tables and the retention
                                sweep;
    - [AdvancedContextManager]  importance, sentiment, profile evolution,
                                ingestion;
    - [MessageAnalyzer]         [should_respond];
    - [SmartBot]                [ask_local_model];
    - [ScheduledMessages]       the announcer and the scheduler job;
    - [PyNum], [PyFmt]          [int] against [float], [int(f)], [str(n)]
                                and [format(f, ".1f")];
    - [Bot]                     [check_cooldown] and [cleanup_old_data];
    - [Analyzer]                [get_response_style];
    - [PromptGenerator]         [generate_prompt];
    - [ContextText]             [get_smart_context] and [get_context];
    - [Telegram], [Handlers]    [create_message_object] and the two
                                message handlers;
    - [Startup], [History]      [__init__] with [load_recent_messages],
                                and [get_user_history];
    - [Commands], [BotConfig],
      [Status]                  [/schedule_test] and [/status] with
                                [check_lm_studio_health].

    The properties come after the definitions, one section per component.

    Python floats are IEEE 754 binary64 numbers and are embedded as Rocq's
    primitive floats, so every sum and comparison below is the one the
    interpreter performs.  Mutable objects are passed and returned
    explicitly; a function that can raise returns a [res].  Library calls
    whose result the program does not control (the sentence encoder,
    [numpy.dot], [numpy.argsort], [str.lower], the clock, the random
    generator, the HTTP exchange, the messaging gateway, the order of a
    dictionary, the sort of the database, [strftime]) are inputs of the
    model.  Locks, the request semaphore and task cancellation are not
    modelled: every function runs to its end before the next one starts. *)

From Stdlib Require Import ZArith NArith List Floats Ascii String Bool Lia.
From stdpp Require Import base option list sorting gmap strings pretty.
Import ListNotations.

#[local] Set Warnings "-inexact-float,-register-all".
#[local] Open Scope Z_scope.

(* ===================================================================== *)
(** * The Python runtime fragment                                          *)
(* ===================================================================== *)

Module Py.

(** ** Text

    [len], slicing and [str.lower] of a Python [str] work on code points,
    so a text is the list of its code points.  Values of type [str] that
    the program only ever compares for equality (tags such as
    ["positive"], dictionary keys) are kept as Rocq strings. *)

Abbreviation str := (list N).

(** UTF-8 decoding, used to write the program's literals. *)
Fixpoint utf8_decode (pending : nat) (acc : N) (bs : list N) : str :=
  match bs with
  | [] => []
  | b :: bs' =>
      if (b <? 128)%N then b :: utf8_decode 0 0%N bs'
      else if (b <? 192)%N then
        let acc' := (acc * 64 + (b - 128))%N in
        match pending with
        | 1%nat => acc' :: utf8_decode 0 0%N bs'
        | S p => utf8_decode p acc' bs'
        | O => utf8_decode 0 0%N bs'
        end
      else if (b <? 224)%N then utf8_decode 1 (b - 192)%N bs'
      else if (b <? 240)%N then utf8_decode 2 (b - 224)%N bs'
      else utf8_decode 3 (b - 240)%N bs'
  end.

Definition u (s : string) : str :=
  utf8_decode 0 0%N (map N_of_ascii (list_ascii_of_string s)).

(** [s.startswith(p)] *)
Fixpoint startswith (p s : str) : bool :=
  match p, s with
  | [], _ => true
  | _ :: _, [] => false
  | a :: p', b :: s' => (a =? b)%N && startswith p' s'
  end.

(** [needle in hay] for two texts. *)
Fixpoint contains (needle hay : str) : bool :=
  startswith needle hay
  || match hay with
     | [] => false
     | _ :: hay' => contains needle hay'
     end.

(** [any(w in text for w in words)] *)
Definition any_in (words : list str) (text : str) : bool :=
  existsb (fun w => contains w text) words.

(** [sum(1 for w in words if w in text)] *)
Definition count_in (words : list str) (text : str) : nat :=
  length (filter (fun w => contains w text = true) words).

(** [str.isspace] on one code point (the set [str.split] and [str.strip]
    use when called without an argument). *)
Definition is_space (c : N) : bool :=
  ((9 <=? c) && (c <=? 13) || (28 <=? c) && (c <=? 32)
   || (c =? 133) || (c =? 160) || (c =? 5760)
   || (8192 <=? c) && (c <=? 8202)
   || (c =? 8232) || (c =? 8233) || (c =? 8239) || (c =? 8287)
   || (c =? 12288))%N.

Fixpoint lstrip (s : str) : str :=
  match s with
  | c :: s' => if is_space c then lstrip s' else s
  | [] => []
  end.

(** [s.strip()] *)
Definition strip (s : str) : str := rev (lstrip (rev (lstrip s))).

(** [s.split()]: the maximal runs of non-space code points; [cur] is the
    run being read, in reverse. *)
Fixpoint split_from (cur : str) (s : str) : list str :=
  match s with
  | [] => match cur with [] => [] | _ => [rev cur] end
  | c :: s' =>
      if is_space c then
        match cur with
        | [] => split_from [] s'
        | _ => rev cur :: split_from [] s'
        end
      else split_from (c :: cur) s'
  end.

Definition split (s : str) : list str := split_from [] s.

(** [sep.join(words)] *)
Fixpoint join (sep : str) (words : list str) : str :=
  match words with
  | [] => []
  | [w] => w
  | w :: ws => w ++ sep ++ join sep ws
  end.

(** [s.replace(old, "")]: the non-overlapping occurrences of [old] are
    dropped in one pass from the left; [skip] counts the code points of
    the current occurrence still to drop.  With an empty [old] nothing
    is removed. *)
Fixpoint remove_from (old : str) (skip : nat) (s : str) : str :=
  match s with
  | [] => []
  | c :: s' =>
      match skip with
      | S k => remove_from old k s'
      | O =>
          match old with
          | [] => c :: remove_from old 0 s'
          | _ :: old' =>
              if startswith old s then remove_from old (length old') s'
              else c :: remove_from old 0 s'
          end
      end
  end.

Definition remove (old s : str) : str := remove_from old 0 s.

(** [l[-n:]] for a list (or deque) and [n >= 0] taken as a number of
    elements kept from the right. *)
Definition lastn {A} (n : nat) (l : list A) : list A :=
  drop (length l - n) l.

(** [a[-k:]] with the slice rules of Python: a positive [k] keeps the
    last [k] elements, [k = 0] makes the bound [-0 = 0] and keeps
    everything, a negative [k] drops the first [-k] elements. *)
Definition slice_from_neg {A} (k : Z) (l : list A) : list A :=
  if 0 <? k then lastn (Z.to_nat k) l
  else drop (Z.to_nat (- k)) l.

(** A stable ascending [argsort], used to run the search on examples:
    the positions of [xs] ordered by value, equal values in position
    order.  ([np.argsort] makes no promise on the order of equal values;
    the search is stated for any [argsort].) *)
Fixpoint insert_index (xs : list float) (i : nat) (sorted : list nat)
  : list nat :=
  match sorted with
  | [] => [i]
  | j :: sorted' =>
      if PrimFloat.ltb (nth i xs 0%float) (nth j xs 0%float)
      then i :: sorted
      else j :: insert_index xs i sorted'
  end.

Definition stable_argsort (xs : list float) : list nat :=
  fold_left (fun sorted i => insert_index xs i sorted)
            (seq 0 (length xs)) [].

(** A model of [str.lower] on the Latin and Cyrillic alphabets the
    program's keywords are written in; other code points are kept.  The
    functions below take [lower] as a parameter, this one instantiates
    it. *)
Definition lower_char (c : N) : N :=
  (if (65 <=? c) && (c <=? 90) then c + 32
   else if (1040 <=? c) && (c <=? 1071) then c + 32
   else if (1024 <=? c) && (c <=? 1039) then c + 80
   else c)%N.

Definition str_lower (s : str) : str := map lower_char s.

(** ** Exceptions *)

Inductive exn : Type :=
  | TimeoutError      (* asyncio.TimeoutError *)
  | KeyError
  | IndexError
  | TypeError
  | AttributeError
  | OverflowError
  | OtherError.       (* any other subclass of Exception *)

Inductive res (A : Type) : Type :=
  | Ret (a : A)
  | Raise (e : exn).
Arguments Ret {A} a.
Arguments Raise {A} e.

(** Sequencing: the first exception raised ends the computation.  This
    gives [res] the notation [x ← m; k] of a monad. *)
#[export] Instance res_bind : MBind res := fun A B k m =>
  match m with
  | Ret a => k a
  | Raise e => Raise e
  end.
#[export] Instance res_ret : MRet res := fun A a => Ret a.

Definition of_option {A} (e : exn) (o : option A) : res A :=
  match o with
  | Some a => Ret a
  | None => Raise e
  end.

(** ** Floats *)

(** [float(n)] for a Python [int]: correctly rounded, [OverflowError]
    when the integer is too large for a binary64 number. *)
Definition float_of_int (n : Z) : res float :=
  let f := SF2Prim (binary_normalize prec emax n 0 false) in
  if PrimFloat.is_infinity f then Raise OverflowError else Ret f.

(** [min(a, b)] returns the first of the smallest arguments. *)
Definition min (a b : float) : float :=
  if PrimFloat.ltb b a then b else a.

(** ** Parsed JSON, as the values [json.loads] builds *)

Inductive value : Type :=
  | VNone
  | VBool (b : bool)
  | VInt (n : Z)
  | VFloat (f : float)
  | VStr (s : str)
  | VList (l : list value)
  | VDict (d : list (str * value)).

Definition str_eqb (a b : str) : bool := bool_decide (a = b).

Fixpoint dict_get (d : list (str * value)) (k : str) : option value :=
  match d with
  | [] => None
  | (k', v) :: d' => if str_eqb k' k then Some v else dict_get d' k
  end.

Definition is_str (k : str) (v : value) : bool :=
  match v with
  | VStr s => str_eqb s k
  | _ => false
  end.

(** [k in x] for a text [k] *)
Definition py_in (k : str) (x : value) : res bool :=
  match x with
  | VDict d => Ret (bool_decide (is_Some (dict_get d k)))
  | VList l => Ret (existsb (is_str k) l)
  | VStr s => Ret (contains k s)
  | _ => Raise TypeError
  end.

(** [x[k]] for a text [k] *)
Definition getitem_str (x : value) (k : str) : res value :=
  match x with
  | VDict d => of_option KeyError (dict_get d k)
  | _ => Raise TypeError
  end.

(** [x[0]]; the keys of a parsed JSON object are texts, so [0] is never
    one of them. *)
Definition getitem_0 (x : value) : res value :=
  match x with
  | VList l => of_option IndexError (head l)
  | VStr s => of_option IndexError (option_map (fun c => VStr [c]) (head s))
  | VDict _ => Raise KeyError
  | _ => Raise TypeError
  end.

(** [len(x)] *)
Definition py_len (x : value) : res nat :=
  match x with
  | VDict d => Ret (length d)
  | VList l => Ret (length l)
  | VStr s => Ret (length s)
  | _ => Raise TypeError
  end.

(** [x.strip()] *)
Definition py_strip (x : value) : res str :=
  match x with
  | VStr s => Ret (strip s)
  | _ => Raise AttributeError
  end.

End Py.

Import Py.

(* ===================================================================== *)
(** * [class Constants]                                                    *)
(* ===================================================================== *)

Module Constants.
Definition LM_STUDIO_TIMEOUT_SEC : Z := 45.
Definition SCHEDULER_CHECK_INTERVAL_SEC : Z := 300.
Definition WORKDAYS_START : Z := 0.
Definition WORKDAYS_END : Z := 4.
Definition WEEKEND_START : Z := 5.
Definition MORNING_HOUR_START : Z := 8.
Definition MORNING_HOUR_END : Z := 9.
Definition EVENING_HOUR_START : Z := 17.
Definition EVENING_HOUR_END : Z := 18.
Definition MIN_REPLY_LENGTH : nat := 3.
Definition MAX_REPLY_LENGTH : nat := 300.
Definition HTTP_OK : Z := 200.
Definition DEFAULT_CLEANUP_DAYS : Z := 30.
End Constants.

(** What the program writes to its logger, one constructor per message
    template that the properties below refer to. *)
Inductive log_record : Type :=
  | LogVectorAddError (e : exn)      (* "Ошибка добавления в векторную память" *)
  | LogVectorSearchError (e : exn)   (* "Ошибка поиска в векторной памяти" *)
  | LogSaveError (e : exn)           (* "Ошибка сохранения сообщения" *)
  | LogDeleted (deleted : nat)       (* "Удалено {deleted} старых сообщений" *)
  | LogGreetingError (e : exn)       (* "Ошибка генерации приветствия" *)
  | LogFarewellError (e : exn)       (* "Ошибка генерации прощания" *)
  | LogSchedulerError (e : exn)      (* "Ошибка в планировщике" *)
  | LogMorning                       (* "Отправляю утреннее приветствие" *)
  | LogEvening.                      (* "Отправляю вечернее прощание" *)

(* ===================================================================== *)
(** * The memory system                                                    *)
(* ===================================================================== *)

(** [@dataclass class Message] *)
Record Message : Type := mkMessage {
  user_id : Z;
  username : str;
  text : str;
  timestamp : float;
  chat_id : Z;
  message_id : Z;
  is_reply : bool;
  reply_to_user : option str;
  sentiment : option string;
  importance : float;
  has_image : bool;
  image_description : option str
}.

(** [@dataclass class UserProfile] *)
Record UserProfile : Type := mkUserProfile {
  profile_user_id : Z;
  profile_username : str;
  personality_traits : gmap string float;
  interests : list str;
  interaction_count : Z;
  last_seen : float;
  relationship_level : string
}.

(** ** [class VectorMemory] *)

Module VectorMemory.
Section VectorMemory.
Context {Vec : Type}.
(** [self.encoder.encode([text])[0]] *)
Variable encode : str -> res Vec.
(** one row of [np.dot(self.embeddings, query_embedding)], compared as
    a binary64 number *)
Variable dot : Vec -> Vec -> float.
(** [np.argsort] *)
Variable argsort : list float -> list nat.

Record state : Type := mk {
  embeddings : list Vec;
  messages : list Message
}.

(** [__init__] *)
Definition init : state := {| embeddings := []; messages := [] |}.

Definition text_for_embedding (message : Message) : str :=
  match image_description message with
  | Some (c :: d) =>
      text message ++ u " [КАРТИНКА: " ++ (c :: d) ++ u "]"
  | _ => text message
  end.

Definition add_message (message : Message) (self : state)
  : state * list log_record :=
  match encode (text_for_embedding message) with
  | Raise e => (self, [LogVectorAddError e])
  | Ret embedding =>
      let embeddings' := embeddings self ++ [embedding] in
      let messages' := messages self ++ [message] in
      if (1000 <? length embeddings')%nat
      then ({| embeddings := lastn 1000 embeddings';
               messages := lastn 1000 messages' |}, [])
      else ({| embeddings := embeddings'; messages := messages' |}, [])
  end.

(** [[self.messages[i] for i in top_indices if similarities[i] > 0.3]] *)
Fixpoint select (similarities : list float) (msgs : list Message)
                (top_indices : list nat) : res (list Message) :=
  match top_indices with
  | [] => Ret []
  | i :: rest =>
      s ← of_option IndexError (similarities !! i);
      if PrimFloat.ltb 0.3 s then
        m ← of_option IndexError (msgs !! i);
        r ← select similarities msgs rest;
        Ret (m :: r)
      else select similarities msgs rest
  end.

Definition search_similar (query : str) (limit : Z) (self : state)
  : list Message * list log_record :=
  match embeddings self with
  | [] => ([], [])
  | _ :: _ =>
      let body :=
        query_embedding ← encode query;
        let similarities :=
          map (fun e => dot e query_embedding) (embeddings self) in
        let top_indices :=
          rev (slice_from_neg limit (argsort similarities)) in
        select similarities (messages self) top_indices in
      match body with
      | Ret found => (found, [])
      | Raise e => ([], [LogVectorSearchError e])
      end
  end.
End VectorMemory.
Arguments state Vec : clear implicits.
End VectorMemory.

(** ** [class DatabaseManager]

    The two tables of the SQLite file.  Storage failures ([sqlite3]
    exceptions) are outside the model. *)

Module DatabaseManager.
Section DatabaseManager.
Context {Vec : Type}.

(** a row of [messages]; [embedding] is the pickled vector *)
Record row : Type := mkRow {
  id : Z;
  message : Message;
  embedding : option Vec
}.

Record state : Type := mk {
  messages : list row;
  last_id : Z;                             (* AUTOINCREMENT counter *)
  user_profiles : gmap Z UserProfile       (* PRIMARY KEY user_id *)
}.

Definition init_database : state :=
  {| messages := []; last_id := 0; user_profiles := ∅ |}.

(** [INSERT INTO messages ...] *)
Definition save_message (m : Message) (e : option Vec) (self : state)
  : state :=
  {| messages := messages self ++ [mkRow (last_id self + 1) m e];
     last_id := last_id self + 1;
     user_profiles := user_profiles self |}.

(** [INSERT OR REPLACE INTO user_profiles ...] *)
Definition save_user_profile (profile : UserProfile) (self : state)
  : state :=
  {| messages := messages self;
     last_id := last_id self;
     user_profiles :=
       <[profile_user_id profile := profile]> (user_profiles self) |}.

Definition get_user_profile (uid : Z) (self : state)
  : option UserProfile :=
  user_profiles self !! uid.

(** [WHERE timestamp < ?] *)
Definition older (cutoff_time : float) (r : row) : bool :=
  PrimFloat.ltb (timestamp (message r)) cutoff_time.

(** [cleanup_old_messages(days)] at clock reading [now].  The function
    has no [return] statement: its caller receives [None]. *)
Definition cleanup_old_messages (now : float) (days : Z) (self : state)
  : res value * state * list log_record :=
  match float_of_int (days * 24 * 3600) with
  | Raise e => (Raise e, self, [])
  | Ret horizon =>
      let cutoff_time := PrimFloat.sub now horizon in
      let deleted :=
        length (List.filter (older cutoff_time) (messages self)) in
      (Ret VNone,
       {| messages :=
            List.filter (fun r => negb (older cutoff_time r))
                        (messages self);
          last_id := last_id self;
          user_profiles := user_profiles self |},
       [LogDeleted deleted])
  end.
End DatabaseManager.
Arguments row Vec : clear implicits.
Arguments state Vec : clear implicits.
End DatabaseManager.

(** ** [class AdvancedContextManager] *)

Module AdvancedContextManager.
Section AdvancedContextManager.
Context {Vec : Type}.
Variable encode : str -> res Vec.
(** [str.lower] *)
Variable lower : str -> str.

Record state : Type := mk {
  context_window : nat;                    (* config.context_window *)
  db : DatabaseManager.state Vec;
  vector_memory : VectorMemory.state Vec;
  recent_messages : list Message;          (* deque(maxlen=context_window) *)
  user_profiles : gmap Z UserProfile;
  save_tasks : list Message;               (* asyncio.create_task(...) *)
  log : list log_record
}.

(** [__init__] on an empty database file *)
Definition init (window : nat) : state :=
  {| context_window := window;
     db := DatabaseManager.init_database;
     vector_memory := VectorMemory.init;
     recent_messages := [];
     user_profiles := ∅;
     save_tasks := [];
     log := [] |}.

Definition _calculate_importance (message : Message) : float :=
  let importance := 0.5%float in
  let importance :=
    if (100 <? length (text message))%nat
    then (importance + 0.2)%float else importance in
  let importance :=
    if contains (u "?") (text message)
    then (importance + 0.1)%float else importance in
  let importance :=
    if any_in [u "бот"; u "bot"; u "димон"] (lower (text message))
    then (importance + 0.3)%float else importance in
  let tech_words :=
    [u "код"; u "программ"; u "баг"; u "сервер"; u "база"; u "api"] in
  let importance :=
    if any_in tech_words (lower (text message))
    then (importance + 0.2)%float else importance in
  let importance :=
    if has_image message
    then (importance + 0.3)%float else importance in
  Py.min importance 1.0%float.

Definition positive_words : list str :=
  [u "круто"; u "отлично"; u "спасибо"; u "класс"; u "зачёт"; u "топ";
   u "ржака"; u "смешно"].
Definition negative_words : list str :=
  [u "хуйня"; u "дерьмо"; u "говно"; u "плохо"; u "тупо"; u "бред"].

Definition _analyze_sentiment (text : str) : string :=
  let text_lower := lower text in
  let pos_count := count_in positive_words text_lower in
  let neg_count := count_in negative_words text_lower in
  if (neg_count <? pos_count)%nat then "positive"
  else if (pos_count <? neg_count)%nat then "negative"
  else "neutral".

(** [d[k] += x] on a dictionary of floats *)
Definition iadd (d : gmap string float) (k : string) (x : float)
  : res (gmap string float) :=
  v ← of_option KeyError (d !! k);
  Ret (<[k := (v + x)%float]> d).

Definition new_profile (message : Message) : UserProfile :=
  {| profile_user_id := user_id message;
     profile_username := username message;
     personality_traits :=
       {[ "агрессивность" := 0.5%float;
          "дружелюбность" := 0.5%float;
          "юмор" := 0.5%float ]};
     interests := [];
     interaction_count := 0;
     last_seen := timestamp message;
     relationship_level := "незнакомец" |}.

(** [self.user_profiles[uid]] holds [p] *)
Definition with_profile (uid : Z) (p : UserProfile) (self : state)
  : state :=
  {| context_window := context_window self;
     db := db self;
     vector_memory := vector_memory self;
     recent_messages := recent_messages self;
     user_profiles := <[uid := p]> (user_profiles self);
     save_tasks := save_tasks self;
     log := log self |}.

Definition with_db (d : DatabaseManager.state Vec) (self : state)
  : state :=
  {| context_window := context_window self;
     db := d;
     vector_memory := vector_memory self;
     recent_messages := recent_messages self;
     user_profiles := user_profiles self;
     save_tasks := save_tasks self;
     log := log self |}.

Definition with_traits (t : gmap string float) (p : UserProfile)
  : UserProfile :=
  {| profile_user_id := profile_user_id p;
     profile_username := profile_username p;
     personality_traits := t;
     interests := interests p;
     interaction_count := interaction_count p;
     last_seen := last_seen p;
     relationship_level := relationship_level p |}.

Definition with_level (l : string) (p : UserProfile) : UserProfile :=
  {| profile_user_id := profile_user_id p;
     profile_username := profile_username p;
     personality_traits := personality_traits p;
     interests := interests p;
     interaction_count := interaction_count p;
     last_seen := last_seen p;
     relationship_level := l |}.

(** The first half of [_update_user_profile], up to the [interests]
    update: from here on [profile] is the object stored under the
    author's id, and every later assignment changes it in place. *)
Definition touch (message : Message) (self : state) : UserProfile :=
  let profile :=
    match user_profiles self !! user_id message with
    | Some profile => profile
    | None => new_profile message
    end in
  {| profile_user_id := profile_user_id profile;
     profile_username := username message;
     personality_traits := personality_traits profile;
     interests :=
       if has_image message
       then if bool_decide (u "мемы" ∈ interests profile)
            then interests profile
            else interests profile ++ [u "мемы"]
       else interests profile;
     interaction_count := interaction_count profile + 1;
     last_seen := timestamp message;
     relationship_level := relationship_level profile |}.

Definition _update_user_profile (message : Message) (self : state)
  : res unit * state :=
  let profile := touch message self in
  let traits := personality_traits profile in
  let by_sentiment :=
    if bool_decide (sentiment message = Some "negative")
    then iadd traits "агрессивность" 0.1%float
    else if bool_decide (sentiment message = Some "positive")
    then iadd traits "дружелюбность" 0.1%float
    else Ret traits in
  match by_sentiment with
  | Raise e => (Raise e, with_profile (user_id message) profile self)
  | Ret traits =>
      let profile := with_traits traits profile in
      let by_humor :=
        if any_in [u "хаха"; u "лол"; u "ржака"] (lower (text message))
        then iadd traits "юмор" 0.1%float
        else Ret traits in
      match by_humor with
      | Raise e => (Raise e, with_profile (user_id message) profile self)
      | Ret traits =>
          let profile := with_traits traits profile in
          let profile :=
            if 50 <? interaction_count profile
            then with_level "братан" profile
            else if 20 <? interaction_count profile
            then with_level "приятель" profile
            else if 5 <? interaction_count profile
            then with_level "знакомый" profile
            else profile in
          let self := with_profile (user_id message) profile self in
          (Ret tt,
           with_db (DatabaseManager.save_user_profile profile (db self))
                   self)
      end
  end.

(** [deque.append] with [maxlen] *)
Definition deque_append {A} (maxlen : nat) (x : A) (d : list A) : list A :=
  lastn maxlen (d ++ [x]).

Definition add_message (message : Message) (self : state)
  : res unit * state :=
  let message :=
    {| user_id := user_id message;
       username := username message;
       text := text message;
       timestamp := timestamp message;
       chat_id := chat_id message;
       message_id := message_id message;
       is_reply := is_reply message;
       reply_to_user := reply_to_user message;
       sentiment := Some (_analyze_sentiment (text message));
       importance := _calculate_importance message;
       has_image := has_image message;
       image_description := image_description message |} in
  let '(vm, vm_log) :=
    VectorMemory.add_message encode message (vector_memory self) in
  let self :=
    {| context_window := context_window self;
       db := db self;
       vector_memory := vm;
       recent_messages :=
         deque_append (context_window self) message
                      (recent_messages self);
       user_profiles := user_profiles self;
       save_tasks := save_tasks self ++ [message];
       log := log self ++ vm_log |} in
  _update_user_profile message self.

(** The coroutine scheduled by [add_message], run later by the event
    loop. *)
Definition _save_message_async (message : Message) (self : state)
  : state :=
  let text_for_embedding :=
    match image_description message with
    | Some (c :: d) =>
        if contains (c :: d) (text message) then text message
        else text message ++ u " " ++ (c :: d)
    | _ => text message
    end in
  match encode text_for_embedding with
  | Ret embedding =>
      with_db (DatabaseManager.save_message message (Some embedding)
                                            (db self)) self
  | Raise e =>
      {| context_window := context_window self;
         db := db self;
         vector_memory := vector_memory self;
         recent_messages := recent_messages self;
         user_profiles := user_profiles self;
         save_tasks := save_tasks self;
         log := log self ++ [LogSaveError e] |}
  end.
End AdvancedContextManager.
Arguments state Vec : clear implicits.
End AdvancedContextManager.

(* ===================================================================== *)
(** * [class MessageAnalyzer]                                              *)
(* ===================================================================== *)

Module MessageAnalyzer.
Section MessageAnalyzer.
Context {Vec : Type}.
Variable lower : str -> str.
(** [random k] is the value of the [k]-th call of [random.random()]. *)
Variable random : nat -> float.

Definition bot_mentions : list str :=
  [u "бот"; u "bot"; u "димон"; u "@"].
Definition greeting_words : list str :=
  [u "привет"; u "здарова"; u "салам"; u "хай"; u "hello"; u "дарова"].
Definition question_indicators : list str :=
  [u "?"; u "как"; u "что"; u "где"; u "когда"; u "почему"; u "зачем";
   u "можешь"; u "помоги"].
Definition tech_words : list str :=
  [u "код"; u "программ"; u "баг"; u "сервер"; u "база"; u "api";
   u "фронт"; u "бэк"; u "js"; u "python"].

Definition relationship_bonus (profile : option UserProfile) : float :=
  match profile with
  | Some profile =>
      if bool_decide (relationship_level profile = "братан")
      then 0.3%float
      else if bool_decide (relationship_level profile = "приятель")
      then 0.2%float
      else if bool_decide (relationship_level profile = "знакомый")
      then 0.1%float
      else 0%float
  | None => 0%float
  end.

(** [should_respond]; [calls] counts the calls of [random.random()]
    made so far, and the new count is returned with the decision. *)
Definition should_respond
    (message : str) (context_manager : AdvancedContextManager.state Vec)
    (user : Z) (is_private has_image : bool) (calls : nat)
  : (bool * string) * nat :=
  if is_private then ((true, "private_message"), calls) else
  let message_lower := lower message in
  let profile :=
    AdvancedContextManager.user_profiles context_manager !! user in
  let bonus := relationship_bonus profile in
  if any_in bot_mentions message_lower
  then ((true, "direct_mention"), calls)
  else if any_in tech_words message_lower
  then ((true, "tech_question"), calls)
  else if any_in question_indicators message_lower
  then ((true, "question_to_chat"), calls)
  else if any_in greeting_words message_lower
  then ((true, "greeting"), calls)
  else if (200 <? length message)%nat
  then ((true, "long_post"), calls)
  else
    let active :=
      match profile with
      | Some profile => 10 <? interaction_count profile
      | None => false
      end in
    if active && PrimFloat.ltb (random calls) (0.15 + bonus)%float
    then ((true, "active_user"), S calls)
    else
      let calls := if active then S calls else calls in
      if PrimFloat.ltb (random calls) (0.08 + bonus)%float
      then ((true, "random_response"), S calls)
      else ((false, "no_reason"), S calls).
End MessageAnalyzer.
End MessageAnalyzer.

(* ===================================================================== *)
(** * [class SmartBot]: the inference call                                 *)
(* ===================================================================== *)

Module SmartBot.

(** The request sent to the inference service.  The four announcement
    templates and the chat prompt differ in their text only, which the
    program does not inspect. *)
Inductive prompt : Type :=
  | MorningFriday
  | MorningWeekday (day_name : str)
  | EveningFriday
  | EveningWeekday
  | Chat (text : str).

(** What the HTTP client hands back: [session.post] either raises or
    yields a response, whose [text()] and [json()] may raise in turn. *)
Record response : Type := mkResponse {
  status : Z;
  text : res str;
  json : res value
}.

Definition garbage : list str :=
  [u "###"; u "Assistant:"; u "System:"; u "I am a"; u "Димон:"].

(** [for garbage in [...]: reply = reply.replace(garbage, "")] followed
    by [" ".join(reply.split()).strip()] *)
Definition scrub (reply : str) : str :=
  let reply := fold_left (fun reply g => Py.remove g reply) garbage reply in
  strip (join (u " ") (split reply)).

(** [data["choices"][0]["message"]["content"].strip()] *)
Definition content (data : value) : res str :=
  choices ← getitem_str data (u "choices");
  first ← getitem_0 choices;
  message ← getitem_str first (u "message");
  c ← getitem_str message (u "content");
  py_strip c.

(** the body of the [try] block *)
Definition request (http : res response) : res str :=
  response ← http;
  if negb (status response =? Constants.HTTP_OK) then
    error_text ← text response;
    Ret (u "Хуйня с сервером, попробуй ещё раз.")
  else
    data ← json response;
    present ← py_in (u "choices") data;
    empty ←
      (if negb present then Ret true
       else choices ← getitem_str data (u "choices");
            n ← py_len choices;
            Ret (n =? 0)%nat : res bool);
    if empty : bool then Ret (u "Модель затупила, бля.")
    else
      reply ← content data;
      let reply := scrub reply in
      if (length reply <? Constants.MIN_REPLY_LENGTH)%nat
      then Ret (u "Чё?")
      else if (Constants.MAX_REPLY_LENGTH <? length reply)%nat
      then Ret (take Constants.MAX_REPLY_LENGTH reply ++ u "...")
      else Ret reply.

Definition ask_local_model (p : prompt) (http : res response) : res str :=
  match request http with
  | Ret reply => Ret reply
  | Raise TimeoutError => Ret (u "Модель тупит, долго думает.")
  | Raise _ => Ret (u "Что-то пошло не так, бля.")
  end.

End SmartBot.

(* ===================================================================== *)
(** * [class ScheduledMessages] and the scheduler job                      *)
(* ===================================================================== *)

Module ScheduledMessages.

(** A reading of [get_moscow_time()]: the proleptic Gregorian ordinal
    of the local date ([date.toordinal()], day 1 is a Monday) and the
    local time of day. *)
Record datetime : Type := mkDatetime {
  ordinal : Z;
  hour : Z;
  minute : Z
}.

(** [now.date()] *)
Definition date (now : datetime) : Z := ordinal now.

(** [now.weekday()], Monday is 0 *)
Definition weekday (now : datetime) : Z := (ordinal now + 6) mod 7.

Record state : Type := mk {
  last_greeting_date : option Z;
  last_farewell_date : option Z
}.

(** [__init__] *)
Definition init : state :=
  {| last_greeting_date := None; last_farewell_date := None |}.

Definition should_send_greeting (now : datetime) (self : state) : bool :=
  if Constants.WEEKEND_START <=? weekday now then false
  else if negb ((Constants.MORNING_HOUR_START <=? hour now)
                && (hour now <? Constants.MORNING_HOUR_END)) then false
  else
    let today := date now in
    if bool_decide (last_greeting_date self = Some today) then false
    else true.

Definition should_send_farewell (now : datetime) (self : state) : bool :=
  if Constants.WEEKEND_START <=? weekday now then false
  else if negb ((Constants.EVENING_HOUR_START <=? hour now)
                && (hour now <? Constants.EVENING_HOUR_END)) then false
  else
    let today := date now in
    if bool_decide (last_farewell_date self = Some today) then false
    else true.

Definition day_names : list str :=
  [u "понедельник"; u "вторник"; u "среда"; u "четверг"].

(** [generate_morning_greeting] at clock reading [now], [http] being
    the outcome of the request the call makes.  The prompt is built
    outside the [try] block, so an [IndexError] of [day_names] leaves
    the function. *)
Definition generate_morning_greeting
    (now : datetime) (http : res SmartBot.response) (self : state)
  : res str * state * list log_record :=
  let is_friday := weekday now =? 4 in
  let prompt :=
    if is_friday then Ret SmartBot.MorningFriday
    else day_name ← of_option IndexError
                       (day_names !! Z.to_nat (weekday now));
         Ret (SmartBot.MorningWeekday day_name) in
  match prompt with
  | Raise e => (Raise e, self, [])
  | Ret prompt =>
      match SmartBot.ask_local_model prompt http with
      | Ret reply =>
          (Ret reply,
           {| last_greeting_date := Some (date now);
              last_farewell_date := last_farewell_date self |},
           [])
      | Raise e =>
          (Ret (if is_friday
                then u "Салам пацаны! Пятничка подъехала, скоро на выходные 🔥"
                else u "Доброе утро, команда! Погнали работать 💪"),
           self, [LogGreetingError e])
      end
  end.

Definition generate_evening_farewell
    (now : datetime) (http : res SmartBot.response) (self : state)
  : res str * state * list log_record :=
  let is_friday := weekday now =? 4 in
  let prompt :=
    if is_friday then SmartBot.EveningFriday
    else SmartBot.EveningWeekday in
  match SmartBot.ask_local_model prompt http with
  | Ret reply =>
      (Ret reply,
       {| last_greeting_date := last_greeting_date self;
          last_farewell_date := Some (date now) |},
       [])
  | Raise e =>
      (Ret (if is_friday
            then u "Всё, пацаны, выходные! Отдыхайте нормально 🍻"
            else u "До завтра, команда! Хорошего вечера 👋"),
       self, [LogFarewellError e])
  end.

(** What one run of the scheduler job meets: the clock at each of the
    four places that read it, the outcome of each inference request,
    and the outcome of each [send_message]. *)
Record tick : Type := mkTick {
  now_greeting_check : datetime;
  now_greeting : datetime;
  http_greeting : res SmartBot.response;
  send_greeting : res unit;
  now_farewell_check : datetime;
  now_farewell : datetime;
  http_farewell : res SmartBot.response;
  send_farewell : res unit
}.

(** What a run of the job leaves behind. *)
Record outcome : Type := mkOutcome {
  scheduler : option state;
  sent : list str;
  logged : list log_record
}.

(** one [if should_send_...(): ...generate...(); send_message(...)] *)
Definition slot
    (due : bool) (announce : log_record)
    (generate : state -> res str * state * list log_record)
    (send : res unit) (self : state)
  : res unit * state * list str * list log_record :=
  if due then
    let '(reply, self', lg) := generate self in
    match reply with
    | Raise e => (Raise e, self', [], announce :: lg)
    | Ret message =>
        match send with
        | Ret _ => (Ret tt, self', [message], announce :: lg)
        | Raise e => (Raise e, self', [], announce :: lg)
        end
    end
  else (Ret tt, self, [], []).

(** [check_scheduled_messages]; [smart_bot.scheduler] is [None] when
    the schedule is disabled. *)
Definition check_scheduled_messages (t : tick) (sched : option state)
  : outcome :=
  match sched with
  | None => {| scheduler := None; sent := []; logged := [] |}
  | Some self =>
      let '(r, self, sent1, log1) :=
        slot (should_send_greeting (now_greeting_check t) self)
             LogMorning
             (generate_morning_greeting (now_greeting t) (http_greeting t))
             (send_greeting t) self in
      match r with
      | Raise e =>
          {| scheduler := Some self; sent := sent1;
             logged := log1 ++ [LogSchedulerError e] |}
      | Ret _ =>
          let '(r, self, sent2, log2) :=
            slot (should_send_farewell (now_farewell_check t) self)
                 LogEvening
                 (generate_evening_farewell (now_farewell t)
                                            (http_farewell t))
                 (send_farewell t) self in
          match r with
          | Raise e =>
              {| scheduler := Some self; sent := sent1 ++ sent2;
                 logged := log1 ++ log2 ++ [LogSchedulerError e] |}
          | Ret _ =>
              {| scheduler := Some self; sent := sent1 ++ sent2;
                 logged := log1 ++ log2 |}
          end
      end
  end.

(** The job run once per element of [ticks], in order. *)
Fixpoint run (ticks : list tick) (sched : option state) : list outcome :=
  match ticks with
  | [] => []
  | t :: ticks' =>
      let o := check_scheduled_messages t sched in
      o :: run ticks' (scheduler o)
  end.

End ScheduledMessages.

(* ===================================================================== *)
(** * Numbers: [int] against [float]                                       *)
(* ===================================================================== *)

Module PyNum.

(** A Python number that is an [int] or a [float]. *)
Inductive number : Type :=
  | Int (n : Z)
  | Float (f : float).

(** [f < n] for a float and an int.  Python compares the two exactly,
    without rounding the integer: a finite float is [(-1)^s * m * 2^e]. *)
Definition float_lt_int (f : float) (n : Z) : bool :=
  match Prim2SF f with
  | S754_nan => false
  | S754_infinity negative => negative
  | S754_zero _ => 0 <? n
  | S754_finite negative m e =>
      let v := if negative then Z.neg m else Z.pos m in
      if 0 <=? e then v * 2 ^ e <? n else v <? n * 2 ^ (- e)
  end.

(** [n < f], that is [f > n] *)
Definition int_lt_float (n : Z) (f : float) : bool :=
  match Prim2SF f with
  | S754_nan => false
  | S754_infinity negative => negb negative
  | S754_zero _ => n <? 0
  | S754_finite negative m e =>
      let v := if negative then Z.neg m else Z.pos m in
      if 0 <=? e then n <? v * 2 ^ e else n * 2 ^ (- e) <? v
  end.

(** [f < x] *)
Definition float_lt (f : float) (x : number) : bool :=
  match x with
  | Int n => float_lt_int f n
  | Float g => PrimFloat.ltb f g
  end.

(** [f > x] *)
Definition float_gt (f : float) (x : number) : bool :=
  match x with
  | Int n => int_lt_float n f
  | Float g => PrimFloat.ltb g f
  end.

(** [n * f] for an int and a float: the int is converted first. *)
Definition int_mul_float (n : Z) (f : float) : res number :=
  g ← float_of_int n; Ret (Float (g * f)%float).

End PyNum.

(* ===================================================================== *)
(** * [class SmartBot]: cooldown and periodic cleanup                      *)
(* ===================================================================== *)

(** What [cleanup_old_data] writes to the logger. *)
Inductive cleanup_log : Type :=
  | LogSweep (r : log_record)         (* the line of the database sweep *)
  | LogCleanupDone (removed : nat)    (* "Очистка завершена. Удалено {n} записей кулдауна" *)
  | LogCleanupError (e : exn).        (* "Ошибка очистки" *)

Module Bot.
Section Bot.
Context {Vec : Type}.

(** The part of a [SmartBot] the two methods read and write:
    [config.cooldown], [config.cleanup_interval], the context manager
    and [last_reaction], a [defaultdict(float)]. *)
Record state : Type := mk {
  cooldown : Z;
  cleanup_interval : Z;
  context_manager : AdvancedContextManager.state Vec;
  last_reaction : gmap Z float
}.

Definition with_last_reaction (lr : gmap Z float) (self : state) : state :=
  {| cooldown := cooldown self;
     cleanup_interval := cleanup_interval self;
     context_manager := context_manager self;
     last_reaction := lr |}.

Definition with_context_manager
    (cm : AdvancedContextManager.state Vec) (self : state) : state :=
  {| cooldown := cooldown self;
     cleanup_interval := cleanup_interval self;
     context_manager := cm;
     last_reaction := last_reaction self |}.

(** The cooldown that applies to an author: halved for a ["братан"],
    times 0.7 for a ["приятель"], the configured integer otherwise. *)
Definition cooldown_for (user_id : Z) (self : state) : res PyNum.number :=
  match AdvancedContextManager.user_profiles (context_manager self)
        !! user_id with
  | Some profile =>
      if bool_decide (relationship_level profile = "братан")
      then PyNum.int_mul_float (cooldown self) 0.5%float
      else if bool_decide (relationship_level profile = "приятель")
      then PyNum.int_mul_float (cooldown self) 0.7%float
      else Ret (PyNum.Int (cooldown self))
  | None => Ret (PyNum.Int (cooldown self))
  end.

(** [check_cooldown(user_id)] at clock reading [now].  Reading
    [self.last_reaction[user_id]] stores the default 0.0 for an author
    without an entry. *)
Definition check_cooldown (now : float) (user_id : Z) (self : state)
  : res bool * state :=
  match cooldown_for user_id self with
  | Raise e => (Raise e, self)
  | Ret cd =>
      let last := default 0%float (last_reaction self !! user_id) in
      let read := <[user_id := last]> (last_reaction self) in
      if PyNum.float_lt (now - last)%float cd
      then (Ret false, with_last_reaction read self)
      else (Ret true, with_last_reaction (<[user_id := now]> read) self)
  end.

(** [now - last_time > self.config.cleanup_interval] *)
Definition idle (now : float) (interval : Z) (last_time : float) : bool :=
  PyNum.int_lt_float interval (now - last_time)%float.

(** [cleanup_old_data()]; [now_db] is the clock reading inside
    [cleanup_old_messages], [now] the one taken after it. *)
Definition cleanup_old_data (now_db now : float) (self : state)
  : state * list cleanup_log :=
  let cm := context_manager self in
  let '(r, db, db_log) :=
    DatabaseManager.cleanup_old_messages
      now_db Constants.DEFAULT_CLEANUP_DAYS (AdvancedContextManager.db cm) in
  let self := with_context_manager (AdvancedContextManager.with_db db cm)
                                   self in
  match r with
  | Raise e => (self, map LogSweep db_log ++ [LogCleanupError e])
  | Ret _ =>
      let to_remove :=
        filter (fun kv => idle now (cleanup_interval self) kv.2 = true)
               (last_reaction self) in
      (with_last_reaction
         (filter (fun kv => idle now (cleanup_interval self) kv.2 = false)
                 (last_reaction self)) self,
       map LogSweep db_log ++ [LogCleanupDone (size to_remove)])
  end.
End Bot.
Arguments state Vec : clear implicits.
End Bot.

(* ===================================================================== *)
(** * Numbers as text                                                      *)
(* ===================================================================== *)

Module PyFmt.

(** [str(n)] for an [int] *)
Definition str_of_int (n : Z) : str := u (pretty n).

(** the line feed *)
Definition nl : str := [10%N].

(** [int(f)] for a [float]: the fraction is cut off; an infinity raises
    [OverflowError] and a NaN [ValueError], which is an [OtherError]
    here. *)
Definition int_of_float (f : float) : res Z :=
  match Prim2SF f with
  | S754_nan => Raise OtherError
  | S754_infinity _ => Raise OverflowError
  | S754_zero _ => Ret 0
  | S754_finite negative m e =>
      let v := if 0 <=? e then Z.pos m * 2 ^ e
               else Z.pos m / 2 ^ (- e) in
      Ret (if negative then - v else v)
  end.

(** [num / den] rounded to the nearest integer, a tie to the even one *)
Definition round_half_even (num den : Z) : Z :=
  let q := num / den in
  let r := num mod den in
  if den <? 2 * r then q + 1
  else if 2 * r =? den then (if Z.even q then q else q + 1)
  else q.

(** [format(f, ".1f")], the [{v:.1f}] of an f-string: the exact value of
    the float rounded to one decimal place. *)
Definition format_1f (f : float) : str :=
  match Prim2SF f with
  | S754_nan => u "nan"
  | S754_infinity negative => if negative then u "-inf" else u "inf"
  | S754_zero negative => if negative then u "-0.0" else u "0.0"
  | S754_finite negative m e =>
      let tenths :=
        if 0 <=? e then Z.pos m * 2 ^ e * 10
        else round_half_even (Z.pos m * 10) (2 ^ (- e)) in
      (if negative then u "-" else [])
        ++ str_of_int (tenths / 10) ++ u "." ++ str_of_int (tenths mod 10)
  end.

End PyFmt.

(* ===================================================================== *)
(** * [class MessageAnalyzer]: the style of a reply                        *)
(* ===================================================================== *)

Module Analyzer.

(** [traits.get(k, 0)]: the stored float, or the integer 0 *)
Definition trait (traits : gmap string float) (k : string) : PyNum.number :=
  match traits !! k with
  | Some v => PyNum.Float v
  | None => PyNum.Int 0
  end.

Definition base_styles : gmap string str :=
  list_to_map
    [("private_message", u "Говори прямо, без сахара. Ты в личке.");
     ("direct_mention", u "К тебе обратились напрямую. Покажи характер.");
     ("tech_question",
      u "Технический вопрос. Ответь как эксперт, но по-пацански.");
     ("question_to_chat", u "Вопрос в чат. Ответь с приколом, но помоги.");
     ("greeting", u "Поздоровались. Ответь по-свойски.");
     ("long_post", u "Длинный пост. Прокомментируй ехидно.");
     ("active_user", u "Активный пользователь. Поддержи общение.");
     ("random_response", u "Случайный ответ. Можешь поржать.");
     ("image_message",
      u "Картинка. Прокомментируй что видишь, можешь подъебать или похвалить мем.")].

Definition get_response_style
    (reason : string) (message : str) (profile : option UserProfile)
  : str :=
  let style :=
    default (u "Отвечай как пацан с района.") (base_styles !! reason) in
  match profile with
  | Some profile =>
      let style :=
        if bool_decide (relationship_level profile = "братан")
        then style ++ u " Это твой братан, общайся как с близким."
        else if bool_decide (relationship_level profile = "приятель")
        then style ++ u " Хороший знакомый, можешь быть более дружелюбным."
        else style in
      if PyNum.float_lt 0.7
           (trait (personality_traits profile) "агрессивность")
      then style ++ u " Пользователь агрессивный, будь жёстче."
      else if PyNum.float_lt 0.7
                (trait (personality_traits profile) "дружелюбность")
      then style ++ u " Пользователь дружелюбный, можешь быть мягче."
      else style
  | None => style
  end.

End Analyzer.

(* ===================================================================== *)
(** * [class PromptGenerator]                                              *)
(* ===================================================================== *)

Module PromptGenerator.
Section PromptGenerator.
(** [self.base_prompt], the persona text set by [__init__] *)
Variable base_prompt : str.

Definition reason_contexts : gmap string str :=
  list_to_map
    [("private_message", u "Личное сообщение. Отвечай прямо.");
     ("direct_mention", u "Прямое обращение. Покажи характер.");
     ("tech_question", u "Технический вопрос. Помоги как эксперт.");
     ("question_to_chat", u "Вопрос в чат. Ответь с приколом.");
     ("greeting", u "Приветствие. Ответь по-пацански.");
     ("long_post", u "Длинный пост. Прокомментируй ехидно.");
     ("active_user", u "Активный пользователь. Поддержи общение.");
     ("random_response", u "Случайный ответ. Можешь подъебать.");
     ("image_message", u "Картинка или мем. Прокомментируй что видишь.")].

(** the lines added under [###USER INFO###] *)
Definition user_info (user_profile : UserProfile) : str :=
  let info :=
    PyFmt.nl ++ PyFmt.nl ++ u "###USER INFO###" ++ PyFmt.nl
    ++ u "Пользователь: " ++ profile_username user_profile ++ u " ("
    ++ u (relationship_level user_profile) ++ u ")" ++ PyFmt.nl
    ++ u "Общений: "
    ++ PyFmt.str_of_int (interaction_count user_profile) ++ PyFmt.nl in
  let traits := personality_traits user_profile in
  let info :=
    if PyNum.float_lt 0.6 (Analyzer.trait traits "агрессивность")
    then info ++ u "Характер: агрессивный, отвечай жёстче" ++ PyFmt.nl
    else if PyNum.float_lt 0.6 (Analyzer.trait traits "дружелюбность")
    then info ++ u "Характер: дружелюбный, можешь быть мягче" ++ PyFmt.nl
    else info in
  match interests user_profile with
  | [] => info
  | _ :: _ =>
      info ++ u "Интересы: "
      ++ join (u ", ") (take 3 (interests user_profile)) ++ PyFmt.nl
  end.

(** the closing instruction *)
Definition response_request : str :=
  PyFmt.nl ++ PyFmt.nl ++ u "###RESPONSE###" ++ PyFmt.nl
  ++ u "Ответь коротко (1-2 предложения), жёстко, с матом если нужно, как настоящий пацан. Используй память и контекст:".

Definition generate_prompt
    (message context : str) (user_profile : option UserProfile)
    (response_reason : string) (style_hint : str) : str :=
  let prompt := base_prompt in
  let prompt :=
    match context with
    | [] => prompt
    | _ :: _ =>
        prompt ++ PyFmt.nl ++ PyFmt.nl ++ u "###CURRENT CONTEXT###"
        ++ PyFmt.nl ++ context ++ PyFmt.nl
    end in
  let prompt :=
    match user_profile with
    | Some user_profile => prompt ++ user_info user_profile
    | None => prompt
    end in
  let prompt :=
    match reason_contexts !! response_reason with
    | Some situation =>
        prompt ++ PyFmt.nl ++ PyFmt.nl ++ u "###SITUATION###" ++ PyFmt.nl
        ++ situation ++ PyFmt.nl
    | None => prompt
    end in
  let prompt :=
    prompt ++ PyFmt.nl ++ PyFmt.nl ++ u "###STYLE###" ++ PyFmt.nl
    ++ style_hint ++ PyFmt.nl in
  let prompt :=
    prompt ++ PyFmt.nl ++ PyFmt.nl ++ u "###USER MESSAGE###" ++ PyFmt.nl
    ++ message ++ PyFmt.nl in
  prompt ++ response_request.
End PromptGenerator.
End PromptGenerator.

(* ===================================================================== *)
(** * [class AdvancedContextManager]: the context shown to the model       *)
(* ===================================================================== *)

Module ContextText.
Section ContextText.
Context {Vec : Type}.
Variable encode : str -> res Vec.
Variable dot : Vec -> Vec -> float.
Variable argsort : list float -> list nat.
(** [time k] is the value of the [k]-th call of [time.time()]. *)
Variable time : nat -> float.
(** [d.items()]: the entries in the order the dictionary holds them,
    which the map does not record. *)
Variable items : gmap string float -> list (string * float).

#[local] Abbreviation state := (AdvancedContextManager.state Vec).

Definition with_log (l : list log_record) (self : state) : state :=
  {| AdvancedContextManager.context_window :=
       AdvancedContextManager.context_window self;
     AdvancedContextManager.db := AdvancedContextManager.db self;
     AdvancedContextManager.vector_memory :=
       AdvancedContextManager.vector_memory self;
     AdvancedContextManager.recent_messages :=
       AdvancedContextManager.recent_messages self;
     AdvancedContextManager.user_profiles :=
       AdvancedContextManager.user_profiles self;
     AdvancedContextManager.save_tasks :=
       AdvancedContextManager.save_tasks self;
     AdvancedContextManager.log := l |}.

(** The two loops of [get_smart_context] over messages: the age of each
    message is [int((time.time() - msg.timestamp) / seconds)], its text
    is cut to [width] code points.  [ticks] counts the clock readings. *)
Fixpoint message_lines (seconds : float) (width : nat) (unit : str)
                       (ticks : nat) (msgs : list Message)
  : res (list str) * nat :=
  match msgs with
  | [] => (Ret [], ticks)
  | msg :: rest =>
      match PyFmt.int_of_float
              ((time ticks - timestamp msg) / seconds)%float with
      | Raise e => (Raise e, S ticks)
      | Ret age =>
          let shown := take width (text msg) in
          let shown :=
            if has_image msg then shown ++ u " 📷" else shown in
          let line :=
            u "[" ++ username msg ++ u "] (" ++ PyFmt.str_of_int age
            ++ unit ++ u " назад): " ++ shown in
          match message_lines seconds width unit (S ticks) rest with
          | (Ret lines, ticks) => (Ret (line :: lines), ticks)
          | (Raise e, ticks) => (Raise e, ticks)
          end
      end
  end.

(** the three lines about the author *)
Definition profile_lines (profile : UserProfile) : list str :=
  let traits :=
    join (u ", ")
         (map (fun kv => u kv.1 ++ u ": " ++ PyFmt.format_1f kv.2)
              (items (personality_traits profile))) in
  let interests_str :=
    match interests profile with
    | [] => u "не определены"
    | _ :: _ => join (u ", ") (take 3 (interests profile))
    end in
  [PyFmt.nl ++ u "👤 " ++ profile_username profile ++ u " ("
     ++ u (relationship_level profile) ++ u ", "
     ++ PyFmt.str_of_int (interaction_count profile) ++ u " сообщений)";
   u "   Характер: " ++ traits;
   u "   Интересы: " ++ interests_str].

(** [get_smart_context(user_id, query, limit)]; the argument [limit] is
    not used by the function. *)
Definition get_smart_context
    (user_id : Z) (query : str) (limit : Z) (ticks : nat) (self : state)
  : res str * state * nat :=
  let recent := lastn 5 (AdvancedContextManager.recent_messages self) in
  let '(recent_part, ticks) :=
    match recent with
    | [] => (Ret [], ticks)
    | _ :: _ =>
        match message_lines 60 80 (u "м") ticks recent with
        | (Ret lines, ticks) =>
            (Ret (u "🕐 Недавние сообщения:" :: lines), ticks)
        | (Raise e, ticks) => (Raise e, ticks)
        end
    end in
  match recent_part with
  | Raise e => (Raise e, self, ticks)
  | Ret context_parts =>
      let context_parts :=
        match AdvancedContextManager.user_profiles self !! user_id with
        | Some profile => context_parts ++ profile_lines profile
        | None => context_parts
        end in
      let '(similar, search_log) :=
        VectorMemory.search_similar
          encode dot argsort query 3
          (AdvancedContextManager.vector_memory self) in
      let self :=
        with_log (AdvancedContextManager.log self ++ search_log) self in
      match similar with
      | [] => (Ret (join PyFmt.nl context_parts), self, ticks)
      | _ :: _ =>
          match message_lines 86400 60 (u "д") ticks similar with
          | (Ret lines, ticks) =>
              (Ret (join PyFmt.nl
                      (context_parts
                       ++ (PyFmt.nl ++ u "🧠 Релевантные воспоминания:")
                          :: lines)),
               self, ticks)
          | (Raise e, ticks) => (Raise e, self, ticks)
          end
      end
  end.

(** The loop of [get_context]: one line for each message that is less
    than 300 seconds old at its reading of the clock. *)
Fixpoint context_lines (ticks : nat) (msgs : list Message) : list str :=
  match msgs with
  | [] => []
  | msg :: rest =>
      let time_ago := (time ticks - timestamp msg)%float in
      if PyNum.float_lt_int time_ago 300 then
        let prefix := u "[" ++ username msg ++ u "]" in
        let prefix :=
          if is_reply msg
          then prefix ++ u " (ответ "
               ++ default (u "None") (reply_to_user msg) ++ u ")"
          else prefix in
        let shown := take 100 (text msg) in
        let shown :=
          if has_image msg then shown ++ u " 📷" else shown in
        (prefix ++ u ": " ++ shown) :: context_lines (S ticks) rest
      else context_lines (S ticks) rest
  end.

Definition get_context (limit : Z) (ticks : nat) (self : state) : str :=
  match AdvancedContextManager.recent_messages self with
  | [] => []
  | _ :: _ =>
      let recent_messages :=
        slice_from_neg limit (AdvancedContextManager.recent_messages self) in
      join PyFmt.nl (context_lines ticks recent_messages)
  end.
End ContextText.
End ContextText.

(* ===================================================================== *)
(** * The message handlers                                                 *)
(* ===================================================================== *)

(** What an update of the messenger library carries, as far as the
    handlers read it. *)
Module Telegram.

Record User : Type := mkUser {
  id : Z;
  is_bot : bool;
  full_name : str;
  username : option str
}.

Record Message : Type := mkMessage {
  text : option str;
  message_id : Z;
  (** the message replied to, with its [from_user] *)
  reply_to_message : option (option User)
}.

(** An update with a sender and a message *)
Record Update : Type := mkUpdate {
  effective_user : User;
  message : Message;
  effective_chat_id : Z
}.

End Telegram.

(** What a handler or a command does to the outside, in order: the
    calls of the messenger gateway and the lines written to the logger. *)
Inductive handler_event : Type :=
  | LogAnswering (full_name : str) (reason : string)  (* "Отвечаю {name}: {reason}" *)
  | ChatAction (chat_id : Z)                          (* send_chat_action(..., "typing") *)
  | SendMessage (chat_id : Z) (thread : option Z) (reply : str)
  | ReplyText (reply : str)                           (* message.reply_text *)
  | LogFloodError (e : exn)                           (* "Ошибка в handle_flood_message" *)
  | LogPrivateError (e : exn)                         (* "Ошибка в ЛС" *)
  | LogScheduleTestError (e : exn)                    (* "Ошибка в schedule_test" *)
  | LogStatusError (e : exn).                         (* "Ошибка в status" *)

Module Handlers.
Section Handlers.
Context {Vec : Type}.
Variable encode : str -> res Vec.
Variable dot : Vec -> Vec -> float.
Variable argsort : list float -> list nat.
Variable lower : str -> str.
Variable items : gmap string float -> list (string * float).
(** [self.base_prompt] and [config.flood_topic_id] *)
Variable base_prompt : str.
Variable flood_topic_id : option Z.

(** What one run of a handler meets: the readings of the clock and the
    draws of [random.random()] in the order of the calls, the outcome of
    the HTTP request to the inference service, and the outcomes of the
    gateway calls. *)
Record run_env : Type := mkEnv {
  time : nat -> float;
  random : nat -> float;
  http : res SmartBot.response;
  typing : res unit;        (* send_chat_action *)
  delivery : res unit;      (* send_message, reply_text of the reply *)
  apology : res unit        (* reply_text in the except branch *)
}.

(** The bot and the events of the run so far. *)
Record world : Type := mkWorld {
  bot : Bot.state Vec;
  events : list handler_event
}.

(** A step of a handler changes the world and returns or raises. *)
Definition M (A : Type) : Type := world -> res A * world.

#[export] Instance M_ret : MRet M := fun A a w => (Ret a, w).
#[export] Instance M_bind : MBind M := fun A B k m w =>
  match m w with
  | (Ret a, w) => k a w
  | (Raise e, w) => (Raise e, w)
  end.

Definition lift {A} (r : res A) : M A := fun w => (r, w).

Definition emit (ev : handler_event) : M unit := fun w =>
  (Ret tt, {| bot := bot w; events := events w ++ [ev] |}).

(** a call of the gateway: it is made, then it returns or raises *)
Definition call (ev : handler_event) (outcome : res unit) : M unit :=
  _ ← emit ev; lift outcome.

(** [try: body except Exception as e: handler(e)] *)
Definition try_except {A} (body : M A) (handler : exn -> M A) : M A :=
  fun w =>
    match body w with
    | (Ret a, w) => (Ret a, w)
    | (Raise e, w) => handler e w
    end.

Definition context_manager : M (AdvancedContextManager.state Vec) :=
  fun w => (Ret (Bot.context_manager (bot w)), w).

Definition set_context_manager (cm : AdvancedContextManager.state Vec)
  : M unit := fun w =>
  (Ret tt, {| bot := Bot.with_context_manager cm (bot w);
              events := events w |}).

(** [smart_bot.check_cooldown(user.id)] *)
Definition check_cooldown (now : float) (user_id : Z) : M bool := fun w =>
  let '(r, b) := Bot.check_cooldown now user_id (bot w) in
  (r, {| bot := b; events := events w |}).

(** [smart_bot.context_manager.add_message(msg)] *)
Definition add_message (msg : Message) : M unit :=
  cm ← context_manager;
  let '(r, cm) := AdvancedContextManager.add_message encode lower msg cm in
  _ ← set_context_manager cm;
  lift r.

(** [smart_bot.context_manager.get_smart_context(...)], the clock read
    from its [ticks]-th reading on *)
Definition get_smart_context
    (env : run_env) (user_id : Z) (query : str) (limit : Z) (ticks : nat)
  : M str :=
  cm ← context_manager;
  let '(r, cm, _) :=
    ContextText.get_smart_context
      encode dot argsort (time env) items user_id query limit ticks cm in
  _ ← set_context_manager cm;
  lift r.

(** [user.full_name or user.username or "Аноним"] *)
Definition display_name (user : Telegram.User) : str :=
  match Telegram.full_name user with
  | _ :: _ => Telegram.full_name user
  | [] =>
      match Telegram.username user with
      | Some (c :: name) => c :: name
      | _ => u "Аноним"
      end
  end.

(** [create_message_object(user, message, chat_id)] at clock reading
    [now].  Reading [full_name] of a missing [from_user] raises. *)
Definition create_message_object
    (user : Telegram.User) (message : Telegram.Message) (chat_id : Z)
    (now : float) : res Message :=
  reply_to_user ←
    match Telegram.reply_to_message message with
    | Some (Some author) => Ret (Some (Telegram.full_name author))
    | Some None => Raise AttributeError
    | None => Ret None
    end;
  Ret {| user_id := Telegram.id user;
         username := display_name user;
         text := default [] (Telegram.text message);
         timestamp := now;
         chat_id := chat_id;
         message_id := Telegram.message_id message;
         is_reply :=
           match Telegram.reply_to_message message with
           | Some _ => true
           | None => false
           end;
         reply_to_user := reply_to_user;
         sentiment := None;
         importance := 0.5;
         has_image := false;
         image_description := None |}.

(** [not message.text] *)
Definition no_text (message : Telegram.Message) : bool :=
  match Telegram.text message with
  | Some (_ :: _) => false
  | _ => true
  end.

(** the [try] block of [handle_flood_message] *)
Definition flood_reply
    (env : run_env) (update : Telegram.Update) (msg : Message)
    (reason : string) : M unit :=
  let user := Telegram.effective_user update in
  smart_context ← get_smart_context env (Telegram.id user) (text msg) 10 2;
  cm ← context_manager;
  let user_profile :=
    AdvancedContextManager.user_profiles cm !! Telegram.id user in
  let style_hint :=
    Analyzer.get_response_style reason (text msg) user_profile in
  let prompt :=
    PromptGenerator.generate_prompt
      base_prompt (text msg) smart_context user_profile reason style_hint in
  _ ← call (ChatAction (Telegram.effective_chat_id update)) (typing env);
  reply ← lift (SmartBot.ask_local_model (SmartBot.Chat prompt) (http env));
  call (SendMessage (Telegram.effective_chat_id update) flood_topic_id reply)
       (delivery env).

Definition handle_flood_message (env : run_env) (update : Telegram.Update)
  : M unit :=
  let user := Telegram.effective_user update in
  let message := Telegram.message update in
  if Telegram.is_bot user then mret tt
  else if no_text message then mret tt
  else
    free ← check_cooldown (time env 0) (Telegram.id user);
    if negb free then mret tt
    else
      msg ← lift (create_message_object
                    user message (Telegram.effective_chat_id update)
                    (time env 1));
      _ ← add_message msg;
      cm ← context_manager;
      let '((should_respond, reason), _) :=
        MessageAnalyzer.should_respond
          lower (random env) (text msg) cm (Telegram.id user) false false 0 in
      if negb should_respond then mret tt
      else
        _ ← emit (LogAnswering (Telegram.full_name user) reason);
        try_except (flood_reply env update msg reason)
                   (fun e => emit (LogFloodError e)).

(** the [try] block of [handle_private_message] *)
Definition private_reply (env : run_env) (update : Telegram.Update)
  : M unit :=
  let user := Telegram.effective_user update in
  let message := Telegram.message update in
  let msg :=
    {| user_id := Telegram.id user;
       username := display_name user;
       text := default [] (Telegram.text message);
       timestamp := time env 1;
       chat_id := Telegram.effective_chat_id update;
       message_id := Telegram.message_id message;
       is_reply := false;
       reply_to_user := None;
       sentiment := None;
       importance := 0.5;
       has_image := false;
       image_description := None |} in
  _ ← add_message msg;
  _ ← call (ChatAction (Telegram.effective_chat_id update)) (typing env);
  smart_context ← get_smart_context env (Telegram.id user) (text msg) 5 2;
  cm ← context_manager;
  let user_profile :=
    AdvancedContextManager.user_profiles cm !! Telegram.id user in
  let reason := "private_message" in
  let style := u "Говори прямо, без сахара. Ты в личке." in
  let prompt :=
    PromptGenerator.generate_prompt
      base_prompt (text msg) smart_context user_profile reason style in
  reply ← lift (SmartBot.ask_local_model (SmartBot.Chat prompt) (http env));
  call (ReplyText reply) (delivery env).

Definition handle_private_message (env : run_env) (update : Telegram.Update)
  : M unit :=
  let user := Telegram.effective_user update in
  let message := Telegram.message update in
  if Telegram.is_bot user then mret tt
  else if no_text message then mret tt
  else
    free ← check_cooldown (time env 0) (Telegram.id user);
    if negb free then mret tt
    else
      try_except
        (private_reply env update)
        (fun e =>
           _ ← emit (LogPrivateError e);
           call (ReplyText (u "Чёт глюканул, попробуй ещё раз."))
                (apology env)).
End Handlers.
Arguments world Vec : clear implicits.
End Handlers.

(* ===================================================================== *)
(** * Start-up: [AdvancedContextManager.__init__] on a database file       *)
(* ===================================================================== *)

Module Startup.
Section Startup.
Context {Vec : Type}.
Variable encode : str -> res Vec.
(** [ORDER BY timestamp DESC]: the rows as the database sorts them *)
Variable order_by_timestamp_desc :
  list (DatabaseManager.row Vec) -> list (DatabaseManager.row Vec).

#[local] Abbreviation state := (AdvancedContextManager.state Vec).

(** The body of the loop of [load_recent_messages]: the row becomes a
    [Message] again, enters the window and is indexed anew.  Nothing in
    it raises, so the inner [except] is never entered. *)
Definition load_row (self : state) (row : DatabaseManager.row Vec)
  : state :=
  let msg := DatabaseManager.message row in
  let '(vm, vm_log) :=
    VectorMemory.add_message
      encode msg (AdvancedContextManager.vector_memory self) in
  {| AdvancedContextManager.context_window :=
       AdvancedContextManager.context_window self;
     AdvancedContextManager.db := AdvancedContextManager.db self;
     AdvancedContextManager.vector_memory := vm;
     AdvancedContextManager.recent_messages :=
       AdvancedContextManager.deque_append
         (AdvancedContextManager.context_window self) msg
         (AdvancedContextManager.recent_messages self);
     AdvancedContextManager.user_profiles :=
       AdvancedContextManager.user_profiles self;
     AdvancedContextManager.save_tasks :=
       AdvancedContextManager.save_tasks self;
     AdvancedContextManager.log :=
       AdvancedContextManager.log self ++ vm_log |}.

(** [load_recent_messages()]; the number returned is the [loaded_count]
    it logs. *)
Definition load_recent_messages (self : state) : state * nat :=
  let rows :=
    take (AdvancedContextManager.context_window self)
         (order_by_timestamp_desc
            (DatabaseManager.messages (AdvancedContextManager.db self))) in
  (fold_left load_row (rev rows) self, length rows).

(** [__init__] on the database [db]: [init_database] creates the tables
    only if they are missing. *)
Definition init (window : nat) (db : DatabaseManager.state Vec)
  : state * nat :=
  load_recent_messages
    {| AdvancedContextManager.context_window := window;
       AdvancedContextManager.db := db;
       AdvancedContextManager.vector_memory := VectorMemory.init;
       AdvancedContextManager.recent_messages := [];
       AdvancedContextManager.user_profiles := ∅;
       AdvancedContextManager.save_tasks := [];
       AdvancedContextManager.log := [] |}.
End Startup.
End Startup.

(* ===================================================================== *)
(** * The command [/schedule_test]                                         *)
(* ===================================================================== *)

Module Commands.
Section Commands.
(** [moscow_time.strftime('%H:%M, %A')] *)
Variable strftime : ScheduledMessages.datetime -> str.

(** What one run of the command meets: the clock at each of the three
    places that read it, the outcome of each inference request, and the
    outcomes of [reply_text] in the [try] block and in its handler. *)
Record test_env : Type := mkTestEnv {
  now_greeting : ScheduledMessages.datetime;
  http_greeting : res SmartBot.response;
  now_farewell : ScheduledMessages.datetime;
  http_farewell : res SmartBot.response;
  now_report : ScheduledMessages.datetime;
  report : res unit;
  excuse : res unit
}.

Definition indent : str := u "        ".

Definition test_text
    (moscow_time : ScheduledMessages.datetime) (greeting farewell : str)
  : str :=
  u "🧪 **Тест планировщика**" ++ PyFmt.nl
  ++ indent ++ u "⏰ Время МСК: " ++ strftime moscow_time ++ PyFmt.nl
  ++ PyFmt.nl
  ++ indent ++ u "🌅 **Утреннее приветствие:**" ++ PyFmt.nl
  ++ indent ++ greeting ++ PyFmt.nl
  ++ PyFmt.nl
  ++ indent ++ u "🌇 **Вечернее прощание:**" ++ PyFmt.nl
  ++ indent ++ farewell.

(** the [except] branch, entered with the replies made so far *)
Definition failed
    (env : test_env) (e : exn) (sched : option ScheduledMessages.state)
    (events : list handler_event) (logged : list log_record)
  : res unit * option ScheduledMessages.state * list handler_event
    * list log_record :=
  (excuse env, sched,
   events ++ [LogScheduleTestError e;
              ReplyText (u "Чёт с тестом планировщика хуйня.")],
   logged).

(** [schedule_test]; [smart_bot.scheduler] is [None] when the schedule
    is disabled. *)
Definition schedule_test
    (env : test_env) (sched : option ScheduledMessages.state)
  : res unit * option ScheduledMessages.state * list handler_event
    * list log_record :=
  match sched with
  | None =>
      let answer := ReplyText (u "Планировщик отключен.") in
      match report env with
      | Ret _ => (Ret tt, None, [answer], [])
      | Raise e => failed env e None [answer] []
      end
  | Some self =>
      let '(greeting, self, log1) :=
        ScheduledMessages.generate_morning_greeting
          (now_greeting env) (http_greeting env) self in
      match greeting with
      | Raise e => failed env e (Some self) [] log1
      | Ret greeting =>
          let '(farewell, self, log2) :=
            ScheduledMessages.generate_evening_farewell
              (now_farewell env) (http_farewell env) self in
          match farewell with
          | Raise e => failed env e (Some self) [] (log1 ++ log2)
          | Ret farewell =>
              let answer :=
                ReplyText (test_text (now_report env) greeting farewell) in
              match report env with
              | Ret _ => (Ret tt, Some self, [answer], log1 ++ log2)
              | Raise e =>
                  failed env e (Some self) [answer] (log1 ++ log2)
              end
          end
      end
  end.
End Commands.
End Commands.

(* ===================================================================== *)
(** * The command [/status]                                                *)
(* ===================================================================== *)

(** [@dataclass class BotConfig] *)
Module BotConfig.
Record t : Type := mk {
  telegram_bot_token : str;
  chat_id : Z;
  flood_topic_id : option Z;
  lm_studio_url : str;
  model_name : str;
  cooldown : Z;
  max_tokens : Z;
  context_window : Z;
  response_probability : float;
  cleanup_interval : Z;
  memory_db_path : str;
  embedding_model : str;
  max_parallel_requests : Z;
  enable_schedule : bool;
  morning_time : str;
  evening_time : str;
  timezone : str
}.

(** [config.enable_vision]: the class has no field of this name, and
    nothing sets one on the instance. *)
Definition enable_vision (config : t) : res bool := Raise AttributeError.
End BotConfig.

Module Status.
Section Status.
Context {Vec : Type}.
(** [time k] is the value of the [k]-th call of [time.time()]. *)
Variable time : nat -> float.
(** [d.values()]: the profiles in the order the dictionary holds them *)
Variable values : gmap Z UserProfile -> list UserProfile.
(** [moscow_time.strftime('%H:%M')] *)
Variable strftime : ScheduledMessages.datetime -> str.

Definition ACTIVE_USER_THRESHOLD_SEC : Z := 3600.

(** What one run of the command meets. *)
Record status_env : Type := mkStatusEnv {
  session : res unit;           (* aiohttp.ClientSession(...) *)
  health : res Z;               (* the status of GET /health *)
  models : res Z;               (* the status of GET /v1/models *)
  now_moscow : ScheduledMessages.datetime;
  report : res unit;            (* reply_text / send_message of the status *)
  excuse : res unit             (* reply_text in the except branch *)
}.

(** [SmartBot.check_lm_studio_health] *)
Definition check_lm_studio_health (env : status_env) : bool :=
  match session env with
  | Raise _ => false
  | Ret _ =>
      match health env with
      | Ret status => status =? Constants.HTTP_OK
      | Raise _ =>
          match models env with
          | Ret status => status =? Constants.HTTP_OK
          | Raise _ => false
          end
      end
  end.

(** the profiles seen less than an hour before the reading of the
    clock made for each *)
Fixpoint active (ticks : nat) (profiles : list UserProfile)
  : list UserProfile :=
  match profiles with
  | [] => []
  | p :: rest =>
      if PyNum.float_lt_int (time ticks - last_seen p)%float
                            ACTIVE_USER_THRESHOLD_SEC
      then p :: active (S ticks) rest
      else active (S ticks) rest
  end.

Definition status_text
    (recent_count images_count total_users active_users : nat)
    (lm_status vision_status schedule_status moscow_time : str)
    (relationships : string -> nat) : str :=
  u "📊 **Статус Димона**" ++ PyFmt.nl
  ++ u "        🧠 В памяти: " ++ PyFmt.str_of_int (Z.of_nat recent_count) ++ u " сообщений" ++ PyFmt.nl
  ++ u "        📷 Картинок: " ++ PyFmt.str_of_int (Z.of_nat images_count) ++ PyFmt.nl
  ++ u "        👥 Всего юзеров: " ++ PyFmt.str_of_int (Z.of_nat total_users) ++ PyFmt.nl
  ++ u "        🔥 Активных: " ++ PyFmt.str_of_int (Z.of_nat active_users) ++ PyFmt.nl
  ++ u "        🤖 Модель: " ++ lm_status ++ PyFmt.nl
  ++ u "        👁 Vision: " ++ vision_status ++ PyFmt.nl
  ++ u "        ⏰ Планировщик: " ++ schedule_status ++ PyFmt.nl
  ++ u "        🇷🇺 Время МСК: " ++ moscow_time ++ PyFmt.nl
  ++ PyFmt.nl
  ++ u "        👨‍👩‍👧‍👦 **Отношения:**" ++ PyFmt.nl
  ++ u "        • Братанов: " ++ PyFmt.str_of_int (Z.of_nat (relationships "братан")) ++ PyFmt.nl
  ++ u "        • Приятелей: " ++ PyFmt.str_of_int (Z.of_nat (relationships "приятель")) ++ PyFmt.nl
  ++ u "        • Знакомых: " ++ PyFmt.str_of_int (Z.of_nat (relationships "знакомый")) ++ PyFmt.nl
  ++ u "        • Незнакомцев: " ++ PyFmt.str_of_int (Z.of_nat (relationships "незнакомец")).

(** the [try] block of [status] *)
Definition status_body
    (env : status_env) (config : BotConfig.t) (is_private : bool)
    (chat_id : Z) (cm : AdvancedContextManager.state Vec)
    (scheduler : option ScheduledMessages.state)
  : res unit * list handler_event :=
  let recent_count :=
    length (AdvancedContextManager.recent_messages cm) in
  let total_users := size (AdvancedContextManager.user_profiles cm) in
  let active_users :=
    length (active 0 (values (AdvancedContextManager.user_profiles cm))) in
  let images_count :=
    length (List.filter has_image
                        (AdvancedContextManager.recent_messages cm)) in
  let relationships (level : string) : nat :=
    length (List.filter
              (fun p => bool_decide (relationship_level p = level))
              (values (AdvancedContextManager.user_profiles cm))) in
  let lm_status :=
    if check_lm_studio_health env then u "🟢 Фигачит" else u "🔴 Сдох" in
  match BotConfig.enable_vision config with
  | Raise e => (Raise e, [])
  | Ret enable_vision =>
      let vision_status :=
        if enable_vision then u "🟢 Включен" else u "🔴 Отключен" in
      let schedule_status :=
        if BotConfig.enable_schedule config
        then u "🟢 Включен" else u "🔴 Отключен" in
      let moscow_time :=
        match scheduler with
        | Some _ => strftime (now_moscow env)
        | None => []
        end in
      let text :=
        status_text recent_count images_count total_users active_users
                    lm_status vision_status schedule_status moscow_time
                    relationships in
      if is_private then (report env, [ReplyText text])
      else (report env,
            [SendMessage chat_id (BotConfig.flood_topic_id config) text])
  end.

Definition status
    (env : status_env) (config : BotConfig.t) (is_private : bool)
    (chat_id : Z) (cm : AdvancedContextManager.state Vec)
    (scheduler : option ScheduledMessages.state)
  : res unit * list handler_event :=
  match status_body env config is_private chat_id cm scheduler with
  | (Ret _, events) => (Ret tt, events)
  | (Raise e, events) =>
      (excuse env,
       events ++ [LogStatusError e;
                  ReplyText (u "Чёт со статусом хуйня.")])
  end.
End Status.
End Status.

(* ===================================================================== *)
(** * [class DatabaseManager]: the history of an author                    *)
(* ===================================================================== *)

Module History.
Section History.
Context {Vec : Type}.
(** [ORDER BY timestamp DESC]: the rows as the database sorts them *)
Variable order_by_timestamp_desc :
  list (DatabaseManager.row Vec) -> list (DatabaseManager.row Vec).

(** [get_user_history(user_id, limit)]: [WHERE user_id = ?], then the
    order, then [LIMIT ?], which bounds nothing when it is negative. *)
Definition get_user_history
    (uid : Z) (limit : Z) (self : DatabaseManager.state Vec)
  : list Message :=
  let rows :=
    order_by_timestamp_desc
      (List.filter (fun r => user_id (DatabaseManager.message r) =? uid)
                   (DatabaseManager.messages self)) in
  let rows := if limit <? 0 then rows else take (Z.to_nat limit) rows in
  map DatabaseManager.message rows.
End History.
End History.

(* ===================================================================== *)
(** * Definitions used to state the properties                             *)
(* ===================================================================== *)

(** The two counts [_analyze_sentiment] compares. *)
Definition pos_count (lower : str -> str) (t : str) : nat :=
  count_in AdvancedContextManager.positive_words (lower t).
Definition neg_count (lower : str -> str) (t : str) : nat :=
  count_in AdvancedContextManager.negative_words (lower t).

(** The verdict with the two polarities exchanged. *)
Definition flip_sentiment (s : string) : string :=
  if bool_decide (s = "positive") then "negative"
  else if bool_decide (s = "negative") then "positive"
  else s.

(** The same event with the attachment flag set to [b]. *)
Definition set_has_image (b : bool) (m : Message) : Message :=
  {| user_id := user_id m; username := username m; text := text m;
     timestamp := timestamp m; chat_id := chat_id m;
     message_id := message_id m; is_reply := is_reply m;
     reply_to_user := reply_to_user m; sentiment := sentiment m;
     importance := importance m; has_image := b;
     image_description := image_description m |}.

(** The threshold table of the specification: the tier that belongs to
    an interaction count (close friend ["братан"], friend ["приятель"],
    acquaintance ["знакомый"], stranger ["незнакомец"]). *)
Definition tier_of_count (n : Z) : string :=
  if 50 <? n then "братан"
  else if 20 <? n then "приятель"
  else if 5 <? n then "знакомый"
  else "незнакомец".

(** The order stranger < acquaintance < friend < close friend. *)
Definition tier_rank (l : string) : nat :=
  if bool_decide (l = "братан") then 3
  else if bool_decide (l = "приятель") then 2
  else if bool_decide (l = "знакомый") then 1
  else 0.

(** The three traits every profile is created with. *)
Definition has_traits (t : gmap string float) : Prop :=
  is_Some (t !! "агрессивность")
  /\ is_Some (t !! "дружелюбность")
  /\ is_Some (t !! "юмор").

(** What holds of every profile the program builds. *)
Definition profile_ok (p : UserProfile) : Prop :=
  relationship_level p = tier_of_count (interaction_count p)
  /\ has_traits (personality_traits p).

Definition store_ok (ps : gmap Z UserProfile) : Prop :=
  forall uid p, ps !! uid = Some p -> profile_ok p.

(** [_update_user_profile] called for each message of [ms] in turn. *)
Definition updates {Vec} (lower : str -> str) (ms : list Message)
    (self : AdvancedContextManager.state Vec)
  : AdvancedContextManager.state Vec :=
  fold_left
    (fun st m => snd (AdvancedContextManager._update_user_profile lower m st))
    ms self.

(** [VectorMemory.add_message] called for each message of [ms] in turn. *)
Definition add_all {Vec} (encode : str -> res Vec) (ms : list Message)
    (vm : VectorMemory.state Vec) : VectorMemory.state Vec :=
  fold_left (fun st m => (VectorMemory.add_message encode m st).1) ms vm.

(** The encoder accepts the text of [m]. *)
Definition encodable {Vec} (encode : str -> res Vec) (m : Message) : bool :=
  match encode (VectorMemory.text_for_embedding m) with
  | Ret _ => true
  | Raise _ => false
  end.

(** [m] is stored at some position of the index with an embedding whose
    similarity to the query [q] is above 0.3. *)
Definition similar_entry {Vec} (encode : str -> res Vec)
    (dot : Vec -> Vec -> float) (vm : VectorMemory.state Vec) (q : str)
    (m : Message) : Prop :=
  exists (i : nat) (e qe : Vec),
    encode q = Ret qe
    /\ VectorMemory.embeddings vm !! i = Some e
    /\ VectorMemory.messages vm !! i = Some m
    /\ PrimFloat.ltb 0.3 (dot e qe) = true.

(** Scenario D: at clock reading [scenario_now] the store holds one
    event written 31 days ago and one written one day ago. *)
Definition scenario_now : float := 1700000000%float.

Definition scenario_event (uid : Z) (ts : float) : Message :=
  mkMessage uid (u "Вася") (u "привет") ts 1 uid false None (Some "neutral")
            0.5%float false None.

Definition scenario_old : DatabaseManager.row unit :=
  DatabaseManager.mkRow 1
    (scenario_event 1 (scenario_now - 31 * 86400)%float) None.
Definition scenario_recent : DatabaseManager.row unit :=
  DatabaseManager.mkRow 2
    (scenario_event 2 (scenario_now - 86400)%float) None.

Definition scenario_db : DatabaseManager.state unit :=
  {| DatabaseManager.messages := [scenario_old; scenario_recent];
     DatabaseManager.last_id := 2;
     DatabaseManager.user_profiles := ∅ |}.

(** A word of [str.split]: not empty and free of white space. *)
Definition word (w : str) : Prop :=
  w <> [] /\ Forall (fun c => is_space c = false) w.

(** The reply the program makes of a scrubbed model output: a canned
    reply when it is shorter than [MIN_REPLY_LENGTH], its first
    [MAX_REPLY_LENGTH] code points and an ellipsis when it is longer than
    that, the output itself otherwise. *)
Definition shaped (scrubbed reply : str) : Prop :=
  ((length scrubbed < 3)%nat -> reply = u "Чё?")
  /\ ((3 <= length scrubbed <= 300)%nat -> reply = scrubbed)
  /\ ((300 < length scrubbed)%nat -> reply = take 300 scrubbed ++ u "...").

(** A run of the scheduler job triggered the morning (evening)
    announcement: the job logs [LogMorning] ([LogEvening]) right before
    it calls the generator, and nowhere else. *)
Definition is_morning (r : log_record) : bool :=
  match r with LogMorning => true | _ => false end.
Definition is_evening (r : log_record) : bool :=
  match r with LogEvening => true | _ => false end.
Definition greeting_triggered (o : ScheduledMessages.outcome) : bool :=
  existsb is_morning (ScheduledMessages.logged o).
Definition farewell_triggered (o : ScheduledMessages.outcome) : bool :=
  existsb is_evening (ScheduledMessages.logged o).

(** Every clock reading of the run [t] falls on the calendar day [d]. *)
Definition tick_on (d : Z) (t : ScheduledMessages.tick) : Prop :=
  ScheduledMessages.date (ScheduledMessages.now_greeting_check t) = d
  /\ ScheduledMessages.date (ScheduledMessages.now_greeting t) = d
  /\ ScheduledMessages.date (ScheduledMessages.now_farewell_check t) = d
  /\ ScheduledMessages.date (ScheduledMessages.now_farewell t) = d.

(** Monday to Friday, from [first]:00 to [first]:59 local time. *)
Definition in_window (first : Z) (now : ScheduledMessages.datetime) : Prop :=
  0 <= ScheduledMessages.weekday now <= 4
  /\ ScheduledMessages.hour now = first.

(** A run of the job at [h]:[m] local time on the day with ordinal [d],
    with an inference service that times out and a gateway that accepts
    the message. *)
Definition tick_at (d h m : Z) : ScheduledMessages.tick :=
  let now := ScheduledMessages.mkDatetime d h m in
  ScheduledMessages.mkTick now now (Raise TimeoutError) (Ret tt)
                           now now (Raise TimeoutError) (Ret tt).

(** Monday 2 January 2023 ([date(2023, 1, 2).toordinal()]): the job runs
    twice inside the morning window, once before and once after it. *)
Definition monday : Z := 738522.
Definition monday_ticks : list ScheduledMessages.tick :=
  [tick_at monday 7 55; tick_at monday 8 0; tick_at monday 8 5;
   tick_at monday 9 0].

(** A two-dimensional encoder to run the index on examples: one
    coordinate per topic word; a text with a ['!'] is refused. *)
Definition toy_encode (t : str) : res (list float) :=
  if contains (u "!") t then Raise OtherError
  else Ret [if contains (u "кот") t then 1%float else 0%float;
            if contains (u "код") t then 1%float else 0%float].

Fixpoint toy_dot (a b : list float) : float :=
  match a, b with
  | x :: a', y :: b' => (x * y + toy_dot a' b')%float
  | _, _ => 0%float
  end.

(** An event of author 7 with text [t] and sequence number [n]. *)
Definition event (n : Z) (t : str) : Message :=
  mkMessage 7 (u "Вася") t 100%float 1 n false None None 0.5%float false
            None.

(** The event as [add_message] stores it: the two derived fields set. *)
Definition derive (lower : str -> str) (m : Message) : Message :=
  {| user_id := user_id m; username := username m; text := text m;
     timestamp := timestamp m; chat_id := chat_id m;
     message_id := message_id m; is_reply := is_reply m;
     reply_to_user := reply_to_user m;
     sentiment :=
       Some (AdvancedContextManager._analyze_sentiment lower (text m));
     importance := AdvancedContextManager._calculate_importance lower m;
     has_image := has_image m;
     image_description := image_description m |}.

(** [AdvancedContextManager.add_message] called for each event of [ms]
    in turn. *)
Definition ingest {Vec} (encode : str -> res Vec) (lower : str -> str)
    (ms : list Message) (self : AdvancedContextManager.state Vec)
  : AdvancedContextManager.state Vec :=
  fold_left
    (fun st m => (AdvancedContextManager.add_message encode lower m st).2)
    ms self.

(** The data-model invariant of an event: a score between 0 and 1 and
    one of the three verdicts. *)
Definition event_ok (m : Message) : Prop :=
  PrimFloat.leb 0 (importance m) = true
  /\ PrimFloat.leb (importance m) 1 = true
  /\ (sentiment m = Some "positive" \/ sentiment m = Some "negative"
      \/ sentiment m = Some "neutral").

(** The events of [ms] written by the author [uid]. *)
Definition events_of (uid : Z) (ms : list Message) : list Message :=
  List.filter (fun m => user_id m =? uid) ms.

(** What the store holds for the author [uid] after the events [ms]:
    nothing when the author wrote none of them; otherwise a profile
    under the author's own id whose counter is the number of the
    author's events, whose name and time are those of the author's last
    event, and whose interests are the media tag exactly when one of the
    author's events had an attachment. *)
Definition profile_summary (uid : Z) (ms : list Message)
    (o : option UserProfile) : Prop :=
  match o with
  | None => events_of uid ms = []
  | Some p =>
      profile_user_id p = uid
      /\ interaction_count p = Z.of_nat (length (events_of uid ms))
      /\ (exists e, last (events_of uid ms) = Some e
                    /\ profile_username p = username e
                    /\ last_seen p = timestamp e)
      /\ interests p
         = (if existsb has_image (events_of uid ms) then [u "мемы"] else [])
      /\ profile_ok p
  end.

(** A write to the database: a saved message, a saved profile or a
    retention sweep. *)
Inductive db_op (Vec : Type) : Type :=
  | OpSave (m : Message) (e : option Vec)
  | OpProfile (p : UserProfile)
  | OpCleanup (now : float) (days : Z).
Arguments OpSave {Vec} m e.
Arguments OpProfile {Vec} p.
Arguments OpCleanup {Vec} now days.

Definition db_apply {Vec} (op : db_op Vec) (db : DatabaseManager.state Vec)
  : DatabaseManager.state Vec :=
  match op with
  | OpSave m e => DatabaseManager.save_message m e db
  | OpProfile p => DatabaseManager.save_user_profile p db
  | OpCleanup now days =>
      (DatabaseManager.cleanup_old_messages now days db).1.2
  end.

Definition db_run {Vec} (ops : list (db_op Vec))
    (db : DatabaseManager.state Vec) : DatabaseManager.state Vec :=
  fold_left (fun d op => db_apply op d) ops db.

(** Row ids grow along the table. *)
Definition ids_increase {Vec} (rows : list (DatabaseManager.row Vec))
  : Prop :=
  StronglySorted
    (fun r1 r2 => DatabaseManager.id r1 < DatabaseManager.id r2) rows.

(** The text [_save_message_async] hands to the encoder. *)
Definition save_text (m : Message) : str :=
  match image_description m with
  | Some (c :: d) =>
      if contains (c :: d) (text m) then text m
      else text m ++ u " " ++ (c :: d)
  | _ => text m
  end.

(** The encoder accepts the text saved with [m]. *)
Definition storable {Vec} (encode : str -> res Vec) (m : Message) : bool :=
  match encode (save_text m) with
  | Ret _ => true
  | Raise _ => false
  end.

(** The save tasks [tasks] run by the event loop in the order of their
    creation (a task has no point of suspension). *)
Definition run_saves {Vec} (encode : str -> res Vec) (tasks : list Message)
    (self : AdvancedContextManager.state Vec)
  : AdvancedContextManager.state Vec :=
  fold_left
    (fun st m => AdvancedContextManager._save_message_async encode m st)
    tasks self.

(** None of the keyword rules and not the length rule of
    [should_respond] applies to the text. *)
Definition no_rule_applies (lower : str -> str) (message : str) : Prop :=
  any_in MessageAnalyzer.bot_mentions (lower message) = false
  /\ any_in MessageAnalyzer.tech_words (lower message) = false
  /\ any_in MessageAnalyzer.question_indicators (lower message) = false
  /\ any_in MessageAnalyzer.greeting_words (lower message) = false
  /\ (200 <? length message)%nat = false.

(** The author has a profile with more than 10 interactions. *)
Definition is_active (profile : option UserProfile) : bool :=
  match profile with
  | Some p => 10 <? interaction_count p
  | None => false
  end.

(** Saturday 7 January 2023. *)
Definition saturday : Z := 738527.

(** A run of the job at 8:00 on that Monday with a gateway that fails. *)
Definition monday_gateway_down : ScheduledMessages.tick :=
  let now := ScheduledMessages.mkDatetime monday 8 0 in
  ScheduledMessages.mkTick now now (Raise TimeoutError) (Raise OtherError)
                           now now (Raise TimeoutError) (Ret tt).

(** The index of the example [search_on_toy_index]. *)
Definition toy_index : VectorMemory.state (list float) :=
  add_all toy_encode
    [event 1 (u "кот спит"); event 2 (u "код упал");
     event 3 (u "код горит!"); event 4 (u "где мой код")]
    VectorMemory.init.

(** A bot with a 2 second cooldown and a two hour cleanup interval, as
    the default configuration makes it, before any event. *)
Definition new_bot : Bot.state unit :=
  {| Bot.cooldown := 2;
     Bot.cleanup_interval := 7200;
     Bot.context_manager := AdvancedContextManager.init 250;
     Bot.last_reaction := ∅ |}.

(** The replies a handler hands to the gateway, in order. *)
Definition outgoing (evs : list handler_event) : list str :=
  omap (fun ev => match ev with
                  | SendMessage _ _ reply | ReplyText reply => Some reply
                  | _ => None
                  end) evs.

(** The text [handle_private_message] sends when it fails. *)
Definition apology_text : str := u "Чёт глюканул, попробуй ещё раз.".

(** A run of a handler that returned, sent and logged nothing and left
    the context manager as it was. *)
Definition untouched {Vec} (w : Handlers.world Vec)
                     (out : res unit * Handlers.world Vec) : Prop :=
  out.1 = Ret tt
  /\ Handlers.events out.2 = Handlers.events w
  /\ Bot.context_manager (Handlers.bot out.2)
     = Bot.context_manager (Handlers.bot w).

(** A run in which the clock stands at 1000 s, the inference service
    times out and the gateway works. *)
Definition calm_env : Handlers.run_env :=
  {| Handlers.time := fun _ => 1000%float;
     Handlers.random := fun _ => 0.5%float;
     Handlers.http := Raise TimeoutError;
     Handlers.typing := Ret tt;
     Handlers.delivery := Ret tt;
     Handlers.apology := Ret tt |}.

(** A text message of author 7 in chat -100. *)
Definition text_update (from_bot : bool) (t : str) : Telegram.Update :=
  {| Telegram.effective_user :=
       {| Telegram.id := 7; Telegram.is_bot := from_bot;
          Telegram.full_name := u "Вася"; Telegram.username := None |};
     Telegram.message :=
       {| Telegram.text := Some t; Telegram.message_id := 1;
          Telegram.reply_to_message := None |};
     Telegram.effective_chat_id := -100 |}.

Definition new_world : Handlers.world unit :=
  {| Handlers.bot := new_bot; Handlers.events := [] |}.

(** Rows in time order: each row is strictly older than the rows after it. *)
Definition rows_in_time_order {Vec} (rows : list (DatabaseManager.row Vec))
  : Prop :=
  StronglySorted
    (fun a b => PrimFloat.ltb (timestamp (DatabaseManager.message a))
                              (timestamp (DatabaseManager.message b)) = true)
    rows.

(** What [ORDER BY timestamp DESC] promises of its result: the same rows,
    none before a row with a greater timestamp. *)
Definition sorts_newest_first {Vec}
    (order : list (DatabaseManager.row Vec) -> list (DatabaseManager.row Vec))
    (rows : list (DatabaseManager.row Vec)) : Prop :=
  Permutation (order rows) rows
  /\ StronglySorted
       (fun a b => PrimFloat.ltb (timestamp (DatabaseManager.message a))
                                 (timestamp (DatabaseManager.message b))
                   = false)
       (order rows).

(** An [ORDER BY timestamp DESC] used to run the start-up on examples:
    insertion of each row before the first row that is older. *)
Fixpoint insert_newest {Vec} (r : DatabaseManager.row Vec)
    (sorted : list (DatabaseManager.row Vec))
  : list (DatabaseManager.row Vec) :=
  match sorted with
  | [] => [r]
  | s :: rest =>
      if PrimFloat.ltb (timestamp (DatabaseManager.message s))
                       (timestamp (DatabaseManager.message r))
      then r :: sorted
      else s :: insert_newest r rest
  end.

Definition newest_first {Vec} (rows : list (DatabaseManager.row Vec))
  : list (DatabaseManager.row Vec) :=
  fold_right insert_newest [] rows.

(** A run of the command on the day with ordinal [d] at [h]:00, with an
    inference service that times out and a gateway that works. *)
Definition test_at (d h : Z) : Commands.test_env :=
  let now := ScheduledMessages.mkDatetime d h 0 in
  Commands.mkTestEnv now (Raise TimeoutError) now (Raise TimeoutError) now
                     (Ret tt) (Ret tt).

(* ===================================================================== *)
(** * Response decision                                                    *)
(* ===================================================================== *)

Section Decision.
Context {Vec : Type}.
Variable lower : str -> str.
Variable random : nat -> float.

(** C1: in a private (one-to-one) conversation [should_respond] answers
    [(True, "private_message")] -- the tag the specification calls
    [direct_channel] -- for every text, every profile store and every
    author; none of the later rules is evaluated: the result does not
    depend on [lower] or on the random generator, and no random number
    is drawn. *)
Theorem should_respond_private
    (message : str) (cm : AdvancedContextManager.state Vec)
    (user : Z) (has_image : bool) (calls : nat) :
  MessageAnalyzer.should_respond lower random message cm user
                                 true has_image calls
  = ((true, "private_message"), calls).
Proof. reflexivity. Qed.

Lemma contains_any_in (w : str) (words : list str) (t : str) :
  In w words -> contains w t = true -> any_in words t = true.
Proof.
  intros Hin Hc. unfold any_in. apply existsb_exists.
  exists w. split; assumption.
Qed.

(** C10: ['@'] is one of [bot_mentions], so in a group conversation
    every text with an ['@'] in it is answered with
    [(True, "direct_mention")], whatever the profile, the other
    keywords, the length and the random generator (which is not
    called).  [str.lower] leaves ['@'] in place, which is the only
    fact about it that is used. *)
Theorem at_sign_is_direct_mention
    (message : str) (cm : AdvancedContextManager.state Vec)
    (user : Z) (has_image : bool) (calls : nat) :
  (forall t, contains (u "@") t = true ->
             contains (u "@") (lower t) = true) ->
  contains (u "@") message = true ->
  In (u "@") MessageAnalyzer.bot_mentions
  /\ MessageAnalyzer.should_respond lower random message cm user
                                    false has_image calls
     = ((true, "direct_mention"), calls).
Proof.
  intros Hlower Hat.
  assert (Hin : In (u "@") MessageAnalyzer.bot_mentions)
    by (vm_compute; tauto).
  split; [exact Hin|].
  unfold MessageAnalyzer.should_respond.
  rewrite (contains_any_in (u "@") _ _ Hin (Hlower _ Hat)).
  reflexivity.
Qed.
End Decision.

Lemma str_lower_keeps_at (t : str) :
  contains (u "@") t = true -> contains (u "@") (str_lower t) = true.
Proof.
  change (u "@") with [64%N].
  induction t as [|c t IH]; [discriminate|].
  cbn [contains startswith str_lower map].
  fold (str_lower t).
  destruct (N.eqb_spec 64 c) as [<-|Hne].
  - intros _. reflexivity.
  - rewrite !andb_false_l, !orb_false_l. intros H.
    rewrite (IH H). apply orb_true_r.
Qed.

Lemma at_sign_is_direct_mention_witness :
  MessageAnalyzer.should_respond (Vec := unit) str_lower
    (fun _ => 0.99%float) (u "@vasya глянь") (AdvancedContextManager.init 250)
    7 false false 0
  = ((true, "direct_mention"), 0%nat).
Proof.
  apply (at_sign_is_direct_mention (Vec := unit) str_lower
           (fun _ => 0.99%float) (u "@vasya глянь")
           (AdvancedContextManager.init 250) 7 false 0%nat).
  - exact str_lower_keeps_at.
  - vm_compute. reflexivity.
Defined.

(** Scenario A: a text that addresses the bot in a group conversation. *)
Example scenario_A :
  MessageAnalyzer.should_respond (Vec := unit) str_lower
    (fun _ => 0.99%float) (u "бот, как дела?")
    (AdvancedContextManager.init 250) 7 false false 0
  = ((true, "direct_mention"), 0%nat).
Proof. vm_compute. reflexivity. Qed.

(** Scenario B: 250 code points, no keyword, no profile. *)
Example scenario_B :
  MessageAnalyzer.should_respond (Vec := unit) str_lower
    (fun _ => 0.99%float) (repeat 1103%N 250)
    (AdvancedContextManager.init 250) 7 false false 0
  = ((true, "long_post"), 0%nat).
Proof. vm_compute. reflexivity. Qed.

(** A short text without keywords from an unknown author: one random
    number is drawn and compared with 0.08. *)
Example random_branch :
  MessageAnalyzer.should_respond (Vec := unit) str_lower
    (fun _ => 0.05%float) (u "ну и погода")
    (AdvancedContextManager.init 250) 7 false false 0
  = ((true, "random_response"), 1%nat)
  /\ MessageAnalyzer.should_respond (Vec := unit) str_lower
       (fun _ => 0.5%float) (u "ну и погода")
       (AdvancedContextManager.init 250) 7 false false 0
     = ((false, "no_reason"), 1%nat).
Proof. vm_compute. split; reflexivity. Qed.

(* ===================================================================== *)
(** * Importance and sentiment                                             *)
(* ===================================================================== *)

Section Scoring.
Variable lower : str -> str.

(** C2: the importance score is between 0 and 1 for every event, and
    setting the attachment flag of an event never lowers it. *)
Theorem importance_bounded_and_monotone (m : Message) :
  PrimFloat.leb 0 (AdvancedContextManager._calculate_importance lower m)
    = true
  /\ PrimFloat.leb (AdvancedContextManager._calculate_importance lower m) 1
    = true
  /\ PrimFloat.leb
       (AdvancedContextManager._calculate_importance lower
          (set_has_image false m))
       (AdvancedContextManager._calculate_importance lower
          (set_has_image true m))
    = true.
Proof.
  unfold AdvancedContextManager._calculate_importance, set_has_image.
  cbn [text has_image].
  destruct (has_image m);
    destruct (100 <? length (text m))%nat;
    destruct (contains (u "?") (text m));
    destruct (any_in [u "бот"; u "bot"; u "димон"] (lower (text m)));
    destruct (any_in _ (lower (text m)));
    vm_compute; auto.
Qed.

(** Closes a goal by two distinct tags being equated, by arithmetic on
    the counts, or by computation. *)
Ltac settle :=
  first [ match goal with H : @eq string _ _ |- _ => discriminate H end
        | lia
        | reflexivity ].

(** C3: the verdict is ["positive"] exactly when more positive than
    negative keywords occur, ["negative"] exactly when more negative
    than positive ones occur, and ["neutral"] exactly on a tie (0-0
    included); two texts whose counts are each other's mirror image get
    mirrored verdicts. *)
Theorem sentiment_by_counts :
  (forall t : str,
      (AdvancedContextManager._analyze_sentiment lower t = "positive"
       <-> (neg_count lower t < pos_count lower t)%nat)
      /\ (AdvancedContextManager._analyze_sentiment lower t = "negative"
          <-> (pos_count lower t < neg_count lower t)%nat)
      /\ (AdvancedContextManager._analyze_sentiment lower t = "neutral"
          <-> pos_count lower t = neg_count lower t))
  /\ (forall t1 t2 : str,
         pos_count lower t1 = neg_count lower t2 ->
         neg_count lower t1 = pos_count lower t2 ->
         AdvancedContextManager._analyze_sentiment lower t1
         = flip_sentiment
             (AdvancedContextManager._analyze_sentiment lower t2)).
Proof.
  split.
  - intros t. unfold AdvancedContextManager._analyze_sentiment.
    fold (pos_count lower t). fold (neg_count lower t).
    destruct (Nat.ltb_spec (neg_count lower t) (pos_count lower t));
      [|destruct (Nat.ltb_spec (pos_count lower t) (neg_count lower t))];
      (split; [|split]); split; intros; settle.
  - intros t1 t2 H1 H2. unfold AdvancedContextManager._analyze_sentiment.
    fold (pos_count lower t1). fold (neg_count lower t1).
    fold (pos_count lower t2). fold (neg_count lower t2).
    rewrite H1, H2.
    destruct (Nat.ltb_spec (neg_count lower t2) (pos_count lower t2));
      destruct (Nat.ltb_spec (pos_count lower t2) (neg_count lower t2));
      first [lia | reflexivity].
Qed.
End Scoring.

Lemma sentiment_by_counts_witness :
  AdvancedContextManager._analyze_sentiment str_lower (u "Спасибо, топ!")
  = flip_sentiment
      (AdvancedContextManager._analyze_sentiment str_lower
         (u "Плохо. Бред какой-то")).
Proof.
  apply (proj2 (sentiment_by_counts str_lower)); vm_compute; reflexivity.
Defined.

(* ===================================================================== *)
(** * Profile evolution                                                    *)
(* ===================================================================== *)

Section Profiles.
Context {Vec : Type}.
Variable lower : str -> str.

#[local] Abbreviation state := (AdvancedContextManager.state Vec).
#[local] Abbreviation update := (AdvancedContextManager._update_user_profile lower).
#[local] Abbreviation touch := AdvancedContextManager.touch.
#[local] Abbreviation profiles := AdvancedContextManager.user_profiles.

Lemma iadd_has_traits (t : gmap string float) (k : string) (x : float) :
  is_Some (t !! k) -> has_traits t ->
  exists t', AdvancedContextManager.iadd t k x = Ret t' /\ has_traits t'.
Proof.
  intros [v Hv] (Ha & Hf & Hh).
  exists (<[k := (v + x)%float]> t). split.
  - unfold AdvancedContextManager.iadd. rewrite Hv. reflexivity.
  - unfold has_traits. rewrite !lookup_insert_is_Some'. tauto.
Qed.

(** The second half of [_update_user_profile] on a profile that has its
    three traits: no [KeyError], and the stored profile keeps the count
    of [touch] and takes its tier from the first threshold passed. *)
Lemma update_stores (m : Message) (self : state) :
  has_traits (personality_traits (touch m self)) ->
  exists p,
    update m self
    = (Ret tt,
       AdvancedContextManager.with_db
         (DatabaseManager.save_user_profile p
            (AdvancedContextManager.db self))
         (AdvancedContextManager.with_profile (user_id m) p self))
    /\ has_traits (personality_traits p)
    /\ interaction_count p = interaction_count (touch m self)
    /\ relationship_level p
       = (if 50 <? interaction_count (touch m self) then "братан"
          else if 20 <? interaction_count (touch m self) then "приятель"
          else if 5 <? interaction_count (touch m self) then "знакомый"
          else relationship_level (touch m self))
    /\ exists t1,
        (if bool_decide (sentiment m = Some "negative")
         then AdvancedContextManager.iadd
                (personality_traits (touch m self)) "агрессивность"
                0.1%float
         else if bool_decide (sentiment m = Some "positive")
         then AdvancedContextManager.iadd
                (personality_traits (touch m self)) "дружелюбность"
                0.1%float
         else Ret (personality_traits (touch m self))) = Ret t1
        /\ (if any_in [u "хаха"; u "лол"; u "ржака"] (lower (text m))
            then AdvancedContextManager.iadd t1 "юмор" 0.1%float
            else Ret t1) = Ret (personality_traits p).
Proof.
  intros Ht. unfold AdvancedContextManager._update_user_profile.
  set (p0 := touch m self) in *.
  assert (Hs : exists t1,
    (if bool_decide (sentiment m = Some "negative")
     then AdvancedContextManager.iadd (personality_traits p0)
            "агрессивность" 0.1%float
     else if bool_decide (sentiment m = Some "positive")
     then AdvancedContextManager.iadd (personality_traits p0)
            "дружелюбность" 0.1%float
     else Ret (personality_traits p0)) = Ret t1 /\ has_traits t1).
  { destruct (bool_decide (sentiment m = Some "negative"));
      [|destruct (bool_decide (sentiment m = Some "positive"))].
    - apply iadd_has_traits; [apply Ht | exact Ht].
    - apply iadd_has_traits; [apply Ht | exact Ht].
    - eauto. }
  destruct Hs as (t1 & Hs & Ht1). rewrite Hs.
  assert (Hh : exists t2,
    (if any_in [u "хаха"; u "лол"; u "ржака"] (lower (text m))
     then AdvancedContextManager.iadd t1 "юмор" 0.1%float
     else Ret t1) = Ret t2 /\ has_traits t2).
  { destruct (any_in _ _).
    - apply iadd_has_traits; [apply Ht1 | exact Ht1].
    - eauto. }
  destruct Hh as (t2 & Hh & Ht2). rewrite Hh.
  cbn [AdvancedContextManager.with_traits personality_traits
       interaction_count].
  eexists. split; [reflexivity|].
  destruct (50 <? interaction_count p0);
    [|destruct (20 <? interaction_count p0);
      [|destruct (5 <? interaction_count p0)]];
    cbn [AdvancedContextManager.with_level
         AdvancedContextManager.with_traits personality_traits
         interaction_count relationship_level];
    (split; [exact Ht2|]; split; [reflexivity|]; split; [reflexivity|];
     exists t1; split; [reflexivity | exact Hh]).
Qed.
Lemma new_profile_has_traits (m : Message) :
  has_traits (personality_traits (AdvancedContextManager.new_profile m)).
Proof. repeat split; eexists; reflexivity. Qed.

Lemma tier_step (c : Z) (l : string) :
  l = tier_of_count (c - 1) ->
  (if 50 <? c then "братан"
   else if 20 <? c then "приятель"
   else if 5 <? c then "знакомый"
   else l) = tier_of_count c.
Proof.
  intros ->. unfold tier_of_count.
  destruct (Z.ltb_spec 50 c); [reflexivity|].
  destruct (Z.ltb_spec 20 c); [reflexivity|].
  destruct (Z.ltb_spec 5 c); [reflexivity|].
  destruct (Z.ltb_spec 50 (c - 1)); [lia|].
  destruct (Z.ltb_spec 20 (c - 1)); [lia|].
  destruct (Z.ltb_spec 5 (c - 1)); [lia|].
  reflexivity.
Qed.

Lemma tier_rank_monotone (a b : Z) :
  a <= b -> (tier_rank (tier_of_count a) <= tier_rank (tier_of_count b))%nat.
Proof.
  intros Hab. unfold tier_of_count.
  destruct (Z.ltb_spec 50 a); destruct (Z.ltb_spec 50 b); try lia;
    destruct (Z.ltb_spec 20 a); destruct (Z.ltb_spec 20 b); try lia;
    destruct (Z.ltb_spec 5 a); destruct (Z.ltb_spec 5 b); try lia;
    vm_compute; lia.
Qed.

(** One call of [_update_user_profile] on a store of well-formed
    profiles: it returns normally, the author's profile has one more
    interaction and the tier of its new count, every other profile is
    the same as before. *)
Lemma update_step (m : Message) (self : state) :
  store_ok (profiles self) ->
  exists p',
    (update m self).1 = Ret tt
    /\ profiles (update m self).2 = <[user_id m := p']> (profiles self)
    /\ profile_ok p'
    /\ match profiles self !! user_id m with
       | Some p => interaction_count p' = interaction_count p + 1
                   /\ relationship_level p
                      = tier_of_count (interaction_count p)
       | None => interaction_count p' = 1
       end.
Proof.
  intros Hok.
  destruct (profiles self !! user_id m) as [p|] eqn:Hp.
  - destruct (Hok _ _ Hp) as [Hl Ht].
    destruct (update_stores m self) as (p' & -> & Ht' & Hc & Hlv & _).
    { unfold AdvancedContextManager.touch. rewrite Hp. exact Ht. }
    unfold AdvancedContextManager.touch in Hc, Hlv. rewrite Hp in Hc, Hlv.
    cbn in Hc, Hlv.
    exists p'. repeat split; try assumption; try apply Ht'.
    rewrite Hlv, Hc. apply tier_step.
    rewrite Hl. f_equal. lia.
  - destruct (update_stores m self) as (p' & -> & Ht' & Hc & Hlv & _).
    { unfold AdvancedContextManager.touch. rewrite Hp.
      apply new_profile_has_traits. }
    unfold AdvancedContextManager.touch in Hc, Hlv. rewrite Hp in Hc, Hlv.
    cbn in Hc, Hlv.
    exists p'. repeat split; try assumption; try apply Ht'.
    rewrite Hlv, Hc. reflexivity.
Qed.

Lemma update_keeps_ok (m : Message) (self : state) :
  store_ok (profiles self) -> store_ok (profiles (update m self).2).
Proof.
  intros Hok.
  destruct (update_step m self Hok) as (p' & _ & -> & Hp' & _).
  intros uid p. rewrite lookup_insert.
  case_decide; [intros [= <-]; exact Hp' | apply Hok].
Qed.

Lemma updates_keep_ok (ms : list Message) (self : state) :
  store_ok (profiles self) -> store_ok (profiles (updates lower ms self)).
Proof.
  revert self. induction ms as [|m ms IH]; intros self Hok; [exact Hok|].
  apply IH, update_keeps_ok, Hok.
Qed.

Lemma init_ok (w : nat) :
  store_ok (profiles (AdvancedContextManager.init (Vec := Vec) w)).
Proof. intros uid p. cbn. rewrite lookup_empty. discriminate. Qed.

(** C4: profiles only come from [_update_user_profile] (the store
    starts empty and is never read back from the database).  After any
    sequence of updates every stored profile carries the tier of its
    interaction count -- ["братан"] above 50, ["приятель"] above 20,
    ["знакомый"] above 5, ["незнакомец"] otherwise -- and one more
    update returns normally, raises the author's count by one, leaves
    the other profiles alone and never lowers the author's tier; the
    tier of a count is monotone in the count. *)
Theorem tier_is_band_of_count (w : nat) (ms : list Message) (m : Message) :
  let before : state := updates lower ms (AdvancedContextManager.init w) in
  let after := (update m before).2 in
  (update m before).1 = Ret tt
  /\ (forall uid p, profiles after !! uid = Some p ->
        relationship_level p = tier_of_count (interaction_count p))
  /\ (exists p', profiles after !! user_id m = Some p'
        /\ match profiles before !! user_id m with
           | Some p =>
               interaction_count p' = interaction_count p + 1
               /\ (tier_rank (relationship_level p)
                   <= tier_rank (relationship_level p'))%nat
           | None => interaction_count p' = 1
           end)
  /\ (forall uid, uid <> user_id m ->
        profiles after !! uid = profiles before !! uid)
  /\ (forall a b, a <= b ->
        (tier_rank (tier_of_count a) <= tier_rank (tier_of_count b))%nat).
Proof.
  intros before after.
  assert (Hok : store_ok (profiles before))
    by apply updates_keep_ok, init_ok.
  destruct (update_step m before Hok) as (p' & Hret & Hst & Hp' & Hcnt).
  split; [exact Hret|]. split; [|split; [|split]].
  - intros uid p Hp. apply (update_keeps_ok m before Hok uid p Hp).
  - exists p'. split.
    + subst after. rewrite Hst. apply lookup_insert_eq.
    + destruct (profiles before !! user_id m) as [p|]; [|exact Hcnt].
      destruct Hcnt as [Hc Hl]. split; [exact Hc|].
      rewrite Hl, (proj1 Hp'). apply tier_rank_monotone. lia.
  - intros uid Hne. subst after. rewrite Hst.
    apply lookup_insert_ne. congruence.
  - apply tier_rank_monotone.
Qed.
End Profiles.

Lemma tier_is_band_of_count_witness :
  (tier_rank (tier_of_count 5) <= tier_rank (tier_of_count 6))%nat.
Proof.
  apply (tier_is_band_of_count (Vec := unit) str_lower 250 []
           (mkMessage 7 (u "Вася") (u "привет") 0%float 1 1 false None None
                      0.5%float false None)).
  lia.
Defined.

(* ===================================================================== *)
(** * Ingestion: two events of a new author                                *)
(* ===================================================================== *)

Section Ingestion.
Context {Vec : Type}.
Variable encode : str -> res Vec.
Variable lower : str -> str.

#[local] Abbreviation state := (AdvancedContextManager.state Vec).
#[local] Abbreviation add := (AdvancedContextManager.add_message encode lower).
#[local] Abbreviation profiles := AdvancedContextManager.user_profiles.

Lemma any_in_count (words : list str) (t : str) :
  any_in words t = true <-> (0 < count_in words t)%nat.
Proof.
  unfold any_in, count_in.
  induction words as [|w words IH]; cbn [existsb].
  - cbn. split; [discriminate | lia].
  - rewrite filter_cons. destruct (contains w t) eqn:Hw.
    + rewrite decide_True by reflexivity. cbn. split; [lia | reflexivity].
    + rewrite decide_False by discriminate. cbn. exact IH.
Qed.

(** A text with a positive keyword and no negative one is positive. *)
Lemma positive_text (t : str) :
  any_in AdvancedContextManager.positive_words (lower t) = true ->
  any_in AdvancedContextManager.negative_words (lower t) = false ->
  AdvancedContextManager._analyze_sentiment lower t = "positive".
Proof.
  intros Hp Hn. unfold AdvancedContextManager._analyze_sentiment.
  apply any_in_count in Hp.
  assert (Hz : count_in AdvancedContextManager.negative_words (lower t)
               = 0%nat).
  { destruct (count_in AdvancedContextManager.negative_words (lower t))
      eqn:E; [reflexivity|].
    assert (H : (0 < count_in AdvancedContextManager.negative_words
                       (lower t))%nat) by (rewrite E; lia).
    apply any_in_count in H. congruence. }
  rewrite Hz.
  destruct (Nat.ltb_spec 0
              (count_in AdvancedContextManager.positive_words (lower t)));
    [reflexivity | lia].
Qed.

(** [add_message] ends in [_update_user_profile] on the event with its
    derived fields set; the stored profiles are not touched before. *)
Lemma add_message_updates (m : Message) (self : state) :
  exists m' self',
    add m self
    = AdvancedContextManager._update_user_profile lower m' self'
    /\ user_id m' = user_id m
    /\ text m' = text m
    /\ sentiment m'
       = Some (AdvancedContextManager._analyze_sentiment lower (text m))
    /\ profiles self' = profiles self
    /\ AdvancedContextManager.touch m' self'
       = AdvancedContextManager.touch m self.
Proof.
  unfold AdvancedContextManager.add_message.
  destruct (VectorMemory.add_message encode _ _) as [vm vm_log].
  eexists _, _. split; [reflexivity|]. cbn [user_id text sentiment].
  repeat split.
Qed.

(** One positive event: the author's friendliness grows by 0.1; the
    count and the tier are those of [touch]. *)
Lemma add_positive (m : Message) (self : state) (v : float) :
  any_in AdvancedContextManager.positive_words (lower (text m)) = true ->
  any_in AdvancedContextManager.negative_words (lower (text m)) = false ->
  has_traits (personality_traits (AdvancedContextManager.touch m self)) ->
  personality_traits (AdvancedContextManager.touch m self)
    !! "дружелюбность" = Some v ->
  exists p,
    (add m self).1 = Ret tt
    /\ profiles (add m self).2 = <[user_id m := p]> (profiles self)
    /\ has_traits (personality_traits p)
    /\ personality_traits p !! "дружелюбность" = Some (v + 0.1)%float
    /\ interaction_count p
       = interaction_count (AdvancedContextManager.touch m self)
    /\ relationship_level p
       = (let c := interaction_count (AdvancedContextManager.touch m self) in
          if 50 <? c then "братан"
          else if 20 <? c then "приятель"
          else if 5 <? c then "знакомый"
          else relationship_level (AdvancedContextManager.touch m self)).
Proof.
  intros Hp Hn Htr Hv.
  destruct (add_message_updates m self)
    as (m' & self' & -> & Hu & Ht & Hs & Hps & Htouch).
  rewrite <- Htouch in Htr, Hv |- *.
  destruct (update_stores lower m' self' Htr)
    as (p & -> & Htr' & Hc & Hl & t1 & Hs1 & Hh).
  exists p.
  split; [reflexivity|].
  split; [cbn; rewrite Hu, Hps; reflexivity|].
  split; [exact Htr'|]. split; [|split; [exact Hc | exact Hl]].
  rewrite Hs, (positive_text _ Hp Hn) in Hs1.
  rewrite bool_decide_eq_false_2 in Hs1 by discriminate.
  rewrite bool_decide_eq_true_2 in Hs1 by reflexivity.
  unfold AdvancedContextManager.iadd in Hs1. rewrite Hv in Hs1.
  injection Hs1 as <-.
  rewrite Ht in Hh.
  destruct (any_in [u "хаха"; u "лол"; u "ржака"] (lower (text m))).
  - unfold AdvancedContextManager.iadd in Hh.
    destruct (_ !! "юмор") as [h|]; cbn [mbind res_bind of_option] in Hh;
      [|discriminate Hh].
    injection Hh as <-.
    rewrite lookup_insert_ne by discriminate. apply lookup_insert_eq.
  - injection Hh as <-. apply lookup_insert_eq.
Qed.

Lemma touch_known (m : Message) (self : state) (p : UserProfile) :
  profiles self !! user_id m = Some p ->
  personality_traits (AdvancedContextManager.touch m self)
    = personality_traits p
  /\ interaction_count (AdvancedContextManager.touch m self)
     = interaction_count p + 1
  /\ relationship_level (AdvancedContextManager.touch m self)
     = relationship_level p.
Proof.
  intros H. unfold AdvancedContextManager.touch. rewrite H.
  repeat split.
Qed.

Lemma touch_unknown (m : Message) (self : state) :
  profiles self !! user_id m = None ->
  personality_traits (AdvancedContextManager.touch m self)
    = personality_traits (AdvancedContextManager.new_profile m)
  /\ interaction_count (AdvancedContextManager.touch m self) = 1
  /\ relationship_level (AdvancedContextManager.touch m self)
     = "незнакомец".
Proof.
  intros H. unfold AdvancedContextManager.touch. rewrite H.
  repeat split.
Qed.

(** C9: two events of an author without a profile, each with a
    positive keyword and no negative keyword in its text, are both
    ingested without an exception and leave the author with
    friendliness 0.5 + 0.2 (0.5 being the value a profile starts
    with), two interactions and the tier ["незнакомец"] (stranger). *)
Theorem two_positive_events (self : state) (m1 m2 : Message) :
  profiles self !! user_id m1 = None ->
  user_id m2 = user_id m1 ->
  any_in AdvancedContextManager.positive_words (lower (text m1)) = true ->
  any_in AdvancedContextManager.negative_words (lower (text m1)) = false ->
  any_in AdvancedContextManager.positive_words (lower (text m2)) = true ->
  any_in AdvancedContextManager.negative_words (lower (text m2)) = false ->
  let st1 := (add m1 self).2 in
  let st2 := (add m2 st1).2 in
  (add m1 self).1 = Ret tt
  /\ (add m2 st1).1 = Ret tt
  /\ personality_traits (AdvancedContextManager.new_profile m1)
       !! "дружелюбность" = Some 0.5%float
  /\ exists p,
      profiles st2 !! user_id m1 = Some p
      /\ personality_traits p !! "дружелюбность"
         = Some (0.5 + 0.2)%float
      /\ interaction_count p = 2
      /\ relationship_level p = "незнакомец".
Proof.
  intros Hnew Hsame Hp1 Hn1 Hp2 Hn2 st1 st2.
  destruct (touch_unknown m1 self Hnew) as (Ht0 & Hc0 & Hl0).
  destruct (add_positive m1 self 0.5%float Hp1 Hn1)
    as (p1 & Hr1 & Hst1 & Htr1 & Hf1 & Hc1 & Hl1).
  { rewrite Ht0. apply new_profile_has_traits. }
  { rewrite Ht0. reflexivity. }
  rewrite Hc0 in Hc1, Hl1. rewrite Hl0 in Hl1. cbn in Hl1.
  assert (Hk : profiles st1 !! user_id m2 = Some p1).
  { subst st1. rewrite Hst1, Hsame. apply lookup_insert_eq. }
  destruct (touch_known m2 st1 p1 Hk) as (Ht & Hc & Hl).
  destruct (add_positive m2 st1 (0.5 + 0.1)%float Hp2 Hn2)
    as (p2 & Hr2 & Hst2 & Htr2 & Hf2 & Hc2 & Hl2).
  { rewrite Ht. exact Htr1. }
  { rewrite Ht. exact Hf1. }
  rewrite Hc, Hc1 in Hc2, Hl2. rewrite Hl, Hl1 in Hl2. cbn in Hl2.
  split; [exact Hr1|]. split; [exact Hr2|]. split; [reflexivity|].
  exists p2. split; [|split; [|split]].
  - subst st2. rewrite Hst2, Hsame. apply lookup_insert_eq.
  - rewrite Hf2. f_equal.
  - rewrite Hc2. reflexivity.
  - exact Hl2.
Qed.
End Ingestion.

Lemma two_positive_events_witness :
  (AdvancedContextManager.add_message (Vec := unit) (fun _ => Ret tt)
     str_lower
     (mkMessage 7 (u "Вася") (u "Спасибо, выручил") 100%float 1 1 false None
                None 0.5%float false None)
     (AdvancedContextManager.init 250)).1 = Ret tt.
Proof.
  refine (proj1 (two_positive_events (Vec := unit) (fun _ => Ret tt)
                   str_lower (AdvancedContextManager.init 250)
                   (mkMessage 7 (u "Вася") (u "Спасибо, выручил") 100%float
                              1 1 false None None 0.5%float false None)
                   (mkMessage 7 (u "Вася") (u "Круто, ржака") 160%float
                              1 2 false None None 0.5%float false None)
                   _ _ _ _ _ _));
    vm_compute; reflexivity.
Defined.

(* ===================================================================== *)
(** * The vector index                                                     *)
(* ===================================================================== *)

Section VectorIndex.
Context {Vec : Type}.
Variable encode : str -> res Vec.
Variable dot : Vec -> Vec -> float.
Variable argsort : list float -> list nat.

#[local] Abbreviation vstate := (VectorMemory.state Vec).
#[local] Abbreviation vadd := (VectorMemory.add_message encode).

Lemma lastn_all {A} (n : nat) (l : list A) :
  (length l <= n)%nat -> lastn n l = l.
Proof.
  intros H. unfold lastn.
  replace (length l - n)%nat with 0%nat by lia. reflexivity.
Qed.

Lemma lastn_length {A} (n : nat) (l : list A) :
  length (lastn n l) = Nat.min n (length l).
Proof. unfold lastn. rewrite length_drop. lia. Qed.

Lemma lastn_lastn_app {A} (n : nat) (l l' : list A) :
  lastn n (lastn n l ++ l') = lastn n (l ++ l').
Proof.
  unfold lastn. rewrite !length_app, length_drop.
  destruct (Nat.le_gt_cases (length l) n) as [Hle|Hgt].
  - replace (length l - n)%nat with 0%nat by lia. cbn [drop].
    f_equal. lia.
  - replace (length l - (length l - n) + length l' - n)%nat
      with (length l') by lia.
    replace (length l + length l' - n)%nat
      with ((length l - n) + length l')%nat by lia.
    rewrite <- drop_drop.
    rewrite (drop_app_le l l' (length l - n)) by lia. reflexivity.
Qed.

(** On an index whose two lists are aligned, a successful
    [add_message] appends to both and keeps their last 1000 elements;
    a failed one changes nothing. *)
Lemma add_message_step (m : Message) (vm : vstate) :
  length (VectorMemory.embeddings vm) = length (VectorMemory.messages vm) ->
  length (VectorMemory.embeddings (vadd m vm).1)
    = length (VectorMemory.messages (vadd m vm).1)
  /\ VectorMemory.messages (vadd m vm).1
     = if encodable encode m
       then lastn 1000 (VectorMemory.messages vm ++ [m])
       else VectorMemory.messages vm.
Proof.
  intros Hlen. unfold VectorMemory.add_message, encodable.
  destruct (encode _) as [e|]; [|split; [exact Hlen | reflexivity]].
  destruct (Nat.ltb_spec 1000
              (length (VectorMemory.embeddings vm ++ [e]))) as [Hgt|Hle];
    cbn [fst VectorMemory.messages VectorMemory.embeddings].
  - split; [|reflexivity].
    rewrite !lastn_length, !length_app, Hlen. reflexivity.
  - split.
    + rewrite !length_app, Hlen. reflexivity.
    + symmetry. apply lastn_all.
      rewrite length_app in *. rewrite <- Hlen. exact Hle.
Qed.

Lemma add_all_history (ms : list Message) (vm : vstate)
      (history : list Message) :
  length (VectorMemory.embeddings vm) = length (VectorMemory.messages vm) ->
  VectorMemory.messages vm = lastn 1000 history ->
  length (VectorMemory.embeddings (add_all encode ms vm))
    = length (VectorMemory.messages (add_all encode ms vm))
  /\ VectorMemory.messages (add_all encode ms vm)
     = lastn 1000 (history ++ List.filter (encodable encode) ms).
Proof.
  revert vm history.
  induction ms as [|m ms IH]; intros vm history Hlen Hh.
  - cbn. rewrite app_nil_r. split; assumption.
  - cbn [add_all fold_left List.filter].
    destruct (add_message_step m vm Hlen) as [Hlen' Hm].
    fold (add_all encode ms (vadd m vm).1).
    destruct (encodable encode m).
    + replace (history ++ m :: List.filter (encodable encode) ms)
        with ((history ++ [m]) ++ List.filter (encodable encode) ms)
        by (rewrite <- app_assoc; reflexivity).
      apply IH; [exact Hlen'|].
      rewrite Hm, Hh. apply lastn_lastn_app.
    + apply IH; [exact Hlen'|]. rewrite Hm. exact Hh.
Qed.

Lemma select_similar (similarities : list float) (msgs : list Message)
      (top_indices : list nat) (found : list Message) :
  VectorMemory.select similarities msgs top_indices = Ret found ->
  Forall (fun m => exists i s,
              similarities !! i = Some s
              /\ msgs !! i = Some m
              /\ PrimFloat.ltb 0.3 s = true) found.
Proof.
  revert found.
  induction top_indices as [|i rest IH]; intros found H.
  - injection H as <-. constructor.
  - cbn [VectorMemory.select] in H.
    destruct (similarities !! i) as [s|] eqn:Hs;
      cbn [of_option mbind res_bind] in H; [|discriminate H].
    destruct (PrimFloat.ltb 0.3 s) eqn:Hgt; [|apply IH, H].
    destruct (msgs !! i) as [m|] eqn:Hm;
      cbn [of_option mbind res_bind] in H; [|discriminate H].
    destruct (VectorMemory.select similarities msgs rest) as [r|];
      cbn [mbind res_bind] in H; [|discriminate H].
    injection H as <-. constructor; [|apply IH; reflexivity].
    exists i, s. auto.
Qed.

End VectorIndex.

(** The search on a small index: the refused text is not stored, and
    only the entry about the query's topic passes the threshold. *)
Example search_on_toy_index :
  VectorMemory.search_similar toy_encode toy_dot stable_argsort
    (u "где код") 5
    (add_all toy_encode
       [event 1 (u "кот спит"); event 2 (u "код упал");
        event 3 (u "код горит!")]
       VectorMemory.init)
  = ([event 2 (u "код упал")], []).
Proof. vm_compute. reflexivity. Qed.

(** 1001 additions: the index holds the last 1000, the first is gone. *)
Example eviction_is_fifo :
  map message_id
      (VectorMemory.messages
         (add_all toy_encode
            (map (fun n => event (Z.of_nat n) (u "код")) (seq 0 1001))
            VectorMemory.init))
  = map Z.of_nat (seq 1 1000).
Proof. vm_compute. reflexivity. Qed.

(* ===================================================================== *)
(** * The retention sweep                                                  *)
(* ===================================================================== *)

Section Retention.
Context {Vec : Type}.

#[local] Abbreviation dstate := (DatabaseManager.state Vec).

Lemma filter_split_length {A} (f : A -> bool) (l : list A) :
  length l
  = (length (List.filter f l)
     + length (List.filter (fun x => negb (f x)) l))%nat.
Proof.
  induction l as [|x l IH]; [reflexivity|].
  cbn [List.filter]. destruct (f x); cbn [negb length]; lia.
Qed.

(** C6, as the program has it: [cleanup_old_messages(days)] run at
    clock reading [now] removes the rows whose timestamp is below
    [now - days * 24 * 3600] and keeps every other row, in order and
    unchanged; the profile table is not touched; the number of removed
    rows goes to the log, and the caller receives [None]. *)
Theorem cleanup_deletes_older
    (now : float) (days : Z) (horizon : float) (db : dstate) :
  float_of_int (days * 24 * 3600) = Ret horizon ->
  let cutoff := PrimFloat.sub now horizon in
  let result := DatabaseManager.cleanup_old_messages now days db in
  let db' := result.1.2 in
  result.1.1 = Ret VNone
  /\ (forall r, In r (DatabaseManager.messages db')
                <-> In r (DatabaseManager.messages db)
                    /\ PrimFloat.ltb
                         (timestamp (DatabaseManager.message r)) cutoff
                       = false)
  /\ DatabaseManager.messages db'
     = List.filter (fun r => negb (DatabaseManager.older cutoff r))
                   (DatabaseManager.messages db)
  /\ DatabaseManager.user_profiles db' = DatabaseManager.user_profiles db
  /\ result.2
     = [LogDeleted (length (DatabaseManager.messages db)
                    - length (DatabaseManager.messages db'))].
Proof.
  intros Hh. unfold DatabaseManager.cleanup_old_messages. rewrite Hh.
  cbn [fst snd DatabaseManager.messages DatabaseManager.user_profiles].
  split; [reflexivity|]. split; [|split; [reflexivity|split; [reflexivity|]]].
  - intros r. rewrite filter_In. unfold DatabaseManager.older.
    rewrite negb_true_iff. reflexivity.
  - do 2 f_equal.
    pose proof (filter_split_length
                  (DatabaseManager.older (PrimFloat.sub now horizon))
                  (DatabaseManager.messages db)).
    lia.
Qed.
End Retention.

Lemma cleanup_deletes_older_witness :
  DatabaseManager.messages
    (DatabaseManager.cleanup_old_messages scenario_now 30 scenario_db).1.2
  = [scenario_recent].
Proof.
  refine (eq_trans
            (proj1 (proj2 (proj2
               (cleanup_deletes_older (Vec := unit) scenario_now 30
                  2592000%float scenario_db _)))) _);
    vm_compute; reflexivity.
Defined.

(** C6, as the specification words it (the number of deleted rows is
    returned to the caller), fails on scenario D: one row is deleted and
    the value returned is [None], not [1]. *)
Lemma cleanup_returns_none :
  let result :=
    DatabaseManager.cleanup_old_messages scenario_now
      Constants.DEFAULT_CLEANUP_DAYS scenario_db in
  DatabaseManager.messages result.1.2 = [scenario_recent]
  /\ result.2 = [LogDeleted 1]
  /\ result.1.1 <> Ret (VInt 1).
Proof. vm_compute. repeat split. discriminate. Qed.

(* ===================================================================== *)
(** * The inference call                                                   *)
(* ===================================================================== *)

Section Inference.

(** [ask_local_model] has a handler for every exception. *)
Lemma ask_local_model_total (p : SmartBot.prompt)
      (http : res SmartBot.response) :
  exists reply, SmartBot.ask_local_model p http = Ret reply.
Proof.
  unfold SmartBot.ask_local_model.
  destruct (SmartBot.request http) as [reply|[]]; eauto.
Qed.

Lemma split_from_words (s cur : str) :
  Forall (fun c => is_space c = false) cur ->
  Forall word (split_from cur s).
Proof.
  revert cur. induction s as [|c s IH]; intros cur Hcur.
  - cbn [split_from]. destruct cur as [|c0 cur]; constructor; [|constructor].
    split.
    + intros H. apply (f_equal (@length N)) in H.
      rewrite length_rev in H. discriminate H.
    + apply Forall_rev. exact Hcur.
  - cbn [split_from]. destruct (is_space c) eqn:Hc.
    + destruct cur as [|c0 cur]; [apply IH; constructor|].
      constructor; [|apply IH; constructor].
      split.
      * intros H. apply (f_equal (@length N)) in H.
        rewrite length_rev in H. discriminate H.
      * apply Forall_rev. exact Hcur.
    + apply IH. constructor; assumption.
Qed.

Lemma join_head (sep : str) (ws : list str) :
  Forall word ws ->
  join sep ws = []
  \/ exists c rest, join sep ws = c :: rest /\ is_space c = false.
Proof.
  intros H. destruct H as [|w ws [Hne Hw] Hws]; [left; reflexivity|].
  right. destruct w as [|c w]; [contradiction|].
  apply Forall_cons in Hw as [Hc _].
  destruct ws; cbn [join app]; eauto.
Qed.

Lemma join_last (sep : str) (ws : list str) :
  Forall word ws ->
  join sep ws = []
  \/ exists c front, join sep ws = front ++ [c] /\ is_space c = false.
Proof.
  induction 1 as [|w ws [Hne Hw] Hws IH]; [left; reflexivity|].
  right. destruct ws as [|w2 ws].
  - cbn [join]. destruct (last w) as [c|] eqn:Hl.
    + apply last_Some in Hl as [front ->].
      exists c, front. split; [reflexivity|].
      rewrite Forall_app, Forall_singleton in Hw. apply Hw.
    + apply last_None in Hl. contradiction.
  - destruct IH as [Hnil|(c & front & Heq & Hc)].
    + exfalso. inversion Hws as [|? ? [Hne2 _] _]; subst.
      destruct w2; [contradiction|].
      destruct ws; cbn [join app] in Hnil; discriminate Hnil.
    + exists c, (w ++ sep ++ front). split; [|exact Hc].
      change (join sep (w :: w2 :: ws))
        with (w ++ sep ++ join sep (w2 :: ws)).
      rewrite Heq, !app_assoc. reflexivity.
Qed.

Lemma lstrip_head (c : N) (s : str) :
  is_space c = false -> lstrip (c :: s) = c :: s.
Proof. intros H. cbn [lstrip]. rewrite H. reflexivity. Qed.

(** White space is collapsed: what [scrub] returns is the words of
    the text left after the marker removal, joined by single spaces
    (the closing [strip] has nothing left to remove). *)
Lemma scrub_collapsed (reply : str) :
  let words :=
    split (fold_left (fun r g => Py.remove g r) SmartBot.garbage reply) in
  Forall word words /\ SmartBot.scrub reply = join (u " ") words.
Proof.
  intros words.
  assert (Hw : Forall word words) by (apply split_from_words; constructor).
  split; [exact Hw|].
  unfold SmartBot.scrub. fold words. unfold strip.
  destruct (join_head (u " ") words Hw) as [->|(c & rest & Hj & Hc)];
    [reflexivity|].
  rewrite Hj, (lstrip_head _ _ Hc), <- Hj.
  destruct (join_last (u " ") words Hw) as [->|(c' & front & Hj' & Hc')];
    [reflexivity|].
  rewrite Hj', rev_app_distr. cbn [rev app].
  rewrite (lstrip_head _ _ Hc').
  change (c' :: rev front) with (rev [c'] ++ rev front).
  rewrite <- rev_app_distr, rev_involutive. reflexivity.
Qed.

(** The last step of [request], on the scrubbed text. *)
Lemma shape_shaped (scrubbed reply : str) :
  (if (length scrubbed <? Constants.MIN_REPLY_LENGTH)%nat
   then Ret (u "Чё?")
   else if (Constants.MAX_REPLY_LENGTH <? length scrubbed)%nat
   then Ret (take Constants.MAX_REPLY_LENGTH scrubbed ++ u "...")
   else Ret scrubbed) = Ret reply ->
  shaped scrubbed reply /\ (3 <= length reply <= 303)%nat.
Proof.
  unfold Constants.MIN_REPLY_LENGTH, Constants.MAX_REPLY_LENGTH, shaped.
  destruct (Nat.ltb_spec (length scrubbed) 3) as [Hs|Hs].
  - intros [= <-]. split; [|vm_compute; lia].
    repeat split; intros; first [reflexivity | lia].
  - destruct (Nat.ltb_spec 300 (length scrubbed)) as [Hl|Hl].
    + intros [= <-]. split.
      * repeat split; intros; first [reflexivity | lia].
      * rewrite length_app, length_take.
        change (length (u "...")) with 3%nat. lia.
    + intros [= <-]. split; [|lia].
      repeat split; intros; first [reflexivity | lia].
Qed.

Lemma request_reply_length (http : res SmartBot.response) (reply : str) :
  SmartBot.request http = Ret reply -> (3 <= length reply <= 303)%nat.
Proof.
  unfold SmartBot.request.
  destruct http as [r|e]; cbn [mbind res_bind]; [|discriminate].
  destruct (negb (SmartBot.status r =? Constants.HTTP_OK)).
  - destruct (SmartBot.text r); cbn [mbind res_bind]; [|discriminate].
    intros [= <-]. vm_compute. lia.
  - destruct (SmartBot.json r) as [data|]; cbn [mbind res_bind];
      [|discriminate].
    destruct (py_in _ data) as [present|]; cbn [mbind res_bind];
      [|discriminate].
    match goal with
    | |- context [mbind _ ?m] => destruct m as [[|]|]
    end; cbn [mbind res_bind]; [| |discriminate].
    + intros [= <-]. vm_compute. lia.
    + destruct (SmartBot.content data) as [c|]; cbn [mbind res_bind];
        [|discriminate].
      intros H. apply shape_shaped in H. apply H.
Qed.

Lemma getitem_str_in (data : value) (k : str) (v : value) :
  getitem_str data k = Ret v -> py_in k data = Ret true.
Proof.
  destruct data; try discriminate. cbn [getitem_str py_in].
  destruct (dict_get d k); [|discriminate]. intros _.
  rewrite bool_decide_eq_true_2 by eauto. reflexivity.
Qed.

End Inference.


(** A well-formed response: the markers go, the white space collapses. *)
Example reply_of_well_formed_response :
  SmartBot.ask_local_model (SmartBot.Chat (u "бот, как дела?"))
    (Ret (SmartBot.mkResponse 200 (Ret [])
            (Ret (VDict [(u "choices",
                          VList [VDict [(u "message",
                                         VDict [(u "content",
                                                 VStr (u "  Димон: Норм,   ###братан  "))])]])]))))
  = Ret (u "Норм, братан").
Proof. vm_compute. reflexivity. Qed.

(** Each marker is removed in one pass, before the white space is
    collapsed: a marker that only comes together afterwards stays. *)
Example marker_after_collapse :
  SmartBot.scrub (u "I am  a bot") = u "I am a bot".
Proof. vm_compute. reflexivity. Qed.

(* ===================================================================== *)
(** * The scheduled announcer                                              *)
(* ===================================================================== *)

Section Announcer.
Import ScheduledMessages.

Lemma weekday_of_date (a b : datetime) :
  date a = date b -> weekday a = weekday b.
Proof. unfold date, weekday. intros ->. reflexivity. Qed.

Lemma greeting_due_window (now : datetime) (s : state) :
  should_send_greeting now s = true ->
  in_window 8 now /\ last_greeting_date s <> Some (date now).
Proof.
  unfold should_send_greeting, in_window, Constants.WEEKEND_START,
    Constants.MORNING_HOUR_START, Constants.MORNING_HOUR_END.
  destruct (Z.leb_spec 5 (weekday now)); [discriminate|].
  destruct (Z.leb_spec 8 (hour now)); cbn [andb negb]; [|discriminate].
  destruct (Z.ltb_spec (hour now) 9); cbn [negb]; [|discriminate].
  case_bool_decide; [discriminate|]. intros _.
  pose proof (Z.mod_pos_bound (ordinal now + 6) 7 ltac:(lia)).
  unfold weekday in *. repeat split; first [assumption | lia].
Qed.

Lemma farewell_due_window (now : datetime) (s : state) :
  should_send_farewell now s = true ->
  in_window 17 now /\ last_farewell_date s <> Some (date now).
Proof.
  unfold should_send_farewell, in_window, Constants.WEEKEND_START,
    Constants.EVENING_HOUR_START, Constants.EVENING_HOUR_END.
  destruct (Z.leb_spec 5 (weekday now)); [discriminate|].
  destruct (Z.leb_spec 17 (hour now)); cbn [andb negb]; [|discriminate].
  destruct (Z.ltb_spec (hour now) 18); cbn [negb]; [|discriminate].
  case_bool_decide; [discriminate|]. intros _.
  pose proof (Z.mod_pos_bound (ordinal now + 6) 7 ltac:(lia)).
  unfold weekday in *. repeat split; first [assumption | lia].
Qed.

(** On a working day the morning generator returns a reply and records
    the date. *)
Lemma generate_morning_greeting_sets (now : datetime)
      (http : res SmartBot.response) (s : state) :
  0 <= weekday now <= 4 ->
  exists reply,
    generate_morning_greeting now http s
    = (Ret reply,
       {| last_greeting_date := Some (date now);
          last_farewell_date := last_farewell_date s |},
       []).
Proof.
  intros Hwd. unfold generate_morning_greeting.
  assert (Hp : exists p,
    (if weekday now =? 4 then Ret SmartBot.MorningFriday
     else day_name ← of_option IndexError
                        (day_names !! Z.to_nat (weekday now));
          Ret (SmartBot.MorningWeekday day_name)) = Ret p).
  { destruct (Z.eqb_spec (weekday now) 4); [eauto|].
    assert (Hc : weekday now = 0 \/ weekday now = 1 \/ weekday now = 2
                 \/ weekday now = 3) by lia.
    destruct Hc as [-> | [-> | [-> | ->]]]; cbn; eauto. }
  destruct Hp as [p ->].
  destruct (ask_local_model_total p http) as [reply ->]. eauto.
Qed.

Lemma generate_evening_farewell_sets (now : datetime)
      (http : res SmartBot.response) (s : state) :
  exists reply,
    generate_evening_farewell now http s
    = (Ret reply,
       {| last_greeting_date := last_greeting_date s;
          last_farewell_date := Some (date now) |},
       []).
Proof.
  unfold generate_evening_farewell.
  destruct (ask_local_model_total
              (if weekday now =? 4 then SmartBot.EveningFriday
               else SmartBot.EveningWeekday) http) as [reply ->].
  eauto.
Qed.

Lemma slot_due (announce : log_record)
      (generate : state -> res str * state * list log_record)
      (send : res unit) (s s' : state) (reply : str) :
  generate s = (Ret reply, s', []) ->
  slot true announce generate send s
  = match send with
    | Ret _ => (Ret tt, s', [reply], [announce])
    | Raise e => (Raise e, s', [], [announce])
    end.
Proof. intros H. unfold slot. rewrite H. reflexivity. Qed.

(** Closes the facts about one run once the run has been evaluated. *)
Ltac tick_close :=
  eexists; split; [reflexivity|]; cbn;
  repeat match goal with
         | |- false = true -> _ => discriminate
         | |- true = true -> _ => intros _
         | |- _ => assumption
         | |- @eq (option Z) _ _ => reflexivity
         | |- _ /\ _ => split
         end.

(** One run of the job on a day [d]: which slots it triggers and what
    it leaves in the two dates. *)
Lemma tick_facts (d : Z) (t : tick) (s : state) :
  tick_on d t ->
  exists s',
    scheduler (check_scheduled_messages t (Some s)) = Some s'
    /\ (greeting_triggered (check_scheduled_messages t (Some s)) = true ->
        in_window 8 (now_greeting_check t)
        /\ last_greeting_date s <> Some d)
    /\ last_greeting_date s'
       = (if greeting_triggered (check_scheduled_messages t (Some s))
          then Some d else last_greeting_date s)
    /\ (farewell_triggered (check_scheduled_messages t (Some s)) = true ->
        in_window 17 (now_farewell_check t)
        /\ last_farewell_date s <> Some d)
    /\ last_farewell_date s'
       = (if farewell_triggered (check_scheduled_messages t (Some s))
          then Some d else last_farewell_date s).
Proof.
  intros (Hd1 & Hd2 & Hd3 & Hd4).
  unfold check_scheduled_messages, greeting_triggered, farewell_triggered.
  destruct (should_send_greeting (now_greeting_check t) s) eqn:Hg.
  - apply greeting_due_window in Hg as [Hw Hlast]. rewrite Hd1 in Hlast.
    destruct (generate_morning_greeting_sets (now_greeting t)
                (http_greeting t) s) as [reply Hgen].
    { rewrite (weekday_of_date (now_greeting t) (now_greeting_check t))
        by congruence. apply Hw. }
    rewrite (slot_due _ _ _ _ _ _ Hgen), Hd2.
    destruct (send_greeting t) as [[]|e].
    + set (s1 := {| last_greeting_date := Some d;
                    last_farewell_date := last_farewell_date s |}).
      destruct (should_send_farewell (now_farewell_check t) s1) eqn:Hf.
      * apply farewell_due_window in Hf as [Hwf Hlastf].
        rewrite Hd3 in Hlastf.
        destruct (generate_evening_farewell_sets (now_farewell t)
                    (http_farewell t) s1) as [bye Hgenf].
        rewrite (slot_due _ _ _ _ _ _ Hgenf), Hd4.
        destruct (send_farewell t) as [[]|e]; tick_close.
      * tick_close.
    + tick_close.
  - cbn [slot].
    destruct (should_send_farewell (now_farewell_check t) s) eqn:Hf.
    + apply farewell_due_window in Hf as [Hwf Hlastf].
      rewrite Hd3 in Hlastf.
      destruct (generate_evening_farewell_sets (now_farewell t)
                  (http_farewell t) s) as [bye Hgenf].
      rewrite (slot_due _ _ _ _ _ _ Hgenf), Hd4.
      destruct (send_farewell t) as [[]|e]; tick_close.
    + tick_close.
Qed.

Lemma filter_none {A} (f : A -> bool) (l : list A) :
  Forall (fun x => f x = false) l -> List.filter f l = [].
Proof.
  induction 1 as [|x l Hx _ IH]; [reflexivity|].
  cbn [List.filter]. rewrite Hx. exact IH.
Qed.

(** The argument shared by the two slots: [trig] tells whether a run
    triggered the slot, [last] is the slot's date, [window] the slot's
    condition on the run. *)
Section Slot.
Variable d : Z.
Variable trig : outcome -> bool.
Variable last : state -> option Z.
Variable window : tick -> Prop.
Hypothesis step : forall t s,
  tick_on d t ->
  exists s',
    scheduler (check_scheduled_messages t (Some s)) = Some s'
    /\ (trig (check_scheduled_messages t (Some s)) = true ->
        window t /\ last s <> Some d)
    /\ last s'
       = (if trig (check_scheduled_messages t (Some s))
          then Some d else last s).
Hypothesis off : forall t,
  trig (check_scheduled_messages t None) = false.

Lemma run_disabled (ticks : list tick) :
  Forall (fun o => trig o = false) (run ticks None).
Proof.
  induction ticks as [|t ticks IH]; [constructor|].
  cbn [run]. constructor; [apply off | exact IH].
Qed.

Lemma run_after_sent (ticks : list tick) (s : state) :
  Forall (tick_on d) ticks -> last s = Some d ->
  Forall (fun o => trig o = false) (run ticks (Some s)).
Proof.
  intros Hd. revert s.
  induction Hd as [|t ticks Ht _ IH]; intros s Hs; [constructor|].
  cbn [run]. destruct (step t s Ht) as (s' & -> & Hno & Hlast).
  destruct (trig (check_scheduled_messages t (Some s))) eqn:Htrig.
  - destruct (Hno eq_refl) as [_ Hne]. contradiction.
  - constructor; [exact Htrig|]. apply IH. congruence.
Qed.

Lemma run_window (ticks : list tick) (sched : option state) :
  Forall (tick_on d) ticks ->
  forall (i : nat) (t : tick) (o : outcome),
    ticks !! i = Some t -> run ticks sched !! i = Some o ->
    trig o = true -> window t.
Proof.
  intros Hd. revert sched.
  induction Hd as [|t0 ticks Ht _ IH]; intros sched i t o Hi Ho Htrig;
    [discriminate Hi|].
  cbn [run] in Ho. destruct i as [|i].
  - assert (E : check_scheduled_messages t0 sched = o)
      by (injection Ho as E'; exact E').
    injection Hi as <-. rewrite <- E in Htrig. clear E Ho.
    destruct sched as [s|]; [|rewrite off in Htrig; discriminate].
    destruct (step t0 s Ht) as (s' & _ & Hw & _). apply Hw, Htrig.
  - cbn in Hi, Ho. eapply IH; eassumption.
Qed.

Lemma run_once (ticks : list tick) (sched : option state) :
  Forall (tick_on d) ticks ->
  (length (List.filter trig (run ticks sched)) <= 1)%nat
  /\ forall (i j : nat) (oi oj : outcome),
       (i < j)%nat ->
       run ticks sched !! i = Some oi -> run ticks sched !! j = Some oj ->
       trig oi = true -> trig oj = false.
Proof.
  intros Hd.
  assert (Hquiet : forall l : list outcome,
             Forall (fun o => trig o = false) l ->
             (length (List.filter trig l) <= 1)%nat
             /\ forall (i j : nat) (oi oj : outcome),
                  (i < j)%nat -> l !! i = Some oi -> l !! j = Some oj ->
                  trig oi = true -> trig oj = false).
  { intros l Hl. rewrite (filter_none _ _ Hl). split; [cbn; lia|].
    intros i j oi oj _ Hi _ Hoi.
    rewrite Forall_lookup in Hl. rewrite (Hl _ _ Hi) in Hoi.
    discriminate Hoi. }
  destruct sched as [s|]; [|apply Hquiet, run_disabled].
  revert s. induction Hd as [|t ticks Ht Hd IH]; intros s.
  - split; [cbn; lia|]. intros i j oi oj _ Hi. discriminate Hi.
  - cbn [run]. destruct (step t s Ht) as (s' & Hs' & Hno & Hlast).
    rewrite Hs'.
    destruct (trig (check_scheduled_messages t (Some s))) eqn:Htrig.
    + pose proof (run_after_sent ticks s' Hd Hlast) as Hrest.
      split.
      * cbn [List.filter]. rewrite Htrig, (filter_none _ _ Hrest).
        cbn. lia.
      * intros i j oi oj Hij Hi Hj Hoi.
        destruct j as [|j]; [lia|]. cbn in Hj.
        rewrite Forall_lookup in Hrest. apply (Hrest _ _ Hj).
    + destruct (IH s') as [Hcount Horder]. split.
      * cbn [List.filter]. rewrite Htrig. exact Hcount.
      * intros i j oi oj Hij Hi Hj Hoi.
        destruct j as [|j]; [lia|]. destruct i as [|i].
        -- assert (E : check_scheduled_messages t (Some s) = oi)
             by (injection Hi as E'; exact E').
           rewrite <- E in Hoi. congruence.
        -- cbn in Hi, Hj. apply (Horder i j oi oj); [lia|assumption..].
Qed.
End Slot.

(** C7: over any sequence of runs of the scheduler job on one calendar
    day, each of the two announcements is triggered at most once; a
    run triggers the morning (evening) announcement only when its
    clock reading is on a day from Monday to Friday in the hour from
    8:00 (17:00); and after a run that triggered a slot no later run
    of the day triggers it again. *)
Theorem announcement_once_per_day
    (d : Z) (ticks : list tick) (sched : option state) :
  Forall (tick_on d) ticks ->
  ((length (List.filter greeting_triggered (run ticks sched)) <= 1)%nat
   /\ (length (List.filter farewell_triggered (run ticks sched)) <= 1)%nat)
  /\ (forall (i : nat) (t : tick) (o : outcome),
        ticks !! i = Some t -> run ticks sched !! i = Some o ->
        (greeting_triggered o = true -> in_window 8 (now_greeting_check t))
        /\ (farewell_triggered o = true ->
            in_window 17 (now_farewell_check t)))
  /\ (forall (i j : nat) (oi oj : outcome),
        (i < j)%nat ->
        run ticks sched !! i = Some oi -> run ticks sched !! j = Some oj ->
        (greeting_triggered oi = true -> greeting_triggered oj = false)
        /\ (farewell_triggered oi = true -> farewell_triggered oj = false)).
Proof.
  intros Hd.
  assert (Hg : forall t s, tick_on d t ->
    exists s',
      scheduler (check_scheduled_messages t (Some s)) = Some s'
      /\ (greeting_triggered (check_scheduled_messages t (Some s)) = true ->
          in_window 8 (now_greeting_check t)
          /\ last_greeting_date s <> Some d)
      /\ last_greeting_date s'
         = (if greeting_triggered (check_scheduled_messages t (Some s))
            then Some d else last_greeting_date s)).
  { intros t s Ht.
    destruct (tick_facts d t s Ht) as (s' & H1 & H2 & H3 & _). eauto. }
  assert (Hf : forall t s, tick_on d t ->
    exists s',
      scheduler (check_scheduled_messages t (Some s)) = Some s'
      /\ (farewell_triggered (check_scheduled_messages t (Some s)) = true ->
          in_window 17 (now_farewell_check t)
          /\ last_farewell_date s <> Some d)
      /\ last_farewell_date s'
         = (if farewell_triggered (check_scheduled_messages t (Some s))
            then Some d else last_farewell_date s)).
  { intros t s Ht.
    destruct (tick_facts d t s Ht) as (s' & H1 & _ & _ & H4 & H5). eauto. }
  pose proof (run_once d greeting_triggered last_greeting_date
                (fun t => in_window 8 (now_greeting_check t)) Hg
                (fun _ => eq_refl) ticks sched Hd) as [Hgc Hgo].
  pose proof (run_once d farewell_triggered last_farewell_date
                (fun t => in_window 17 (now_farewell_check t)) Hf
                (fun _ => eq_refl) ticks sched Hd) as [Hfc Hfo].
  split; [split; assumption|]. split.
  - intros i t o Hi Ho. split; intros Htrig.
    + exact (run_window d greeting_triggered last_greeting_date
               (fun t => in_window 8 (now_greeting_check t)) Hg
               (fun _ => eq_refl) ticks sched Hd i t o Hi Ho Htrig).
    + exact (run_window d farewell_triggered last_farewell_date
               (fun t => in_window 17 (now_farewell_check t)) Hf
               (fun _ => eq_refl) ticks sched Hd i t o Hi Ho Htrig).
  - intros i j oi oj Hij Hi Hj. split; intros Htrig.
    + exact (Hgo i j oi oj Hij Hi Hj Htrig).
    + exact (Hfo i j oi oj Hij Hi Hj Htrig).
Qed.
End Announcer.

Lemma announcement_once_per_day_witness :
  (length (List.filter greeting_triggered
             (ScheduledMessages.run monday_ticks
                (Some ScheduledMessages.init))) <= 1)%nat.
Proof.
  apply (announcement_once_per_day monday monday_ticks
           (Some ScheduledMessages.init)).
  repeat constructor.
Defined.

(** The clock crosses the morning window twice on that Monday: the
    greeting goes out on the first of the two runs only. *)
Example monday_greeting_once :
  map greeting_triggered
      (ScheduledMessages.run monday_ticks (Some ScheduledMessages.init))
  = [false; true; false; false].
Proof. vm_compute. reflexivity. Qed.

(* ===================================================================== *)
(** * Ingestion: window, index and profile bookkeeping                     *)
(* ===================================================================== *)

Section Bookkeeping.
Context {Vec : Type}.
Variable encode : str -> res Vec.
Variable lower : str -> str.

#[local] Abbreviation kstate := (AdvancedContextManager.state Vec).
#[local] Abbreviation kupdate :=
  (AdvancedContextManager._update_user_profile lower).
#[local] Abbreviation kadd :=
  (AdvancedContextManager.add_message encode lower).

(** [_update_user_profile] only writes the profile store and the
    profile table. *)
Lemma update_frame (m : Message) (self : kstate) :
  AdvancedContextManager.context_window (kupdate m self).2
  = AdvancedContextManager.context_window self
  /\ AdvancedContextManager.recent_messages (kupdate m self).2
     = AdvancedContextManager.recent_messages self
  /\ AdvancedContextManager.vector_memory (kupdate m self).2
     = AdvancedContextManager.vector_memory self
  /\ AdvancedContextManager.save_tasks (kupdate m self).2
     = AdvancedContextManager.save_tasks self
  /\ AdvancedContextManager.log (kupdate m self).2
     = AdvancedContextManager.log self
  /\ DatabaseManager.messages
       (AdvancedContextManager.db (kupdate m self).2)
     = DatabaseManager.messages (AdvancedContextManager.db self)
  /\ DatabaseManager.last_id
       (AdvancedContextManager.db (kupdate m self).2)
     = DatabaseManager.last_id (AdvancedContextManager.db self).
Proof.
  unfold AdvancedContextManager._update_user_profile.
  repeat match goal with
         | |- context [match ?x with Ret _ => _ | Raise _ => _ end] =>
             destruct x
         end;
    repeat split.
Qed.

(** What [add_message] does before it updates the profile. *)
Lemma add_message_frame (m : Message) (self : kstate) :
  AdvancedContextManager.context_window (kadd m self).2
  = AdvancedContextManager.context_window self
  /\ AdvancedContextManager.recent_messages (kadd m self).2
     = AdvancedContextManager.deque_append
         (AdvancedContextManager.context_window self) (derive lower m)
         (AdvancedContextManager.recent_messages self)
  /\ AdvancedContextManager.vector_memory (kadd m self).2
     = (VectorMemory.add_message encode (derive lower m)
          (AdvancedContextManager.vector_memory self)).1
  /\ AdvancedContextManager.save_tasks (kadd m self).2
     = AdvancedContextManager.save_tasks self ++ [derive lower m].
Proof.
  unfold AdvancedContextManager.add_message. fold (derive lower m).
  destruct (VectorMemory.add_message encode (derive lower m)
              (AdvancedContextManager.vector_memory self))
    as [vm vm_log] eqn:Hvm.
  match goal with
  | |- context [kupdate ?m' ?s'] =>
      destruct (update_frame m' s') as (Hw & Hr & Hv & Ht & _)
  end.
  rewrite Hw, Hr, Hv, Ht. repeat split.
Qed.

Lemma ingest_snoc (ms : list Message) (m : Message) (self : kstate) :
  ingest encode lower (ms ++ [m]) self
  = (kadd m (ingest encode lower ms self)).2.
Proof. unfold ingest. rewrite fold_left_app. reflexivity. Qed.

Lemma ingest_memory (ms : list Message) (self : kstate)
      (history : list Message) :
  AdvancedContextManager.recent_messages self
  = lastn (AdvancedContextManager.context_window self) history ->
  AdvancedContextManager.context_window (ingest encode lower ms self)
  = AdvancedContextManager.context_window self
  /\ AdvancedContextManager.recent_messages (ingest encode lower ms self)
     = lastn (AdvancedContextManager.context_window self)
             (history ++ map (derive lower) ms)
  /\ AdvancedContextManager.vector_memory (ingest encode lower ms self)
     = add_all encode (map (derive lower) ms)
               (AdvancedContextManager.vector_memory self)
  /\ AdvancedContextManager.save_tasks (ingest encode lower ms self)
     = AdvancedContextManager.save_tasks self ++ map (derive lower) ms.
Proof.
  revert self history.
  induction ms as [|m ms IH]; intros self history Hh.
  - cbn [ingest fold_left map add_all]. rewrite !app_nil_r. auto.
  - cbn [ingest fold_left map add_all].
    fold (ingest encode lower ms (kadd m self).2).
    fold (add_all encode (map (derive lower) ms)
            (VectorMemory.add_message encode (derive lower m)
               (AdvancedContextManager.vector_memory self)).1).
    destruct (add_message_frame m self) as (Hw & Hr & Hv & Ht).
    destruct (IH (kadd m self).2 (history ++ [derive lower m]))
      as (Hw' & Hr' & Hv' & Ht').
    { rewrite Hw, Hr, Hh.
      unfold AdvancedContextManager.deque_append.
      apply lastn_lastn_app. }
    rewrite Hw', Hr', Hv', Ht', Hw, Hv, Ht, <- !app_assoc. auto.
Qed.

Lemma importance_range (m : Message) :
  PrimFloat.leb 0 (AdvancedContextManager._calculate_importance lower m)
  = true
  /\ PrimFloat.leb (AdvancedContextManager._calculate_importance lower m) 1
     = true.
Proof.
  unfold AdvancedContextManager._calculate_importance.
  destruct (has_image m);
    destruct (100 <? length (text m))%nat;
    destruct (contains (u "?") (text m));
    destruct (any_in [u "бот"; u "bot"; u "димон"] (lower (text m)));
    destruct (any_in _ (lower (text m)));
    vm_compute; auto.
Qed.

Lemma derive_ok (m : Message) : event_ok (derive lower m).
Proof.
  unfold event_ok, derive. cbn [importance sentiment].
  destruct (importance_range m) as [H0 H1].
  split; [exact H0|]. split; [exact H1|].
  unfold AdvancedContextManager._analyze_sentiment.
  set (p := count_in AdvancedContextManager.positive_words (lower (text m))).
  set (n := count_in AdvancedContextManager.negative_words (lower (text m))).
  destruct (n <? p)%nat; [left; reflexivity|].
  destruct (p <? n)%nat; [right; left; reflexivity|right; right; reflexivity].
Qed.

Lemma Forall_lastn {A} (P : A -> Prop) (n : nat) (l : list A) :
  Forall P l -> Forall P (lastn n l).
Proof. intros H. unfold lastn. apply Forall_drop, H. Qed.



(** The profile [_update_user_profile] leaves under the author's id,
    whichever way the call ends. *)
Lemma update_profile_of (m : Message) (self : kstate) :
  exists p,
    AdvancedContextManager.user_profiles (kupdate m self).2 !! user_id m
    = Some p
    /\ profile_user_id p
       = profile_user_id (AdvancedContextManager.touch m self)
    /\ profile_username p = username m
    /\ last_seen p = timestamp m
    /\ interests p = interests (AdvancedContextManager.touch m self).
Proof.
  unfold AdvancedContextManager._update_user_profile.
  repeat match goal with
         | |- context [match ?x with Ret _ => _ | Raise _ => _ end] =>
             destruct x
         end;
    repeat match goal with
           | |- context [Z.ltb ?a ?b] => destruct (Z.ltb a b)
           end;
    (eexists; split; [apply lookup_insert_eq|]; repeat split).
Qed.

Lemma add_message_as_update (m : Message) (self : kstate) :
  exists self',
    kadd m self = kupdate (derive lower m) self'
    /\ AdvancedContextManager.user_profiles self'
       = AdvancedContextManager.user_profiles self
    /\ AdvancedContextManager.db self' = AdvancedContextManager.db self.
Proof.
  unfold AdvancedContextManager.add_message. fold (derive lower m).
  destruct (VectorMemory.add_message encode (derive lower m)
              (AdvancedContextManager.vector_memory self)) as [vm vm_log].
  eexists. split; [reflexivity|]. split; reflexivity.
Qed.

(** One ingested event on a store of well-formed profiles. *)
Lemma add_message_profile (m : Message) (self : kstate) :
  store_ok (AdvancedContextManager.user_profiles self) ->
  exists p,
    (kadd m self).1 = Ret tt
    /\ AdvancedContextManager.user_profiles (kadd m self).2
       = <[user_id m := p]> (AdvancedContextManager.user_profiles self)
    /\ DatabaseManager.user_profiles
         (AdvancedContextManager.db (kadd m self).2)
       = <[profile_user_id p := p]>
           (DatabaseManager.user_profiles (AdvancedContextManager.db self))
    /\ profile_ok p
    /\ profile_username p = username m
    /\ last_seen p = timestamp m
    /\ match AdvancedContextManager.user_profiles self !! user_id m with
       | Some old =>
           profile_user_id p = profile_user_id old
           /\ interaction_count p = interaction_count old + 1
           /\ interests p
              = (if has_image m
                 then if bool_decide (u "мемы" ∈ interests old)
                      then interests old else interests old ++ [u "мемы"]
                 else interests old)
       | None =>
           profile_user_id p = user_id m
           /\ interaction_count p = 1
           /\ interests p = (if has_image m then [u "мемы"] else [])
       end.
Proof.
  intros Hok.
  destruct (add_message_as_update m self) as (self' & Heq & Hps & Hdb).
  rewrite Heq.
  assert (Htouch : AdvancedContextManager.touch (derive lower m) self'
                   = AdvancedContextManager.touch m self).
  { unfold AdvancedContextManager.touch. rewrite Hps. reflexivity. }
  destruct (update_step lower (derive lower m) self')
    as (p & Hret & Hst & Hpok & Hcnt); [rewrite Hps; exact Hok|].
  destruct (update_profile_of (derive lower m) self')
    as (p' & Hlk & Hid & Hname & Hseen & Hint).
  rewrite Hst in Hlk. rewrite lookup_insert_eq in Hlk.
  injection Hlk as <-.
  exists p. split; [exact Hret|]. split; [rewrite Hst, Hps; reflexivity|].
  split.
  - destruct (update_stores lower (derive lower m) self')
      as (q & Hq & _).
    { rewrite Htouch. unfold AdvancedContextManager.touch.
      destruct (AdvancedContextManager.user_profiles self !! user_id m)
        as [old|] eqn:Hold.
      - apply (Hok _ _ Hold).
      - apply new_profile_has_traits. }
    assert (q = p) as ->.
    { rewrite Hq in Hst. cbn in Hst.
      apply (f_equal (fun ps => ps !! user_id m)) in Hst.
      cbn [user_id derive] in Hst.
      rewrite !lookup_insert_eq in Hst. congruence. }
    rewrite Hq. cbn. rewrite Hdb. reflexivity.
  - split; [exact Hpok|]. split; [exact Hname|]. split; [exact Hseen|].
    rewrite Htouch in Hid, Hint. rewrite Hps in Hcnt.
    unfold AdvancedContextManager.touch in Hid, Hint.
    cbn [user_id derive] in Hcnt.
    destruct (AdvancedContextManager.user_profiles self !! user_id m)
      as [old|];
      cbn [profile_user_id interests AdvancedContextManager.new_profile]
        in Hid, Hint.
    + split; [exact Hid|]. split; [apply Hcnt | exact Hint].
    + split; [exact Hid|]. split; [exact Hcnt|].
      rewrite Hint. destruct (has_image m); reflexivity.
Qed.

Lemma events_of_snoc (uid : Z) (ms : list Message) (m : Message) :
  events_of uid (ms ++ [m])
  = events_of uid ms ++ (if user_id m =? uid then [m] else []).
Proof.
  unfold events_of. rewrite List.filter_app. cbn [List.filter].
  destruct (user_id m =? uid); reflexivity.
Qed.

(** The profile store after any sequence of ingested events. *)
Lemma ingest_profiles (w : nat) (ms : list Message) :
  let st : kstate :=
    ingest encode lower ms (AdvancedContextManager.init w) in
  store_ok (AdvancedContextManager.user_profiles st)
  /\ DatabaseManager.user_profiles (AdvancedContextManager.db st)
     = AdvancedContextManager.user_profiles st
  /\ forall uid,
       profile_summary uid ms
         (AdvancedContextManager.user_profiles st !! uid).
Proof.
  induction ms as [|m ms IH] using rev_ind; intros st.
  - split; [apply init_ok|]. split; [reflexivity|].
    intros uid. subst st. cbn. rewrite lookup_empty. reflexivity.
  - destruct IH as (Hok & Hdb & Hsum).
    subst st. rewrite ingest_snoc.
    set (st0 := ingest encode lower ms (AdvancedContextManager.init w)) in *.
    destruct (add_message_profile m st0 Hok)
      as (p & _ & Hst & Hdb' & Hpok & Hname & Hseen & Hold).
    pose proof (Hsum (user_id m)) as Hauthor.
    assert (Hid : profile_user_id p = user_id m).
    { destruct (AdvancedContextManager.user_profiles st0 !! user_id m)
        as [old|]; [|apply Hold].
      destruct Hold as [-> _]. apply Hauthor. }
    split; [|split].
    + rewrite Hst. intros uid q. rewrite lookup_insert.
      case_decide; [intros [= <-]; exact Hpok | apply Hok].
    + rewrite Hdb', Hst, Hid, Hdb. reflexivity.
    + intros uid. rewrite Hst, lookup_insert. unfold profile_summary.
      rewrite !events_of_snoc.
      destruct (Z.eqb_spec (user_id m) uid) as [Heq|Hne].
      * rewrite decide_True by exact Heq. subst uid.
        split; [exact Hid|].
        rewrite length_app, last_snoc, existsb_app. cbn [length existsb].
        destruct (AdvancedContextManager.user_profiles st0 !! user_id m)
          as [old|]; cbn [profile_summary] in Hauthor.
        -- destruct Hold as (_ & Hc & Hi).
           destruct Hauthor as (_ & Hco & _ & Hio & _).
           split; [rewrite Hc, Hco; lia|].
           split; [exists m; auto|]. split; [|exact Hpok].
           rewrite Hi, Hio.
           destruct (existsb has_image (events_of (user_id m) ms));
             destruct (has_image m); reflexivity.
        -- destruct Hold as (_ & Hc & Hi). rewrite Hauthor.
           split; [rewrite Hc; reflexivity|].
           split; [exists m; auto|]. split; [|exact Hpok].
           rewrite Hi. destruct (has_image m); reflexivity.
      * rewrite decide_False by exact Hne. rewrite !app_nil_r. apply Hsum.
Qed.

(** X3: ingestion counts every event exactly once.  From an empty
    store, no call of [add_message] raises, an author has a profile
    exactly when at least one of the ingested events is theirs, and the
    profile's interaction counter is the number of their events. *)
Theorem ingestion_counts_events (w : nat) (ms : list Message) (m : Message) :
  let st : kstate :=
    ingest encode lower ms (AdvancedContextManager.init w) in
  (kadd m st).1 = Ret tt
  /\ forall uid,
       match AdvancedContextManager.user_profiles st !! uid with
       | None => events_of uid ms = []
       | Some p =>
           events_of uid ms <> []
           /\ interaction_count p = Z.of_nat (length (events_of uid ms))
       end.
Proof.
  intros st. destruct (ingest_profiles w ms) as (Hok & _ & Hsum).
  fold st in Hok, Hsum. split.
  - destruct (add_message_profile m st Hok) as (p & Hret & _). exact Hret.
  - intros uid. specialize (Hsum uid).
    destruct (AdvancedContextManager.user_profiles st !! uid) as [p|];
      cbn [profile_summary] in Hsum; [|exact Hsum].
    destruct Hsum as (_ & Hc & (e & He & _) & _). split; [|exact Hc].
    intros Hnil. rewrite Hnil in He. discriminate He.
Qed.


(** X5: a profile follows its author's events: the display name and
    the last-seen time are those of the author's most recent event, and
    the interest list is the media tag once if any of the author's
    events had an attachment, and empty otherwise (the tag is never
    added twice). *)
Theorem profile_tracks_last_event (w : nat) (ms : list Message) (uid : Z) :
  match
    AdvancedContextManager.user_profiles
      (ingest encode lower ms (AdvancedContextManager.init (Vec := Vec) w))
      !! uid
  with
  | None => True
  | Some p =>
      (exists e, last (events_of uid ms) = Some e
                 /\ profile_username p = username e
                 /\ last_seen p = timestamp e)
      /\ interests p
         = (if existsb has_image (events_of uid ms) then [u "мемы"] else [])
  end.
Proof.
  destruct (ingest_profiles w ms) as (_ & _ & Hsum).
  specialize (Hsum uid).
  destruct (AdvancedContextManager.user_profiles _ !! uid) as [p|];
    [|exact I].
  destruct Hsum as (_ & _ & Hlast & Hint & _). split; assumption.
Qed.
End Bookkeeping.

(* ===================================================================== *)
(** * The persistent store                                                 *)
(* ===================================================================== *)

Section Store.
Context {Vec : Type}.

#[local] Abbreviation sstate := (DatabaseManager.state Vec).

Lemma ids_increase_filter (f : DatabaseManager.row Vec -> bool)
      (rows : list (DatabaseManager.row Vec)) :
  ids_increase rows -> ids_increase (List.filter f rows).
Proof.
  unfold ids_increase. induction rows as [|r rows IH]; [auto|].
  rewrite StronglySorted_cons. intros [Hr Hs]. cbn [List.filter].
  destruct (f r); [|apply IH, Hs].
  apply StronglySorted_cons. split; [|apply IH, Hs].
  apply Forall_forall. intros r' Hin.
  apply list_elem_of_In, filter_In in Hin as [Hin _].
  rewrite Forall_forall in Hr. apply Hr, list_elem_of_In, Hin.
Qed.

Lemma Forall_filter_keep {A} (P : A -> Prop) (f : A -> bool) (l : list A) :
  Forall P l -> Forall P (List.filter f l).
Proof.
  intros H. apply Forall_forall. intros x Hin.
  apply list_elem_of_In, filter_In in Hin as [Hin _].
  rewrite Forall_forall in H. apply H, list_elem_of_In, Hin.
Qed.

(** What every write keeps. *)
Lemma db_apply_ids (op : db_op Vec) (db : sstate) :
  ids_increase (DatabaseManager.messages db) ->
  Forall (fun r => 0 < DatabaseManager.id r <= DatabaseManager.last_id db)
         (DatabaseManager.messages db) ->
  0 <= DatabaseManager.last_id db ->
  ids_increase (DatabaseManager.messages (db_apply op db))
  /\ Forall (fun r => 0 < DatabaseManager.id r
                      <= DatabaseManager.last_id (db_apply op db))
            (DatabaseManager.messages (db_apply op db))
  /\ DatabaseManager.last_id db <= DatabaseManager.last_id (db_apply op db).
Proof.
  intros Hs Hb H0. destruct op as [m e|p|now days].
  - cbn [db_apply DatabaseManager.save_message DatabaseManager.messages
         DatabaseManager.last_id].
    split; [|split; [|lia]].
    + apply StronglySorted_app. split; [|split].
      * intros r1 r2 H1 H2. apply list_elem_of_singleton in H2 as ->.
        rewrite Forall_forall in Hb. specialize (Hb _ H1).
        cbn [DatabaseManager.id]. lia.
      * exact Hs.
      * repeat constructor.
    + apply Forall_app. split.
      * eapply Forall_impl; [exact Hb|]. cbn beta. intros r Hr. lia.
      * constructor; [cbn [DatabaseManager.id]; lia|constructor].
  - cbn [db_apply DatabaseManager.save_user_profile DatabaseManager.messages
         DatabaseManager.last_id].
    split; [exact Hs|]. split; [exact Hb|lia].
  - cbn [db_apply]. unfold DatabaseManager.cleanup_old_messages.
    destruct (float_of_int (days * 24 * 3600)) as [h|];
      cbn [fst snd DatabaseManager.messages DatabaseManager.last_id].
    + split; [apply ids_increase_filter, Hs|].
      split; [apply Forall_filter_keep, Hb|lia].
    + split; [exact Hs|]. split; [exact Hb|lia].
Qed.

(** X6: row ids are never reused.  Whatever messages and profiles are
    saved and whatever sweeps are run on a new database, the ids of the
    rows of [messages] are positive, strictly increasing along the
    table (hence distinct) and bounded by the counter, and the counter
    never goes down, so that a row saved later gets an id above every id
    given out before, deleted rows included. *)
Theorem row_ids_never_reused (ops later : list (db_op Vec)) :
  let db : sstate := db_run ops DatabaseManager.init_database in
  ids_increase (DatabaseManager.messages db)
  /\ Forall (fun r => 0 < DatabaseManager.id r <= DatabaseManager.last_id db)
            (DatabaseManager.messages db)
  /\ DatabaseManager.last_id db
     <= DatabaseManager.last_id (db_run later db)
  /\ forall m e,
       DatabaseManager.messages (DatabaseManager.save_message m e db)
       = DatabaseManager.messages db
         ++ [DatabaseManager.mkRow (DatabaseManager.last_id db + 1) m e].
Proof.
  assert (Hrun : forall (l : list (db_op Vec)) (d : sstate),
    ids_increase (DatabaseManager.messages d) ->
    Forall (fun r => 0 < DatabaseManager.id r <= DatabaseManager.last_id d)
           (DatabaseManager.messages d) ->
    0 <= DatabaseManager.last_id d ->
    ids_increase (DatabaseManager.messages (db_run l d))
    /\ Forall (fun r => 0 < DatabaseManager.id r
                        <= DatabaseManager.last_id (db_run l d))
              (DatabaseManager.messages (db_run l d))
    /\ DatabaseManager.last_id d <= DatabaseManager.last_id (db_run l d)).
  { induction l as [|op l IH]; intros d Hs Hb H0.
    - cbn. split; [exact Hs|]. split; [exact Hb|lia].
    - cbn [db_run fold_left]. fold (db_run l (db_apply op d)).
      destruct (db_apply_ids op d Hs Hb H0) as (Hs' & Hb' & Hl').
      destruct (IH (db_apply op d) Hs' Hb' ltac:(lia)) as (? & ? & ?).
      split; [assumption|]. split; [assumption|lia]. }
  intros db.
  destruct (Hrun ops DatabaseManager.init_database) as (Hs & Hb & H0);
    [constructor | constructor | reflexivity |].
  fold db in Hs, Hb, H0. cbn in H0.
  destruct (Hrun later db Hs Hb H0) as (_ & _ & Hl).
  split; [exact Hs|]. split; [exact Hb|]. split; [exact Hl|].
  reflexivity.
Qed.

Lemma filter_filter_same {A} (f : A -> bool) (l : list A) :
  List.filter f (List.filter f l) = List.filter f l.
Proof.
  induction l as [|x l IH]; [reflexivity|].
  cbn [List.filter]. destruct (f x) eqn:Hx; [|exact IH].
  cbn [List.filter]. rewrite Hx, IH. reflexivity.
Qed.

Lemma filter_filter_negb {A} (f : A -> bool) (l : list A) :
  List.filter f (List.filter (fun x => negb (f x)) l) = [].
Proof.
  induction l as [|x l IH]; [reflexivity|].
  cbn [List.filter]. destruct (f x) eqn:Hx; cbn [negb]; [exact IH|].
  cbn [List.filter]. rewrite Hx. exact IH.
Qed.

(** X7: the retention sweep is idempotent.  A second sweep with the
    same clock reading and the same horizon leaves the database as the
    first one left it, ends the same way, and, when the first one ran,
    logs that 0 rows were deleted. *)
Theorem cleanup_idempotent (now : float) (days : Z) (db : sstate) :
  let first := DatabaseManager.cleanup_old_messages now days db in
  let second := DatabaseManager.cleanup_old_messages now days first.1.2 in
  second.1.2 = first.1.2
  /\ second.1.1 = first.1.1
  /\ (first.1.1 = Ret VNone -> second.2 = [LogDeleted 0]).
Proof.
  unfold DatabaseManager.cleanup_old_messages.
  destruct (float_of_int (days * 24 * 3600)) as [h|e];
    cbn [fst snd DatabaseManager.messages DatabaseManager.last_id
         DatabaseManager.user_profiles].
  - rewrite filter_filter_same, filter_filter_negb.
    repeat split.
  - repeat split. discriminate.
Qed.
End Store.

Section Persistence.
Context {Vec : Type}.
Variable encode : str -> res Vec.
Variable lower : str -> str.

#[local] Abbreviation pstate := (AdvancedContextManager.state Vec).
#[local] Abbreviation save :=
  (AdvancedContextManager._save_message_async encode).

(** One save task: a row for an accepted text, nothing but a log record
    for a refused one; the profiles are not touched. *)
Lemma save_task_step (m : Message) (st : pstate) :
  map DatabaseManager.message
      (DatabaseManager.messages (AdvancedContextManager.db (save m st)))
  = map DatabaseManager.message
        (DatabaseManager.messages (AdvancedContextManager.db st))
    ++ (if storable encode m then [m] else [])
  /\ DatabaseManager.last_id (AdvancedContextManager.db (save m st))
     = DatabaseManager.last_id (AdvancedContextManager.db st)
       + (if storable encode m then 1 else 0)
  /\ DatabaseManager.user_profiles (AdvancedContextManager.db (save m st))
     = DatabaseManager.user_profiles (AdvancedContextManager.db st)
  /\ AdvancedContextManager.user_profiles (save m st)
     = AdvancedContextManager.user_profiles st.
Proof.
  unfold AdvancedContextManager._save_message_async, storable.
  fold (save_text m).
  destruct (encode (save_text m)) as [e|];
    cbn [AdvancedContextManager.db AdvancedContextManager.with_db
         AdvancedContextManager.user_profiles
         DatabaseManager.save_message DatabaseManager.messages
         DatabaseManager.last_id DatabaseManager.user_profiles].
  - rewrite map_app. repeat split.
  - rewrite app_nil_r, Z.add_0_r. repeat split.
Qed.

Lemma run_saves_db (tasks : list Message) (st : pstate) :
  map DatabaseManager.message
      (DatabaseManager.messages
         (AdvancedContextManager.db (run_saves encode tasks st)))
  = map DatabaseManager.message
        (DatabaseManager.messages (AdvancedContextManager.db st))
    ++ List.filter (storable encode) tasks
  /\ DatabaseManager.last_id
       (AdvancedContextManager.db (run_saves encode tasks st))
     = DatabaseManager.last_id (AdvancedContextManager.db st)
       + Z.of_nat (length (List.filter (storable encode) tasks))
  /\ DatabaseManager.user_profiles
       (AdvancedContextManager.db (run_saves encode tasks st))
     = DatabaseManager.user_profiles (AdvancedContextManager.db st)
  /\ AdvancedContextManager.user_profiles (run_saves encode tasks st)
     = AdvancedContextManager.user_profiles st.
Proof.
  revert st. induction tasks as [|m tasks IH]; intros st.
  - cbn. rewrite app_nil_r, Z.add_0_r. repeat split.
  - cbn [run_saves fold_left List.filter].
    fold (run_saves encode tasks (save m st)).
    destruct (IH (save m st)) as (Hm & Hl & Hp & Hu).
    destruct (save_task_step m st) as (Hm' & Hl' & Hp' & Hu').
    rewrite Hm, Hl, Hp, Hu, Hm', Hl', Hp', Hu'.
    destruct (storable encode m); cbn [length];
      rewrite <- ?app_assoc, ?app_nil_r; repeat split; lia.
Qed.

Lemma ingest_db_messages (w : nat) (ms : list Message) :
  DatabaseManager.messages
    (AdvancedContextManager.db
       (ingest encode lower ms (AdvancedContextManager.init w)))
  = []
  /\ DatabaseManager.last_id
       (AdvancedContextManager.db
          (ingest encode lower ms (AdvancedContextManager.init w)))
     = 0.
Proof.
  induction ms as [|m ms IH] using rev_ind; [split; reflexivity|].
  rewrite ingest_snoc.
  destruct (add_message_as_update encode lower m
              (ingest encode lower ms (AdvancedContextManager.init w)))
    as (self' & -> & _ & Hdb).
  destruct (update_frame lower (derive lower m) self')
    as (_ & _ & _ & _ & _ & Hm & Hl).
  rewrite Hm, Hl, Hdb. exact IH.
Qed.

End Persistence.

(* ===================================================================== *)
(** * More on the response decision                                        *)
(* ===================================================================== *)

Section DecisionRules.
Context {Vec : Type}.
Variable lower : str -> str.
Variable random : nat -> float.

#[local] Abbreviation decide_group :=
  (fun message cm user has_image calls =>
     MessageAnalyzer.should_respond (Vec := Vec) lower random message cm
                                    user false has_image calls).

(** X9: how a group decision ends.  The answer is negative exactly when
    the reason is ["no_reason"]; a keyword or length reason is given
    without calling the random generator; ["active_user"] takes one call
    and is only given to an author with more than 10 interactions; every
    other end takes one call, or two for such an author. *)
Theorem group_decision_accounting
    (message : str) (cm : AdvancedContextManager.state Vec)
    (user : Z) (has_image : bool) (calls : nat) :
  let d := decide_group message cm user has_image calls in
  let active :=
    is_active (AdvancedContextManager.user_profiles cm !! user) in
  (d.1.1 = false <-> d.1.2 = "no_reason")
  /\ (In d.1.2 ["direct_mention"; "tech_question"; "question_to_chat";
                "greeting"; "long_post"] /\ d.2 = calls
      \/ d.1.2 = "active_user" /\ active = true /\ d.2 = S calls
      \/ In d.1.2 ["random_response"; "no_reason"]
         /\ d.2 = (if active then S (S calls) else S calls)).
Proof.
  unfold MessageAnalyzer.should_respond, is_active. cbn [negb].
  destruct (any_in MessageAnalyzer.bot_mentions _);
    [split; [split; discriminate | left; split; [cbn; tauto | reflexivity]]|].
  destruct (any_in MessageAnalyzer.tech_words _);
    [split; [split; discriminate | left; split; [cbn; tauto | reflexivity]]|].
  destruct (any_in MessageAnalyzer.question_indicators _);
    [split; [split; discriminate | left; split; [cbn; tauto | reflexivity]]|].
  destruct (any_in MessageAnalyzer.greeting_words _);
    [split; [split; discriminate | left; split; [cbn; tauto | reflexivity]]|].
  destruct (200 <? length message)%nat;
    [split; [split; discriminate | left; split; [cbn; tauto | reflexivity]]|].
  destruct (match AdvancedContextManager.user_profiles cm !! user with
            | Some profile => 10 <? interaction_count profile
            | None => false
            end); cbn [andb].
  - destruct (PrimFloat.ltb (random calls) _).
    + split; [split; discriminate|]. right. left. repeat split.
    + destruct (PrimFloat.ltb (random (S calls)) _).
      * split; [split; discriminate|]. right. right.
        split; [cbn; tauto | reflexivity].
      * split; [split; reflexivity|]. right. right.
        split; [cbn; tauto | reflexivity].
  - destruct (PrimFloat.ltb (random calls) _).
    + split; [split; discriminate|]. right. right.
      split; [cbn; tauto | reflexivity].
    + split; [split; reflexivity|]. right. right.
      split; [cbn; tauto | reflexivity].
Qed.

(** X10: the probabilistic end of a group decision.  When no keyword or
    length rule applies, an author with more than 10 interactions is
    answered if the first random number is below 0.15 plus the tier
    bonus or, failing that, the next one is below 0.08 plus the bonus;
    any other author is answered if the one number drawn is below 0.08
    plus the bonus. *)
Theorem random_branch_two_chances
    (message : str) (cm : AdvancedContextManager.state Vec)
    (user : Z) (has_image : bool) (calls : nat) :
  no_rule_applies lower message ->
  let profile := AdvancedContextManager.user_profiles cm !! user in
  let bonus := MessageAnalyzer.relationship_bonus profile in
  (decide_group message cm user has_image calls).1.1
  = if is_active profile
    then PrimFloat.ltb (random calls) (0.15 + bonus)%float
         || PrimFloat.ltb (random (S calls)) (0.08 + bonus)%float
    else PrimFloat.ltb (random calls) (0.08 + bonus)%float.
Proof.
  intros (H1 & H2 & H3 & H4 & H5) profile bonus.
  unfold MessageAnalyzer.should_respond. cbn [negb].
  rewrite H1, H2, H3, H4, H5. fold profile. fold bonus.
  unfold is_active.
  destruct (match profile with
            | Some p => 10 <? interaction_count p
            | None => false
            end); cbn [andb].
  - destruct (PrimFloat.ltb (random calls) (0.15 + bonus)); cbn [orb];
      [reflexivity|].
    destruct (PrimFloat.ltb (random (S calls)) (0.08 + bonus)); reflexivity.
  - destruct (PrimFloat.ltb (random calls) (0.08 + bonus)); reflexivity.
Qed.
End DecisionRules.

Lemma random_branch_two_chances_witness :
  (MessageAnalyzer.should_respond (Vec := unit) str_lower
     (fun k => if (k =? 0)%nat then 0.9%float else 0.05%float)
     (u "ну и погода")
     (AdvancedContextManager.with_profile 7
        (mkUserProfile 7 (u "Вася")
           {[ "агрессивность" := 0.5%float; "дружелюбность" := 0.5%float;
              "юмор" := 0.5%float ]} [] 11 100%float "знакомый")
        (AdvancedContextManager.init 250))
     7 false false 0).1.1
  = true.
Proof.
  refine (eq_trans
            (random_branch_two_chances (Vec := unit) str_lower _
               (u "ну и погода") _ 7 false 0%nat _) _);
    vm_compute; repeat split; reflexivity.
Defined.

(* ===================================================================== *)
(** * More on the scheduled announcer                                      *)
(* ===================================================================== *)

Section AnnouncerEdges.
Import ScheduledMessages.

Lemma weekday_range (now : datetime) : 0 <= weekday now <= 6.
Proof.
  unfold weekday.
  pose proof (Z.mod_pos_bound (ordinal now + 6) 7 ltac:(lia)). lia.
Qed.

Lemma ask_reply_length (p : SmartBot.prompt) (http : res SmartBot.response)
      (reply : str) :
  SmartBot.ask_local_model p http = Ret reply ->
  (3 <= length reply <= 303)%nat.
Proof.
  unfold SmartBot.ask_local_model.
  destruct (SmartBot.request http) as [r|e] eqn:Hreq.
  - intros [= <-]. eapply request_reply_length, Hreq.
  - destruct e; intros [= <-]; vm_compute; lia.
Qed.

(** X11: the morning generator outside working days.  On a Saturday or
    a Sunday [generate_morning_greeting] raises [IndexError] (the list of
    day names has four entries) before it calls the model, and records
    nothing; from Monday to Friday it returns a reply and records the
    date.  [generate_evening_farewell] returns a reply and records the
    date on every day of the week. *)
Theorem morning_generator_fails_on_weekend
    (now : datetime) (http : res SmartBot.response) (s : state) :
  (5 <= weekday now ->
   generate_morning_greeting now http s = (Raise IndexError, s, []))
  /\ (weekday now <= 4 ->
      exists reply,
        generate_morning_greeting now http s
        = (Ret reply,
           {| last_greeting_date := Some (date now);
              last_farewell_date := last_farewell_date s |}, []))
  /\ (exists reply,
        generate_evening_farewell now http s
        = (Ret reply,
           {| last_greeting_date := last_greeting_date s;
              last_farewell_date := Some (date now) |}, [])).
Proof.
  pose proof (weekday_range now) as Hr.
  split; [|split].
  - intros H5. unfold generate_morning_greeting.
    assert (Hc : weekday now = 5 \/ weekday now = 6) by lia.
    destruct Hc as [-> | ->]; reflexivity.
  - intros H4. apply generate_morning_greeting_sets. lia.
  - apply generate_evening_farewell_sets.
Qed.

(** X12: the texts the generators return come from [ask_local_model]:
    its handlers leave no exception for the generators to catch, so
    their own canned announcements are never used.  When the inference
    request times out, the announcement is the model call's timeout
    text. *)
Theorem generators_relay_model_reply
    (now : datetime) (http : res SmartBot.response) (s : state) :
  (forall reply s' lg,
      generate_morning_greeting now http s = (Ret reply, s', lg) ->
      (exists p, SmartBot.ask_local_model p http = Ret reply)
      /\ (3 <= length reply <= 303)%nat
      /\ lg = []
      /\ (SmartBot.request http = Raise TimeoutError ->
          reply = u "Модель тупит, долго думает."))
  /\ (forall reply s' lg,
        generate_evening_farewell now http s = (Ret reply, s', lg) ->
        (exists p, SmartBot.ask_local_model p http = Ret reply)
        /\ (3 <= length reply <= 303)%nat
        /\ lg = []
        /\ (SmartBot.request http = Raise TimeoutError ->
            reply = u "Модель тупит, долго думает.")).
Proof.
  assert (Hask : forall p reply,
    SmartBot.ask_local_model p http = Ret reply ->
    (exists p, SmartBot.ask_local_model p http = Ret reply)
    /\ (3 <= length reply <= 303)%nat
    /\ (SmartBot.request http = Raise TimeoutError ->
        reply = u "Модель тупит, долго думает.")).
  { intros p reply H. split; [eauto|]. split; [eapply ask_reply_length, H|].
    intros Ht. unfold SmartBot.ask_local_model in H. rewrite Ht in H.
    injection H as <-. reflexivity. }
  split.
  - intros reply s' lg. unfold generate_morning_greeting.
    destruct (if weekday now =? 4 then _ else _) as [p|e];
      [|discriminate].
    destruct (ask_local_model_total p http) as [r Hr]. rewrite Hr.
    intros [= <- _ <-]. destruct (Hask p r Hr) as (H1 & H2 & H3). auto.
  - intros reply s' lg. unfold generate_evening_farewell.
    destruct (ask_local_model_total
                (if weekday now =? 4 then SmartBot.EveningFriday
                 else SmartBot.EveningWeekday) http) as [r Hr].
    rewrite Hr. intros [= <- _ <-].
    destruct (Hask _ r Hr) as (H1 & H2 & H3). auto.
Qed.

(** X13: a greeting lost to the gateway is not sent again.  When a run
    on day [d] triggers the morning announcement and [send_message]
    fails, nothing is sent, the failure is logged, the evening check of
    that run is skipped, and the date is recorded all the same: no later
    run of day [d] triggers the greeting. *)
Theorem failed_send_is_not_retried
    (d : Z) (t : tick) (s : state) (e : exn) :
  tick_on d t ->
  should_send_greeting (now_greeting_check t) s = true ->
  send_greeting t = Raise e ->
  let o := check_scheduled_messages t (Some s) in
  sent o = []
  /\ logged o = [LogMorning; LogSchedulerError e]
  /\ farewell_triggered o = false
  /\ scheduler o
     = Some {| last_greeting_date := Some d;
               last_farewell_date := last_farewell_date s |}
  /\ forall t' s',
       scheduler o = Some s' ->
       tick_on d t' ->
       greeting_triggered (check_scheduled_messages t' (Some s')) = false.
Proof.
  intros Hd Hdue Hsend o.
  pose proof Hd as (Hd1 & Hd2 & _).
  destruct (greeting_due_window _ _ Hdue) as [Hw _].
  destruct (generate_morning_greeting_sets (now_greeting t)
              (http_greeting t) s) as [reply Hgen].
  { rewrite (weekday_of_date (now_greeting t) (now_greeting_check t))
      by congruence. apply Hw. }
  assert (Ho : o = {| scheduler :=
                        Some {| last_greeting_date := Some d;
                                last_farewell_date := last_farewell_date s |};
                      sent := [];
                      logged := [LogMorning; LogSchedulerError e] |}).
  { subst o. unfold check_scheduled_messages.
    rewrite Hdue, (slot_due _ _ _ _ _ _ Hgen), Hsend, Hd2. reflexivity. }
  rewrite Ho. cbn [sent logged scheduler]. repeat split.
  intros t' s' [= <-] Hd'.
  match goal with
  | |- greeting_triggered (check_scheduled_messages _ (Some ?st)) = false =>
      destruct (tick_facts d t' st Hd') as (s'' & _ & Hg & _)
  end.
  destruct (greeting_triggered _); [|reflexivity].
  destruct (Hg eq_refl) as [_ Hne]. exfalso. apply Hne. reflexivity.
Qed.
End AnnouncerEdges.

Lemma failed_send_is_not_retried_witness :
  ScheduledMessages.sent
    (ScheduledMessages.check_scheduled_messages monday_gateway_down
       (Some ScheduledMessages.init))
  = [].
Proof.
  refine (proj1 (failed_send_is_not_retried monday monday_gateway_down
                   ScheduledMessages.init OtherError _ _ _));
    vm_compute; repeat split; reflexivity.
Defined.

Lemma generators_relay_model_reply_witness :
  (3 <= length (u "Модель тупит, долго думает.") <= 303)%nat.
Proof.
  refine (proj1 (proj2
            (proj1 (generators_relay_model_reply
                      (ScheduledMessages.mkDatetime monday 8 0)
                      (Raise TimeoutError) ScheduledMessages.init)
               (u "Модель тупит, долго думает.")
               {| ScheduledMessages.last_greeting_date := Some monday;
                  ScheduledMessages.last_farewell_date := None |}
               [] _))).
  vm_compute. reflexivity.
Defined.

(** The morning generator on a Saturday, as [/schedule_test] calls it. *)
Example saturday_greeting_raises :
  ScheduledMessages.generate_morning_greeting
    (ScheduledMessages.mkDatetime saturday 10 0) (Raise TimeoutError)
    ScheduledMessages.init
  = (Raise IndexError, ScheduledMessages.init, []).
Proof. vm_compute. reflexivity. Qed.

(* ===================================================================== *)
(** * More on the vector index                                             *)
(* ===================================================================== *)

Section VectorSearch.
Context {Vec : Type}.
Variable encode : str -> res Vec.
Variable dot : Vec -> Vec -> float.
Variable argsort : list float -> list nat.

#[local] Abbreviation search :=
  (VectorMemory.search_similar encode dot argsort).

Lemma select_length (similarities : list float) (msgs : list Message)
      (top_indices : list nat) (found : list Message) :
  VectorMemory.select similarities msgs top_indices = Ret found ->
  (length found <= length top_indices)%nat.
Proof.
  revert found.
  induction top_indices as [|i rest IH]; intros found H.
  - injection H as <-. reflexivity.
  - cbn [VectorMemory.select] in H.
    destruct (similarities !! i) as [s|];
      cbn [of_option mbind res_bind] in H; [|discriminate H].
    destruct (PrimFloat.ltb 0.3 s).
    + destruct (msgs !! i) as [m|];
        cbn [of_option mbind res_bind] in H; [|discriminate H].
      destruct (VectorMemory.select similarities msgs rest) as [r|];
        cbn [mbind res_bind] in H; [|discriminate H].
      injection H as <-. cbn [length]. specialize (IH r eq_refl). lia.
    + specialize (IH found H). cbn [length]. lia.
Qed.

(** X14: the size of a search result and a failing encoder.  For a
    positive [limit] the search returns at most [limit] messages; when
    the encoder refuses the query, the search returns the empty list and
    logs the error instead of raising. *)
Theorem search_bounded_by_limit
    (query : str) (limit : Z) (vm : VectorMemory.state Vec) :
  0 < limit ->
  (length (search query limit vm).1 <= Z.to_nat limit)%nat
  /\ (forall e,
        encode query = Raise e ->
        search query limit vm
        = ([], match VectorMemory.embeddings vm with
               | [] => []
               | _ :: _ => [LogVectorSearchError e]
               end)).
Proof.
  intros Hpos. unfold VectorMemory.search_similar. split.
  - destruct (VectorMemory.embeddings vm) as [|e0 es]; [cbn; lia|].
    destruct (encode query) as [qe|]; cbn [mbind res_bind fst];
      [|cbn; lia].
    destruct (VectorMemory.select _ _ _) as [found|] eqn:Hsel;
      cbn [fst length]; [|lia].
    apply select_length in Hsel.
    rewrite length_rev in Hsel. unfold slice_from_neg in Hsel.
    destruct (Z.ltb_spec 0 limit); [|lia].
    rewrite lastn_length in Hsel. lia.
  - intros e He. rewrite He.
    destruct (VectorMemory.embeddings vm); reflexivity.
Qed.

Lemma select_complete (similarities : list float) (msgs : list Message)
      (top_indices : list nat) :
  Forall (fun i => (i < length similarities)%nat /\ (i < length msgs)%nat)
         top_indices ->
  exists found,
    VectorMemory.select similarities msgs top_indices = Ret found
    /\ forall i s m,
         In i top_indices -> similarities !! i = Some s ->
         msgs !! i = Some m -> PrimFloat.ltb 0.3 s = true -> In m found.
Proof.
  induction 1 as [|i rest [Hi1 Hi2] _ (found & Hsel & Hall)].
  - exists []. split; [reflexivity|]. intros i s m [].
  - cbn [VectorMemory.select].
    destruct (lookup_lt_is_Some_2 similarities i Hi1) as [s Hs].
    destruct (lookup_lt_is_Some_2 msgs i Hi2) as [m Hm].
    rewrite Hs. cbn [of_option mbind res_bind].
    destruct (PrimFloat.ltb 0.3 s) eqn:Hgt.
    + rewrite Hm, Hsel. cbn [of_option mbind res_bind].
      eexists. split; [reflexivity|].
      intros j s' m' [<-|Hin] Hs' Hm' Hgt'.
      * left. congruence.
      * right. eapply Hall; eassumption.
    + exists found. split; [exact Hsel|].
      intros j s' m' [<-|Hin] Hs' Hm' Hgt'.
      * congruence.
      * eapply Hall; eassumption.
Qed.

End VectorSearch.

Lemma insert_index_perm (xs : list float) (i : nat) (sorted : list nat) :
  Permutation (insert_index xs i sorted) (i :: sorted).
Proof.
  induction sorted as [|j sorted IH]; [reflexivity|].
  cbn [insert_index]. destruct (PrimFloat.ltb _ _); [reflexivity|].
  rewrite IH. apply perm_swap.
Qed.

Lemma stable_argsort_perm (xs : list float) :
  Permutation (stable_argsort xs) (seq 0 (length xs)).
Proof.
  unfold stable_argsort.
  assert (H : forall (idx acc : list nat),
             Permutation
               (fold_left (fun sorted i => insert_index xs i sorted) idx acc)
               (idx ++ acc)).
  { induction idx as [|i idx IH]; intros acc; [reflexivity|].
    cbn [fold_left app]. rewrite IH, insert_index_perm.
    symmetry. apply Permutation_middle. }
  rewrite H, app_nil_r. reflexivity.
Qed.

Lemma search_bounded_by_limit_witness :
  (length (VectorMemory.search_similar toy_encode toy_dot stable_argsort
             (u "где код") 1 toy_index).1 <= 1)%nat.
Proof.
  apply (search_bounded_by_limit toy_encode toy_dot stable_argsort
           (u "где код") 1 toy_index).
  lia.
Defined.


(** With limit 0 the toy index returns both entries about the topic. *)
Example search_with_limit_zero :
  map message_id
      (VectorMemory.search_similar toy_encode toy_dot stable_argsort
         (u "где код") 0 toy_index).1
  = [4; 2].
Proof. vm_compute. reflexivity. Qed.

(* ===================================================================== *)
(** * The cooldown gate and the periodic cleanup                           *)
(* ===================================================================== *)

Section Cooldown.
Context {Vec : Type}.

#[local] Abbreviation bstate := (Bot.state Vec).

Lemma cooldown_for_frame (uid : Z) (lr : gmap Z float) (s : bstate) :
  Bot.cooldown_for uid (Bot.with_last_reaction lr s) = Bot.cooldown_for uid s.
Proof. reflexivity. Qed.

(** One call for an author whose timer is [t]. *)
Lemma check_cooldown_step
      (now t : float) (uid : Z) (s : bstate) (cd : PyNum.number) :
  Bot.cooldown_for uid s = Ret cd ->
  Bot.last_reaction s !! uid = Some t ->
  Bot.check_cooldown now uid s
  = (Ret (negb (PyNum.float_lt (now - t)%float cd)),
     Bot.with_last_reaction
       (<[uid := if PyNum.float_lt (now - t)%float cd then t else now]>
          (Bot.last_reaction s)) s).
Proof.
  intros Hcd Ht. unfold Bot.check_cooldown. rewrite Hcd, Ht.
  cbn [default from_option id].
  rewrite (insert_id (Bot.last_reaction s) uid t Ht).
  destruct (PyNum.float_lt (now - t) cd); cbn [negb]; [|reflexivity].
  rewrite (insert_id (Bot.last_reaction s) uid t Ht). reflexivity.
Qed.

(** X16: the cooldown runs from the last accepted message.  After a
    message of an author was accepted at [now1], the next one at [now2]
    is refused exactly when [now2 - now1] is below the author's
    cooldown; a refused message does not restart the cooldown (the
    message after it is again measured against [now1]), an accepted one
    does; the timers of other authors and the context manager are not
    touched. *)
Theorem cooldown_runs_from_last_accept
    (now1 now2 now3 : float) (uid : Z) (s s1 : bstate)
    (cd : PyNum.number) :
  Bot.check_cooldown now1 uid s = (Ret true, s1) ->
  Bot.cooldown_for uid s1 = Ret cd ->
  let second := Bot.check_cooldown now2 uid s1 in
  let refused := PyNum.float_lt (now2 - now1)%float cd in
  second.1 = Ret (negb refused)
  /\ (Bot.check_cooldown now3 uid second.2).1
     = Ret (negb (PyNum.float_lt
                    (now3 - (if refused then now1 else now2))%float cd))
  /\ (forall other, other <> uid ->
        Bot.last_reaction second.2 !! other = Bot.last_reaction s1 !! other)
  /\ Bot.context_manager second.2 = Bot.context_manager s1.
Proof.
  intros H1 Hcd second refused.
  assert (Ht : Bot.last_reaction s1 !! uid = Some now1).
  { unfold Bot.check_cooldown in H1.
    destruct (Bot.cooldown_for uid s) as [cd0|]; [|discriminate H1].
    destruct (PyNum.float_lt _ cd0); [discriminate H1|].
    injection H1 as <-. cbn [Bot.last_reaction Bot.with_last_reaction].
    apply lookup_insert_eq. }
  pose proof (check_cooldown_step now2 now1 uid s1 cd Hcd Ht) as H2.
  subst second. rewrite H2. fold refused. cbn [fst snd].
  split; [reflexivity|]. split; [|split].
  - rewrite (check_cooldown_step now3 (if refused then now1 else now2)
               uid _ cd).
    + reflexivity.
    + rewrite cooldown_for_frame. exact Hcd.
    + cbn [Bot.last_reaction Bot.with_last_reaction].
      apply lookup_insert_eq.
  - intros other Hne. cbn [Bot.last_reaction Bot.with_last_reaction].
    apply lookup_insert_ne. congruence.
  - reflexivity.
Qed.

(** X17: the periodic cleanup.  [cleanup_old_data] keeps exactly the
    cooldown timers that are not idle for longer than
    [cleanup_interval] and logs how many it removed; it sweeps the
    message table with the 30 day horizon, which never fails; the
    profiles, the window and the index are not touched. *)
Theorem cleanup_old_data_prunes_idle (now_db now : float) (s : bstate) :
  let result := Bot.cleanup_old_data now_db now s in
  let cm := Bot.context_manager s in
  let cm' := Bot.context_manager result.1 in
  (forall uid t,
      Bot.last_reaction result.1 !! uid = Some t
      <-> Bot.last_reaction s !! uid = Some t
          /\ Bot.idle now (Bot.cleanup_interval s) t = false)
  /\ DatabaseManager.messages (AdvancedContextManager.db cm')
     = List.filter
         (fun r => negb (DatabaseManager.older
                           (now_db - 2592000)%float r))
         (DatabaseManager.messages (AdvancedContextManager.db cm))
  /\ AdvancedContextManager.user_profiles cm'
     = AdvancedContextManager.user_profiles cm
  /\ AdvancedContextManager.recent_messages cm'
     = AdvancedContextManager.recent_messages cm
  /\ AdvancedContextManager.vector_memory cm'
     = AdvancedContextManager.vector_memory cm
  /\ exists deleted,
       result.2
       = [LogSweep (LogDeleted deleted);
          LogCleanupDone (size (Bot.last_reaction s)
                          - size (Bot.last_reaction result.1))].
Proof.
  unfold Bot.cleanup_old_data, DatabaseManager.cleanup_old_messages.
  change (float_of_int (Constants.DEFAULT_CLEANUP_DAYS * 24 * 3600))
    with (Ret (A := float) 2592000%float).
  cbn [fst snd Bot.last_reaction Bot.with_last_reaction
       Bot.with_context_manager Bot.context_manager Bot.cleanup_interval
       AdvancedContextManager.with_db AdvancedContextManager.db
       AdvancedContextManager.user_profiles
       AdvancedContextManager.recent_messages
       AdvancedContextManager.vector_memory
       DatabaseManager.messages map app].
  split; [|repeat split].
  - intros uid t. rewrite map_lookup_filter_Some. reflexivity.
  - eexists. do 3 f_equal.
    set (P := fun kv : Z * float =>
                Bot.idle now (Bot.cleanup_interval s) kv.2 = true).
    rewrite <- (map_filter_union_complement P (Bot.last_reaction s)) at 2.
    rewrite map_size_disj_union
      by apply map_disjoint_filter_complement.
    assert (Heq : filter (fun kv : Z * float =>
                            Bot.idle now (Bot.cleanup_interval s) kv.2
                            = false) (Bot.last_reaction s)
                  = filter (fun kv => ~ P kv) (Bot.last_reaction s)).
    { apply map_filter_ext. intros uid t _. subst P. cbn beta.
      destruct (Bot.idle now (Bot.cleanup_interval s) (uid, t).2);
        split; congruence. }
    rewrite Heq. lia.
Qed.
End Cooldown.

Lemma cooldown_runs_from_last_accept_witness :
  (Bot.check_cooldown 1001.5%float 7
     (Bot.check_cooldown 1000%float 7 new_bot).2).1
  = Ret false.
Proof.
  refine (proj1 (cooldown_runs_from_last_accept (Vec := unit)
                   1000%float 1001.5%float 1003%float 7 new_bot
                   (Bot.check_cooldown 1000%float 7 new_bot).2
                   (PyNum.Int 2) _ _));
    vm_compute; reflexivity.
Defined.

(** Three messages of one author, 1.5 and 2.5 seconds after the first:
    the second is refused and the third, measured from the first, is
    accepted. *)
Example cooldown_of_two_seconds :
  let s1 := (Bot.check_cooldown 1000%float 7 new_bot).2 in
  let s2 := (Bot.check_cooldown 1001.5%float 7 s1).2 in
  (Bot.check_cooldown 1000%float 7 new_bot).1 = Ret true
  /\ (Bot.check_cooldown 1001.5%float 7 s1).1 = Ret false
  /\ (Bot.check_cooldown 1002.5%float 7 s2).1 = Ret true.
Proof. vm_compute. repeat split; reflexivity. Qed.

(* ===================================================================== *)
(** * Reasons, styles and situations                                       *)
(* ===================================================================== *)

Section Reasons.
Context {Vec : Type}.
Variable lower : str -> str.
Variable random : nat -> float.

(** X18: the reasons of [should_respond] and the two tables that read
    them agree.  Every reason returned with a positive decision has its
    own entry in [base_styles] of [get_response_style] and in
    [reason_contexts] of [generate_prompt], so a reply decided by the
    analyzer never falls back to the default style and always gets a
    situation line; a negative decision carries ["no_reason"], which
    neither table knows; ["image_message"], which both tables hold, is
    never returned. *)
Theorem every_reason_has_a_style
    (message : str) (cm : AdvancedContextManager.state Vec) (user : Z)
    (is_private has_image : bool) (calls : nat) :
  let decision :=
    (MessageAnalyzer.should_respond lower random message cm user
                                    is_private has_image calls).1 in
  decision.2 <> "image_message"
  /\ (if decision.1
      then is_Some (Analyzer.base_styles !! decision.2)
           /\ is_Some (PromptGenerator.reason_contexts !! decision.2)
      else decision.2 = "no_reason"
           /\ Analyzer.base_styles !! decision.2 = None
           /\ PromptGenerator.reason_contexts !! decision.2 = None).
Proof.
  unfold MessageAnalyzer.should_respond.
  repeat match goal with
         | |- context [if ?c then _ else _] =>
             lazymatch c with
             | fst _ => fail
             | _ => destruct c
             end
         end;
    cbn [fst snd]; (split; [intros [=]|]); vm_compute; eauto.
Qed.
End Reasons.

(* ===================================================================== *)
(** * The message handlers                                                 *)
(* ===================================================================== *)

Section Handling.
Context {Vec : Type}.
Variable encode : str -> res Vec.
Variable dot : Vec -> Vec -> float.
Variable argsort : list float -> list nat.
Variable lower : str -> str.
Variable items : gmap string float -> list (string * float).
Variable base_prompt : str.
Variable flood_topic_id : option Z.

#[local] Abbreviation hworld := (Handlers.world Vec).
#[local] Abbreviation flood :=
  (Handlers.handle_flood_message
     encode dot argsort lower items base_prompt flood_topic_id).
#[local] Abbreviation private :=
  (Handlers.handle_private_message
     encode dot argsort lower items base_prompt).
#[local] Abbreviation cm_of :=
  (fun w : hworld => Bot.context_manager (Handlers.bot w)).

Lemma check_cooldown_frame (now : float) (uid : Z) (s : Bot.state Vec) :
  Bot.context_manager (Bot.check_cooldown now uid s).2
  = Bot.context_manager s.
Proof.
  unfold Bot.check_cooldown.
  destruct (Bot.cooldown_for uid s); [|reflexivity].
  destruct (PyNum.float_lt _ _); reflexivity.
Qed.

(** [get_smart_context] writes to the log only. *)
Lemma get_smart_context_frame
      (time : nat -> float) (uid : Z) (query : str) (limit : Z)
      (ticks : nat) (self : AdvancedContextManager.state Vec) :
  exists l,
    (ContextText.get_smart_context
       encode dot argsort time items uid query limit ticks self).1.2
    = ContextText.with_log l self.
Proof.
  unfold ContextText.get_smart_context.
  destruct (lastn 5 (AdvancedContextManager.recent_messages self)) as [|m ms].
  - destruct (VectorMemory.search_similar _ _ _ _ _ _) as [[|s ss] lg].
    + eexists. reflexivity.
    + destruct (ContextText.message_lines _ _ _ _ _ _) as [[|] ?];
        eexists; reflexivity.
  - destruct (ContextText.message_lines time 60 80 _ ticks (m :: ms))
      as [[lines|e] t].
    + destruct (VectorMemory.search_similar _ _ _ _ _ _) as [[|s ss] lg].
      * eexists. reflexivity.
      * destruct (ContextText.message_lines _ _ _ _ _ _) as [[|] ?];
          eexists; reflexivity.
    + exists (AdvancedContextManager.log self). destruct self; reflexivity.
Qed.


Lemma flood_reply_events
      (env : Handlers.run_env) (update : Telegram.Update) (msg : Message)
      (reason : string) (w w' : hworld) (r : res unit) :
  Handlers.flood_reply encode dot argsort items base_prompt flood_topic_id
                       env update msg reason w = (r, w') ->
  let chat := Telegram.effective_chat_id update in
  (exists l, cm_of w' = ContextText.with_log l (cm_of w))
  /\ Bot.last_reaction (Handlers.bot w')
     = Bot.last_reaction (Handlers.bot w)
  /\ exists new,
       Handlers.events w' = Handlers.events w ++ new
       /\ (new = []
           \/ new = [ChatAction chat]
           \/ exists reply,
                new = [ChatAction chat; SendMessage chat flood_topic_id reply]
                /\ (3 <= length reply <= 303)%nat).
Proof.
  unfold Handlers.flood_reply, Handlers.get_smart_context,
    Handlers.context_manager, Handlers.set_context_manager, Handlers.call,
    Handlers.emit, Handlers.lift, mbind, Handlers.M_bind.
  cbv beta iota zeta.
  destruct (get_smart_context_frame
              (Handlers.time env)
              (Telegram.id (Telegram.effective_user update)) (text msg) 10 2
              (Bot.context_manager (Handlers.bot w))) as [l Hl].
  destruct (ContextText.get_smart_context _ _ _ _ _ _ _ _ _ _)
    as [[r0 cm'] t].
  cbn [fst snd] in Hl. subst cm'.
  destruct r0 as [smart_context|e].
  2:{ intros [= <- <-]. cbn [Handlers.bot Handlers.events
                              Bot.context_manager Bot.with_context_manager
                              Bot.last_reaction].
      split; [eauto|]. split; [reflexivity|].
      exists []. rewrite app_nil_r. auto. }
  destruct (Handlers.typing env) as [[]|e].
  2:{ intros [= <- <-]. cbn [Handlers.bot Handlers.events
                              Bot.context_manager Bot.with_context_manager
                              Bot.last_reaction].
      split; [eauto|]. split; [reflexivity|]. eauto. }
  destruct (SmartBot.ask_local_model _ _) as [reply|e] eqn:Hask.
  2:{ intros [= <- <-]. cbn [Handlers.bot Handlers.events
                              Bot.context_manager Bot.with_context_manager
                              Bot.last_reaction].
      split; [eauto|]. split; [reflexivity|]. eauto. }
  intros [= <- <-]. cbn [Handlers.bot Handlers.events
                          Bot.context_manager Bot.with_context_manager
                          Bot.last_reaction].
  split; [eauto|]. split; [reflexivity|].
  eexists. rewrite <- app_assoc. split; [reflexivity|].
  right. right. eexists. split; [reflexivity|].
  eapply ask_reply_length, Hask.
Qed.

Lemma with_log_frame (l : list log_record)
      (self : AdvancedContextManager.state Vec) :
  AdvancedContextManager.context_window (ContextText.with_log l self)
  = AdvancedContextManager.context_window self
  /\ AdvancedContextManager.recent_messages (ContextText.with_log l self)
     = AdvancedContextManager.recent_messages self
  /\ AdvancedContextManager.save_tasks (ContextText.with_log l self)
     = AdvancedContextManager.save_tasks self
  /\ AdvancedContextManager.user_profiles (ContextText.with_log l self)
     = AdvancedContextManager.user_profiles self
  /\ AdvancedContextManager.db (ContextText.with_log l self)
     = AdvancedContextManager.db self.
Proof. repeat split; reflexivity. Qed.

(** The three checks that open both handlers. *)
Lemma gate_drops
    (env : Handlers.run_env) (update : Telegram.Update) (w : hworld) :
  let user := Telegram.effective_user update in
  Telegram.is_bot user = true
  \/ Handlers.no_text (Telegram.message update) = true
  \/ (Bot.check_cooldown (Handlers.time env 0) (Telegram.id user)
                         (Handlers.bot w)).1 = Ret false ->
  forall handler, handler = flood \/ handler = private ->
  (handler env update w).1 = Ret tt
  /\ Handlers.events (handler env update w).2 = Handlers.events w
  /\ cm_of (handler env update w).2 = cm_of w
  /\ (Telegram.is_bot user = true
      \/ Handlers.no_text (Telegram.message update) = true ->
      (handler env update w).2 = w).
Proof.
  intros user Hdrop handler Hh.
  assert (Hgate :
    handler env update w
    = if Telegram.is_bot user then (Ret tt, w)
      else if Handlers.no_text (Telegram.message update) then (Ret tt, w)
      else match Bot.check_cooldown (Handlers.time env 0) (Telegram.id user)
                                    (Handlers.bot w) with
           | (Ret false, b) =>
               (Ret tt, {| Handlers.bot := b;
                           Handlers.events := Handlers.events w |})
           | _ => handler env update w
           end).
  { destruct Hh as [-> | ->];
      unfold Handlers.handle_flood_message, Handlers.handle_private_message,
        Handlers.check_cooldown, mbind, Handlers.M_bind, mret, Handlers.M_ret;
      fold user;
      destruct (Telegram.is_bot user); try reflexivity;
      destruct (Handlers.no_text _); try reflexivity;
      destruct (Bot.check_cooldown _ _ _) as [[[|]|e] b]; reflexivity. }
  rewrite Hgate. clear Hgate.
  pose proof (check_cooldown_frame (Handlers.time env 0) (Telegram.id user)
                                   (Handlers.bot w)) as Hframe.
  destruct (Telegram.is_bot user); [repeat split; reflexivity|].
  destruct (Handlers.no_text _); [repeat split; reflexivity|].
  destruct Hdrop as [[=] | [[=] | Hcd]].
  destruct (Bot.check_cooldown _ _ _) as [[[|]|e] b];
    cbn [fst snd] in Hcd, Hframe; try discriminate Hcd.
  cbn [fst snd Handlers.bot Handlers.events].
  repeat split; [exact Hframe|]. intros [[=]|[=]].
Qed.

(** X19: updates the handlers drop.  A message of a bot, a message
    without text and a message inside the cooldown of its author end
    both handlers at once: nothing is sent or logged, nothing is
    ingested, no exception is raised.  For the first two the bot is not
    changed at all (the cooldown is not even consulted, so no timer
    entry is created). *)
Theorem dropped_update_leaves_no_trace
    (env : Handlers.run_env) (update : Telegram.Update) (w : hworld) :
  let user := Telegram.effective_user update in
  Telegram.is_bot user = true
  \/ Handlers.no_text (Telegram.message update) = true
  \/ (Bot.check_cooldown (Handlers.time env 0) (Telegram.id user)
                         (Handlers.bot w)).1 = Ret false ->
  untouched w (flood env update w)
  /\ untouched w (private env update w)
  /\ (Telegram.is_bot user = true
      \/ Handlers.no_text (Telegram.message update) = true ->
      (flood env update w).2 = w /\ (private env update w).2 = w).
Proof.
  intros user Hdrop.
  destruct (gate_drops env update w Hdrop flood (or_introl eq_refl))
    as (F1 & F2 & F3 & F4).
  destruct (gate_drops env update w Hdrop private (or_intror eq_refl))
    as (P1 & P2 & P3 & P4).
  split; [repeat split; assumption|].
  split; [repeat split; assumption|].
  intros H. split; [apply F4, H | apply P4, H].
Qed.

(** X20: a group message that passes the three checks.  It is ingested
    exactly once, before the decision to answer and whatever becomes of
    the answer; on a store of well-formed profiles the handler never
    raises: every failure while the answer is built or sent is logged
    and swallowed.  At most one message goes to the chat, to the chat of
    the update and the configured thread, of 3 to 303 code points; no
    direct reply is used; when [should_respond] declines, nothing is
    sent or logged. *)
Theorem flood_message_ingested_once
    (env : Handlers.run_env) (update : Telegram.Update) (w : hworld)
    (msg : Message) :
  let user := Telegram.effective_user update in
  let chat := Telegram.effective_chat_id update in
  Telegram.is_bot user = false ->
  Handlers.no_text (Telegram.message update) = false ->
  (Bot.check_cooldown (Handlers.time env 0) (Telegram.id user)
                      (Handlers.bot w)).1 = Ret true ->
  Handlers.create_message_object
    user (Telegram.message update) chat (Handlers.time env 1) = Ret msg ->
  store_ok (AdvancedContextManager.user_profiles (cm_of w)) ->
  let out := flood env update w in
  let ingested :=
    (AdvancedContextManager.add_message encode lower msg (cm_of w)).2 in
  let decision :=
    (MessageAnalyzer.should_respond
       lower (Handlers.random env) (text msg) ingested (Telegram.id user)
       false false 0).1 in
  out.1 = Ret tt
  /\ AdvancedContextManager.recent_messages (cm_of out.2)
     = AdvancedContextManager.deque_append
         (AdvancedContextManager.context_window (cm_of w))
         (derive lower msg)
         (AdvancedContextManager.recent_messages (cm_of w))
  /\ AdvancedContextManager.save_tasks (cm_of out.2)
     = AdvancedContextManager.save_tasks (cm_of w) ++ [derive lower msg]
  /\ AdvancedContextManager.user_profiles (cm_of out.2)
     = AdvancedContextManager.user_profiles ingested
  /\ exists new,
       Handlers.events out.2 = Handlers.events w ++ new
       /\ (length (outgoing new) <= 1)%nat
       /\ Forall (fun reply => (3 <= length reply <= 303)%nat)
                 (outgoing new)
       /\ (forall c t reply,
              In (SendMessage c t reply) new ->
              c = chat /\ t = flood_topic_id)
       /\ (forall reply, ~ In (ReplyText reply) new)
       /\ (decision.1 = false -> new = []).
Proof.
  intros user chat Hbot Htext Hcd Hmsg Hok out ingested decision.
  subst out.
  unfold Handlers.handle_flood_message, Handlers.check_cooldown,
    Handlers.add_message, Handlers.context_manager,
    Handlers.set_context_manager, Handlers.lift, Handlers.emit,
    Handlers.try_except, mbind, Handlers.M_bind, mret, Handlers.M_ret.
  fold user. fold chat. rewrite Hbot, Htext, Hmsg.
  pose proof (check_cooldown_frame (Handlers.time env 0) (Telegram.id user)
                                   (Handlers.bot w)) as Hframe.
  destruct (Bot.check_cooldown _ _ _) as [rc b].
  cbn [fst snd] in Hcd, Hframe. subst rc.
  cbv beta iota zeta. cbn [negb Handlers.bot Handlers.events].
  rewrite Hframe.
  destruct (add_message_profile encode lower msg
              (Bot.context_manager (Handlers.bot w)) Hok)
    as (p & Hret & _).
  destruct (add_message_frame encode lower msg
              (Bot.context_manager (Handlers.bot w)))
    as (Hwin & Hrecent & _ & Htasks).
  subst ingested decision.
  destruct (AdvancedContextManager.add_message encode lower msg
              (Bot.context_manager (Handlers.bot w))) as [ra cm1] eqn:Hadd.
  cbn [fst snd] in Hret, Hwin, Hrecent, Htasks |- *. subst ra.
  cbn [Handlers.bot Handlers.events Bot.context_manager
       Bot.with_context_manager].
  destruct (MessageAnalyzer.should_respond _ _ _ _ _ _ _ _)
    as [[should reason] draws].
  cbn [fst snd]. destruct should; cbn [negb].
  2:{ cbn [fst snd Handlers.bot Handlers.events Bot.context_manager
           Bot.with_context_manager].
      split; [reflexivity|]. split; [exact Hrecent|].
      split; [exact Htasks|]. split; [reflexivity|].
      exists []. rewrite app_nil_r. split; [reflexivity|].
      cbn. repeat split; auto; try lia; try (intros ? ? ? []). }
  destruct (Handlers.flood_reply _ _ _ _ _ _ _ _ _ _ _) as [r w1] eqn:Hreply.
  apply flood_reply_events in Hreply.
  cbn [Handlers.bot Handlers.events Bot.context_manager
       Bot.with_context_manager] in Hreply.
  destruct Hreply as ([l Hl] & _ & new & Hev & Hnew).
  destruct (with_log_frame l cm1) as (_ & Hr & Ht & Hp & _).
  assert (Hshape :
    exists tail,
      (length (outgoing tail) <= 1)%nat
      /\ Forall (fun reply => (3 <= length reply <= 303)%nat)
                (outgoing tail)
      /\ (forall c t reply, In (SendMessage c t reply) tail ->
                            c = chat /\ t = flood_topic_id)
      /\ (forall reply, ~ In (ReplyText reply) tail)
      /\ new = tail).
  { destruct Hnew as [-> | [-> | (reply & -> & Hlen)]].
    - exists []. cbn. split; [lia|]. split; [constructor|].
      split; [intros ? ? ? []|]. split; [intros ? []|reflexivity].
    - exists [ChatAction chat]. cbn. split; [lia|]. split; [constructor|].
      split; [intros ? ? ? [[=]|[]]|].
      split; [intros ? [[=]|[]]|reflexivity].
    - exists [ChatAction chat; SendMessage chat flood_topic_id reply]. cbn.
      split; [lia|]. split; [constructor; [exact Hlen|constructor]|].
      split; [intros c t r' [[=]|[[= <- <- <-]|[]]]; split; reflexivity|].
      split; [intros ? [[=]|[[=]|[]]]|reflexivity]. }
  destruct Hshape as (tail & Hone & Hlen & Hchat & Hnoreply & ->).
  assert (Hfinal :
    forall extra,
      (extra = [] \/ exists e, extra = [LogFloodError e]) ->
      (length (outgoing (LogAnswering (Telegram.full_name user) reason
                           :: tail ++ extra)) <= 1)%nat
      /\ Forall (fun reply => (3 <= length reply <= 303)%nat)
                (outgoing (LogAnswering (Telegram.full_name user) reason
                             :: tail ++ extra))
      /\ (forall c t reply,
             In (SendMessage c t reply)
                (LogAnswering (Telegram.full_name user) reason
                   :: tail ++ extra) ->
             c = chat /\ t = flood_topic_id)
      /\ (forall reply,
             ~ In (ReplyText reply)
                  (LogAnswering (Telegram.full_name user) reason
                     :: tail ++ extra))).
  { intros extra Hextra.
    assert (Hout : outgoing (LogAnswering (Telegram.full_name user) reason
                               :: tail ++ extra) = outgoing tail).
    { unfold outgoing. cbn [omap list_omap]. rewrite omap_app.
      destruct Hextra as [-> | [e ->]]; cbn [omap list_omap];
        apply app_nil_r. }
    rewrite Hout. split; [exact Hone|]. split; [exact Hlen|]. split.
    - intros c t reply [[=]|Hin]. apply in_app_or in Hin.
      destruct Hin as [Hin|Hin]; [exact (Hchat _ _ _ Hin)|].
      destruct Hextra as [-> | [e ->]]; [destruct Hin|].
      destruct Hin as [[=]|[]].
    - intros reply [[=]|Hin]. apply in_app_or in Hin.
      destruct Hin as [Hin|Hin]; [exact (Hnoreply _ Hin)|].
      destruct Hextra as [-> | [e ->]]; [destruct Hin|].
      destruct Hin as [[=]|[]]. }
  destruct r as [[]|e]; cbn [fst snd Handlers.bot Handlers.events].
  - split; [reflexivity|]. rewrite Hl, Hr, Ht, Hp.
    split; [exact Hrecent|]. split; [exact Htasks|]. split; [reflexivity|].
    exists (LogAnswering (Telegram.full_name user) reason :: tail ++ []).
    split; [rewrite Hev, app_nil_r, <- app_assoc; reflexivity|].
    destruct (Hfinal [] (or_introl eq_refl)) as (H1 & H2 & H3 & H4).
    repeat split; try assumption; try apply H3; try apply H4.
    + eapply H3; eassumption.
    + eapply H3; eassumption.
    + intros [=].
  - split; [reflexivity|]. rewrite Hl, Hr, Ht, Hp.
    split; [exact Hrecent|]. split; [exact Htasks|]. split; [reflexivity|].
    exists (LogAnswering (Telegram.full_name user) reason
              :: tail ++ [LogFloodError e]).
    split; [rewrite Hev, <- !app_assoc; reflexivity|].
    destruct (Hfinal [LogFloodError e] (or_intror (ex_intro _ e eq_refl)))
      as (H1 & H2 & H3 & H4).
    repeat split; try assumption.
    + eapply H3; eassumption.
    + eapply H3; eassumption.
    + intros [=].
Qed.

Lemma private_reply_events
      (env : Handlers.run_env) (update : Telegram.Update)
      (w w' : hworld) (r : res unit) :
  Handlers.private_reply encode dot argsort lower items base_prompt
                         env update w = (r, w') ->
  let chat := Telegram.effective_chat_id update in
  let user := Telegram.effective_user update in
  (exists msg,
      user_id msg = Telegram.id user
      /\ text msg = default [] (Telegram.text (Telegram.message update))
      /\ timestamp msg = Handlers.time env 1
      /\ is_reply msg = false
      /\ AdvancedContextManager.recent_messages (cm_of w')
         = AdvancedContextManager.deque_append
             (AdvancedContextManager.context_window (cm_of w))
             (derive lower msg)
             (AdvancedContextManager.recent_messages (cm_of w))
      /\ AdvancedContextManager.save_tasks (cm_of w')
         = AdvancedContextManager.save_tasks (cm_of w) ++ [derive lower msg])
  /\ exists new,
       Handlers.events w' = Handlers.events w ++ new
       /\ ((exists reply,
               r = Handlers.delivery env
               /\ new = [ChatAction chat; ReplyText reply]
               /\ (3 <= length reply <= 303)%nat)
           \/ (exists e,
                  r = Raise e /\ (new = [] \/ new = [ChatAction chat]))).
Proof.
  unfold Handlers.private_reply, Handlers.add_message,
    Handlers.get_smart_context,
    Handlers.context_manager, Handlers.set_context_manager, Handlers.call,
    Handlers.emit, Handlers.lift, mbind, Handlers.M_bind.
  cbv beta iota zeta.
  set (msg := {| user_id := Telegram.id (Telegram.effective_user update);
                 username := _; text := _; timestamp := _; chat_id := _;
                 message_id := _; is_reply := _; reply_to_user := _;
                 sentiment := _; importance := _; has_image := _;
                 image_description := _ |}).
  destruct (add_message_frame encode lower msg
              (Bot.context_manager (Handlers.bot w)))
    as (Hwin & Hrecent & _ & Htasks).
  destruct (AdvancedContextManager.add_message encode lower msg
              (Bot.context_manager (Handlers.bot w))) as [ra cm1].
  cbn [fst snd] in Hwin, Hrecent, Htasks.
  cbn [Handlers.bot Handlers.events Bot.context_manager
       Bot.with_context_manager].
  intros H.
  set (user := Telegram.effective_user update) in *.
  assert (Hmsg : forall cm2 : AdvancedContextManager.state Vec,
    AdvancedContextManager.recent_messages cm2
    = AdvancedContextManager.recent_messages cm1 ->
    AdvancedContextManager.save_tasks cm2
    = AdvancedContextManager.save_tasks cm1 ->
    exists m,
      user_id m = Telegram.id user
      /\ text m = default [] (Telegram.text (Telegram.message update))
      /\ timestamp m = Handlers.time env 1
      /\ is_reply m = false
      /\ AdvancedContextManager.recent_messages cm2
         = AdvancedContextManager.deque_append
             (AdvancedContextManager.context_window
                (Bot.context_manager (Handlers.bot w)))
             (derive lower m)
             (AdvancedContextManager.recent_messages
                (Bot.context_manager (Handlers.bot w)))
      /\ AdvancedContextManager.save_tasks cm2
         = AdvancedContextManager.save_tasks
             (Bot.context_manager (Handlers.bot w)) ++ [derive lower m]).
  { intros cm2 H1 H2. exists msg. rewrite H1, H2.
    repeat split; [exact Hrecent | exact Htasks]. }
  destruct ra as [[]|e].
  2:{ injection H as <- <-.
      cbn [Handlers.bot Handlers.events Bot.context_manager
           Bot.with_context_manager].
      split; [apply Hmsg; reflexivity|].
      exists []. rewrite app_nil_r. split; [reflexivity|]. right. eauto. }
  destruct (Handlers.typing env) as [[]|e].
  2:{ injection H as <- <-.
      cbn [Handlers.bot Handlers.events Bot.context_manager
           Bot.with_context_manager].
      split; [apply Hmsg; reflexivity|].
      eexists. split; [reflexivity|]. right. eauto. }
  cbn [Handlers.bot Handlers.events Bot.context_manager
       Bot.with_context_manager] in H.
  destruct (get_smart_context_frame
              (Handlers.time env) (Telegram.id user) (text msg) 5 2
              cm1) as [l Hl].
  destruct (ContextText.get_smart_context _ _ _ _ _ _ _ _ _ _)
    as [[r0 cm'] t].
  cbn [fst snd] in Hl. subst cm'.
  destruct (with_log_frame l cm1) as (_ & Hr & Ht & _).
  cbn [Handlers.bot Handlers.events Bot.context_manager
       Bot.with_context_manager] in H.
  destruct r0 as [smart_context|e].
  2:{ injection H as <- <-.
      cbn [Handlers.bot Handlers.events Bot.context_manager
           Bot.with_context_manager].
      split; [apply Hmsg; assumption|].
      eexists. split; [reflexivity|]. right. eauto. }
  destruct (SmartBot.ask_local_model _ _) as [reply|e] eqn:Hask.
  2:{ injection H as <- <-.
      cbn [Handlers.bot Handlers.events Bot.context_manager
           Bot.with_context_manager].
      split; [apply Hmsg; assumption|].
      eexists. split; [reflexivity|]. right. eauto. }
  injection H as <- <-.
  cbn [Handlers.bot Handlers.events Bot.context_manager
       Bot.with_context_manager].
  split; [apply Hmsg; assumption|].
  eexists. rewrite <- app_assoc. split; [reflexivity|].
  left. eexists. split; [reflexivity|]. split; [reflexivity|].
  eapply ask_reply_length, Hask.
Qed.

(** X21: a private message that passes the three checks is ingested
    once and is always answered: either the reply of the model (3 to 303
    code points) is handed to the gateway and the handler returns, or --
    whatever failed, the delivery of the reply included -- the apology
    is sent as the last message and the handler ends as that call ends.
    The group channel is never used. *)
Theorem private_message_always_answered
    (env : Handlers.run_env) (update : Telegram.Update) (w : hworld) :
  let user := Telegram.effective_user update in
  Telegram.is_bot user = false ->
  Handlers.no_text (Telegram.message update) = false ->
  (Bot.check_cooldown (Handlers.time env 0) (Telegram.id user)
                      (Handlers.bot w)).1 = Ret true ->
  let out := private env update w in
  (exists msg,
      user_id msg = Telegram.id user
      /\ text msg = default [] (Telegram.text (Telegram.message update))
      /\ timestamp msg = Handlers.time env 1
      /\ is_reply msg = false
      /\ AdvancedContextManager.recent_messages (cm_of out.2)
         = AdvancedContextManager.deque_append
             (AdvancedContextManager.context_window (cm_of w))
             (derive lower msg)
             (AdvancedContextManager.recent_messages (cm_of w))
      /\ AdvancedContextManager.save_tasks (cm_of out.2)
         = AdvancedContextManager.save_tasks (cm_of w) ++ [derive lower msg])
  /\ exists new,
       Handlers.events out.2 = Handlers.events w ++ new
       /\ (forall c t reply, ~ In (SendMessage c t reply) new)
       /\ ((exists reply,
               (3 <= length reply <= 303)%nat
               /\ outgoing new = [reply]
               /\ Handlers.delivery env = Ret tt
               /\ out.1 = Ret tt)
           \/ (exists sent,
                  (length sent <= 1)%nat
                  /\ Forall (fun reply => (3 <= length reply <= 303)%nat)
                            sent
                  /\ outgoing new = sent ++ [apology_text]
                  /\ out.1 = Handlers.apology env)).
Proof.
  intros user Hbot Htext Hcd out. subst out.
  unfold Handlers.handle_private_message, Handlers.check_cooldown,
    Handlers.try_except, Handlers.call, Handlers.emit, Handlers.lift,
    mbind, Handlers.M_bind, mret, Handlers.M_ret.
  fold user. rewrite Hbot, Htext.
  pose proof (check_cooldown_frame (Handlers.time env 0) (Telegram.id user)
                                   (Handlers.bot w)) as Hframe.
  destruct (Bot.check_cooldown _ _ _) as [rc b].
  cbn [fst snd] in Hcd, Hframe. subst rc.
  cbv beta iota zeta. cbn [negb].
  destruct (Handlers.private_reply _ _ _ _ _ _ _ _ _) as [r w1] eqn:Hreply.
  apply private_reply_events in Hreply.
  cbn [Handlers.bot Handlers.events] in Hreply.
  rewrite Hframe in Hreply.
  destruct Hreply as (Hmsg & new & Hev & Hnew).
  destruct Hnew as [(reply & -> & -> & Hlen) | (e & -> & Hnew)].
  - destruct (Handlers.delivery env) as [[]|e] eqn:Hdel;
      cbn [fst snd Handlers.bot Handlers.events].
    + split; [exact Hmsg|]. eexists. split; [exact Hev|].
      split; [intros ? ? ? [[=]|[[=]|[]]]|].
      left. exists reply. repeat split; try apply Hlen.
    + split; [exact Hmsg|]. eexists.
      split; [rewrite Hev, <- !app_assoc; reflexivity|].
      split; [intros ? ? ? [[=]|[[=]|[[=]|[[=]|[]]]]]|].
      right. exists [reply]. split; [cbn [length]; lia|].
      split; [constructor; [exact Hlen|constructor]|].
      split; [|reflexivity].
      unfold apology_text, outgoing. cbn [omap list_omap app]. reflexivity.
  - cbn [fst snd Handlers.bot Handlers.events].
    split; [exact Hmsg|]. eexists.
    split; [rewrite Hev, <- !app_assoc; reflexivity|].
    destruct Hnew as [-> | ->].
    + split; [intros ? ? ? [[=]|[[=]|[]]]|].
      right. exists []. split; [cbn [length]; lia|]. split; [constructor|].
      split; [|reflexivity].
      unfold apology_text, outgoing. cbn [omap list_omap app]. reflexivity.
    + split; [intros ? ? ? [[=]|[[=]|[[=]|[]]]]|].
      right. exists []. split; [cbn [length]; lia|]. split; [constructor|].
      split; [|reflexivity].
      unfold apology_text, outgoing. cbn [omap list_omap app]. reflexivity.
Qed.
End Handling.

Lemma dropped_update_leaves_no_trace_witness :
  untouched new_world
    (Handlers.handle_flood_message
       (fun _ => Ret tt) (fun _ _ => 0%float) stable_argsort str_lower
       map_to_list (u "Ты — Димон.") (Some 5)
       calm_env (text_update true (u "привет, бот")) new_world).
Proof.
  refine (proj1 (dropped_update_leaves_no_trace
                   (Vec := unit) (fun _ => Ret tt) (fun _ _ => 0%float)
                   stable_argsort str_lower map_to_list (u "Ты — Димон.")
                   (Some 5) calm_env (text_update true (u "привет, бот"))
                   new_world _)).
  left. reflexivity.
Defined.

Lemma flood_message_ingested_once_witness :
  (Handlers.handle_flood_message
     (fun _ => Ret tt) (fun _ _ => 0%float) stable_argsort str_lower
     map_to_list (u "Ты — Димон.") (Some 5)
     calm_env (text_update false (u "привет, бот")) new_world).1 = Ret tt.
Proof.
  refine (proj1 (flood_message_ingested_once
                   (Vec := unit) (fun _ => Ret tt) (fun _ _ => 0%float)
                   stable_argsort str_lower map_to_list (u "Ты — Димон.")
                   (Some 5) calm_env (text_update false (u "привет, бот"))
                   new_world _ _ _ _ _ _)).
  - reflexivity.
  - reflexivity.
  - vm_compute. reflexivity.
  - reflexivity.
  - intros uid p. vm_compute. discriminate.
Defined.

Lemma private_message_always_answered_witness :
  exists new,
    Handlers.events
      (Handlers.handle_private_message
         (fun _ => Ret tt) (fun _ _ => 0%float) stable_argsort str_lower
         map_to_list (u "Ты — Димон.")
         calm_env (text_update false (u "привет")) new_world).2
    = Handlers.events new_world ++ new.
Proof.
  destruct (proj2 (private_message_always_answered
                     (Vec := unit) (fun _ => Ret tt) (fun _ _ => 0%float)
                     stable_argsort str_lower map_to_list (u "Ты — Димон.")
                     calm_env (text_update false (u "привет")) new_world
                     eq_refl eq_refl eq_refl))
    as (new & Hev & _).
  exists new. exact Hev.
Defined.

(** A greeting that names the bot, in a fresh bot whose inference
    service times out: the message is answered in the configured thread
    with the text for a timeout. *)
Example flood_run :
  Handlers.events
    (Handlers.handle_flood_message
       (fun _ => Ret tt) (fun _ _ => 0%float) stable_argsort str_lower
       map_to_list (u "Ты — Димон.") (Some 5)
       calm_env (text_update false (u "привет, бот")) new_world).2
  = [LogAnswering (u "Вася") "direct_mention";
     ChatAction (-100);
     SendMessage (-100) (Some 5) (u "Модель тупит, долго думает.")].
Proof. vm_compute. reflexivity. Qed.

(** The same service failing on a private message whose reply cannot be
    delivered: the apology follows the reply. *)
Example private_run_with_failed_delivery :
  outgoing
    (Handlers.events
       (Handlers.handle_private_message
          (fun _ => Ret tt) (fun _ _ => 0%float) stable_argsort str_lower
          map_to_list (u "Ты — Димон.")
          {| Handlers.time := fun _ => 1000%float;
             Handlers.random := fun _ => 0.5%float;
             Handlers.http := Raise TimeoutError;
             Handlers.typing := Ret tt;
             Handlers.delivery := Raise OtherError;
             Handlers.apology := Ret tt |}
          (text_update false (u "привет")) new_world).2)
  = [u "Модель тупит, долго думает."; apology_text].
Proof. vm_compute. reflexivity. Qed.

(* ===================================================================== *)
(** * The texts of the context                                             *)
(* ===================================================================== *)

Section ContextTexts.
Context {Vec : Type}.
Variable encode : str -> res Vec.
Variable dot : Vec -> Vec -> float.
Variable argsort : list float -> list nat.
Variable time : nat -> float.
Variable items : gmap string float -> list (string * float).

#[local] Abbreviation cstate := (AdvancedContextManager.state Vec).

Lemma join_nil (sep : str) (lines : list str) :
  Forall (fun line => line <> []) lines ->
  join sep lines = [] -> lines = [].
Proof.
  destruct lines as [|l [|l' ls]]; intros Hne H; [reflexivity| |].
  - cbn in H. subst l. inversion Hne as [|? ? Hl]. destruct Hl. reflexivity.
  - cbn [join] in H. apply app_eq_nil in H. destruct H as [-> _].
    inversion Hne as [|? ? Hl]. destruct Hl. reflexivity.
Qed.

Lemma u_bracket : u "[" = [91%N].
Proof. vm_compute. reflexivity. Qed.

Lemma context_lines_nonempty (ticks : nat) (msgs : list Message) :
  Forall (fun line => line <> [])
         (ContextText.context_lines time ticks msgs).
Proof.
  revert ticks. induction msgs as [|m ms IH]; intros ticks.
  - constructor.
  - cbn [ContextText.context_lines].
    destruct (PyNum.float_lt_int _ _); [|apply IH].
    constructor; [|apply IH].
    rewrite u_bracket. repeat rewrite <- app_assoc. cbn [app].
    destruct (is_reply m); discriminate.
Qed.

Lemma context_lines_nil (ticks : nat) (msgs : list Message) :
  ContextText.context_lines time ticks msgs = []
  <-> forall k msg,
        msgs !! k = Some msg ->
        PyNum.float_lt_int (time (ticks + k)%nat - timestamp msg)%float 300
        = false.
Proof.
  revert ticks. induction msgs as [|m ms IH]; intros ticks.
  - split; [intros _ k msg; rewrite lookup_nil; discriminate|reflexivity].
  - cbn [ContextText.context_lines]. split.
    + intros H k msg Hk.
      destruct (PyNum.float_lt_int (time ticks - timestamp m) 300) eqn:Hm;
        [discriminate H|].
      destruct k as [|k].
      * cbn in Hk. injection Hk as <-. rewrite Nat.add_0_r. exact Hm.
      * cbn in Hk. replace (ticks + S k)%nat with (S ticks + k)%nat by lia.
        apply (proj1 (IH (S ticks)) H k msg Hk).
    + intros H.
      pose proof (H 0%nat m eq_refl) as Hm. rewrite Nat.add_0_r in Hm.
      rewrite Hm. apply IH. intros k msg Hk.
      replace (S ticks + k)%nat with (ticks + S k)%nat by lia.
      apply H. exact Hk.
Qed.

(** X24: [get_context] returns the empty text exactly when none of the
    messages it looks at is less than 300 seconds old at its reading of
    the clock.  It looks at the last [limit] messages of the window for
    a positive [limit], and at the whole window for [limit = 0]. *)
Theorem get_context_empty_iff_nothing_fresh
    (limit : Z) (ticks : nat) (self : cstate) :
  let shown :=
    slice_from_neg limit (AdvancedContextManager.recent_messages self) in
  (ContextText.get_context time limit ticks self = []
   <-> forall k msg,
         shown !! k = Some msg ->
         PyNum.float_lt_int (time (ticks + k)%nat - timestamp msg)%float 300
         = false)
  /\ (limit = 0 -> shown = AdvancedContextManager.recent_messages self)
  /\ (0 < limit -> (length shown <= Z.to_nat limit)%nat).
Proof.
  intros shown. split; [|split].
  - unfold ContextText.get_context. subst shown.
    destruct (AdvancedContextManager.recent_messages self) as [|m ms] eqn:Hr.
    + split; [|reflexivity]. intros _ k msg.
      unfold slice_from_neg, lastn.
      destruct (0 <? limit); rewrite drop_nil, lookup_nil; discriminate.
    + rewrite <- context_lines_nil. split.
      * apply join_nil, context_lines_nonempty.
      * intros ->. reflexivity.
  - intros ->. reflexivity.
  - intros Hpos. subst shown. unfold slice_from_neg.
    apply Z.ltb_lt in Hpos. rewrite Hpos. rewrite lastn_length. lia.
Qed.

Lemma search_similar_log (query : str) (limit : Z)
      (vm : VectorMemory.state Vec) :
  let found := VectorMemory.search_similar encode dot argsort query limit vm in
  found.2 = [] \/ exists e, found = ([], [LogVectorSearchError e]).
Proof.
  unfold VectorMemory.search_similar.
  destruct (VectorMemory.embeddings vm); [left; reflexivity|].
  match goal with
  | |- context [match ?b with Ret _ => _ | Raise _ => _ end] =>
      destruct b as [found|e]
  end; [left; reflexivity|right; eauto].
Qed.

(** X25: [get_smart_context] only reads the memory.  Whatever it
    returns or raises, the context manager is left as it was but for at
    most one line in the log (a failed search); its argument [limit]
    has no effect on the outcome; with an empty window, no profile of
    the author and an empty index it returns the empty text without
    reading the clock. *)
Theorem get_smart_context_reads_only
    (user_id : Z) (query : str) (limit : Z) (ticks : nat) (self : cstate) :
  let out :=
    ContextText.get_smart_context
      encode dot argsort time items user_id query limit ticks self in
  (forall limit',
      ContextText.get_smart_context
        encode dot argsort time items user_id query limit' ticks self = out)
  /\ (exists l,
        out.1.2
        = ContextText.with_log (AdvancedContextManager.log self ++ l) self
        /\ (l = [] \/ exists e, l = [LogVectorSearchError e]))
  /\ (AdvancedContextManager.recent_messages self = [] ->
      AdvancedContextManager.user_profiles self !! user_id = None ->
      VectorMemory.embeddings (AdvancedContextManager.vector_memory self) = [] ->
      out.1.1 = Ret [] /\ out.2 = ticks).
Proof.
  intros out. split; [reflexivity|]. split.
  - subst out. unfold ContextText.get_smart_context.
    pose proof (search_similar_log
                  query 3 (AdvancedContextManager.vector_memory self)) as Hs.
    assert (Hid : self
                  = ContextText.with_log (AdvancedContextManager.log self ++ [])
                                         self).
    { rewrite app_nil_r. destruct self; reflexivity. }
    destruct (lastn 5 (AdvancedContextManager.recent_messages self))
      as [|m ms].
    + destruct (VectorMemory.search_similar _ _ _ _ _ _) as [sim lg].
      cbn [fst snd] in Hs.
      assert (Hl : lg = [] \/ exists e, lg = [LogVectorSearchError e]).
      { destruct Hs as [->|[e [= -> ->]]]; eauto. }
      destruct sim as [|s ss]; [eexists; split; [reflexivity|exact Hl]|].
      destruct (ContextText.message_lines _ _ _ _ _ _) as [[|] ?];
        eexists; (split; [reflexivity|exact Hl]).
    + destruct (ContextText.message_lines time 60 80 _ ticks (m :: ms))
        as [[lines|e] t].
      * destruct (VectorMemory.search_similar _ _ _ _ _ _) as [sim lg].
        cbn [fst snd] in Hs.
        assert (Hl : lg = [] \/ exists e, lg = [LogVectorSearchError e]).
        { destruct Hs as [->|[e [= -> ->]]]; eauto. }
        destruct sim as [|s ss]; [eexists; split; [reflexivity|exact Hl]|].
        destruct (ContextText.message_lines _ _ _ _ _ _) as [[|] ?];
          eexists; (split; [reflexivity|exact Hl]).
      * exists []. split; [exact Hid|left; reflexivity].
  - intros Hr Hp He. subst out. unfold ContextText.get_smart_context.
    rewrite Hr, Hp. cbn [lastn length drop Nat.sub].
    unfold VectorMemory.search_similar. rewrite He.
    split; reflexivity.
Qed.
End ContextTexts.

(* ===================================================================== *)
(** * Incoming messages                                                    *)
(* ===================================================================== *)


(* ===================================================================== *)
(** * Restart                                                              *)
(* ===================================================================== *)

Section Restart.
Context {Vec : Type}.
Variable encode : str -> res Vec.
Variable lower : str -> str.
Variable order : list (DatabaseManager.row Vec) -> list (DatabaseManager.row Vec).

#[local] Abbreviation rstate := (AdvancedContextManager.state Vec).
#[local] Abbreviation stamp :=
  (fun r : DatabaseManager.row Vec => timestamp (DatabaseManager.message r)).

Lemma StronglySorted_snoc {A} (R : A -> A -> Prop) (l : list A) (x : A) :
  StronglySorted R (l ++ [x]) ->
  StronglySorted R l /\ Forall (fun a => R a x) l.
Proof.
  induction l as [|a l IH]; intros H.
  - split; constructor.
  - cbn in H. apply StronglySorted_inv in H. destruct H as [Hs Hall].
    destruct (IH Hs) as [Hl Hx].
    apply Forall_app in Hall. destruct Hall as [Hal Hax].
    split.
    + constructor; assumption.
    + constructor; [|exact Hx]. inversion Hax; assumption.
Qed.

(** The newest-first order of rows that are in time order is their
    reversal. *)
Lemma newest_first_is_reversal (rows q : list (DatabaseManager.row Vec)) :
  Permutation q rows ->
  StronglySorted (fun a b => PrimFloat.ltb (stamp a) (stamp b) = false) q ->
  StronglySorted (fun a b => PrimFloat.ltb (stamp a) (stamp b) = true) rows ->
  q = rev rows.
Proof.
  revert q. induction rows as [|x rows IH] using rev_ind; intros q Hp Hq Hr.
  - symmetry in Hp. apply Permutation_nil in Hp. subst q. reflexivity.
  - destruct q as [|h q].
    { apply Permutation_length in Hp. rewrite length_app in Hp.
      cbn in Hp. lia. }
    apply StronglySorted_snoc in Hr. destruct Hr as [Hrows Hx].
    apply StronglySorted_inv in Hq. destruct Hq as [Hq Hh].
    assert (Heq : h = x).
    { assert (Hin : In h (rows ++ [x])).
      { eapply Permutation_in; [exact Hp|]. left. reflexivity. }
      apply in_app_or in Hin. destruct Hin as [Hin|[Hin|[]]]; [|auto].
      assert (Hxq : In x (h :: q)).
      { eapply Permutation_in; [symmetry; exact Hp|].
        apply in_or_app. right. left. reflexivity. }
      destruct Hxq as [Hxq|Hxq]; [exact Hxq|].
      rewrite Forall_forall in Hh, Hx.
      apply list_elem_of_In in Hxq, Hin.
      specialize (Hh x Hxq). specialize (Hx h Hin).
      cbn beta in Hh, Hx. rewrite Hh in Hx. discriminate Hx. }
    subst h. rewrite rev_app_distr. cbn [rev app]. f_equal.
    apply IH; [|exact Hq|exact Hrows].
    apply Permutation_cons_inv with (a := x).
    etransitivity; [exact Hp|].
    symmetry. apply Permutation_cons_append.
Qed.

Lemma load_rows (rows : list (DatabaseManager.row Vec)) (self : rstate)
      (history : list Message) :
  AdvancedContextManager.recent_messages self
  = lastn (AdvancedContextManager.context_window self) history ->
  let self' := fold_left (Startup.load_row encode) rows self in
  AdvancedContextManager.recent_messages self'
  = lastn (AdvancedContextManager.context_window self)
          (history ++ map DatabaseManager.message rows)
  /\ AdvancedContextManager.vector_memory self'
     = add_all encode (map DatabaseManager.message rows)
               (AdvancedContextManager.vector_memory self)
  /\ AdvancedContextManager.context_window self'
     = AdvancedContextManager.context_window self
  /\ AdvancedContextManager.user_profiles self'
     = AdvancedContextManager.user_profiles self
  /\ AdvancedContextManager.save_tasks self'
     = AdvancedContextManager.save_tasks self
  /\ AdvancedContextManager.db self' = AdvancedContextManager.db self.
Proof.
  revert self history.
  induction rows as [|row rows IH]; intros self history Hh.
  - cbn. rewrite app_nil_r. repeat split; try reflexivity. exact Hh.
  - cbn [fold_left map].
    assert (Hstep :
      AdvancedContextManager.recent_messages (Startup.load_row encode self row)
      = lastn (AdvancedContextManager.context_window self)
              (history ++ [DatabaseManager.message row])
      /\ AdvancedContextManager.vector_memory
           (Startup.load_row encode self row)
         = (VectorMemory.add_message
              encode (DatabaseManager.message row)
              (AdvancedContextManager.vector_memory self)).1
      /\ AdvancedContextManager.context_window
           (Startup.load_row encode self row)
         = AdvancedContextManager.context_window self
      /\ AdvancedContextManager.user_profiles
           (Startup.load_row encode self row)
         = AdvancedContextManager.user_profiles self
      /\ AdvancedContextManager.save_tasks
           (Startup.load_row encode self row)
         = AdvancedContextManager.save_tasks self
      /\ AdvancedContextManager.db (Startup.load_row encode self row)
         = AdvancedContextManager.db self).
    { unfold Startup.load_row.
      destruct (VectorMemory.add_message _ _ _) as [vm vm_log].
      cbn [AdvancedContextManager.recent_messages
           AdvancedContextManager.vector_memory
           AdvancedContextManager.context_window
           AdvancedContextManager.user_profiles
           AdvancedContextManager.save_tasks AdvancedContextManager.db fst].
      repeat split.
      unfold AdvancedContextManager.deque_append.
      rewrite Hh. apply lastn_lastn_app. }
    destruct Hstep as (H1 & H2 & H3 & H4 & H5 & H6).
    specialize (IH (Startup.load_row encode self row)
                   (history ++ [DatabaseManager.message row])).
    rewrite H3 in IH. specialize (IH H1).
    cbv zeta in IH. destruct IH as (I1 & I2 & I3 & I4 & I5 & I6).
    cbv zeta. rewrite <- app_assoc in I1. cbn [app] in I1.
    rewrite I1, I2, I3, I4, I5, I6, H2, H4, H5, H6.
    repeat split; reflexivity.
Qed.

(** X22: a restart restores the recency window.  When the rows of the
    message table are in time order (each strictly older than the next)
    and the database returns them newest first, [__init__] leaves in the
    window the last [context_window] saved messages, oldest first, and
    indexes the same messages again; the count it logs is their number;
    no save task is scheduled and the database is not written. *)
Theorem restart_restores_window
    (window : nat) (db : DatabaseManager.state Vec) :
  sorts_newest_first order (DatabaseManager.messages db) ->
  rows_in_time_order (DatabaseManager.messages db) ->
  let started := Startup.init encode order window db in
  let saved := map DatabaseManager.message (DatabaseManager.messages db) in
  AdvancedContextManager.recent_messages started.1 = lastn window saved
  /\ AdvancedContextManager.vector_memory started.1
     = add_all encode (lastn window saved) VectorMemory.init
  /\ started.2 = Nat.min window (length saved)
  /\ AdvancedContextManager.save_tasks started.1 = []
  /\ AdvancedContextManager.db started.1 = db.
Proof.
  intros [Hperm Hsorted] Htime started saved. subst started.
  unfold Startup.init, Startup.load_recent_messages.
  cbn [AdvancedContextManager.context_window AdvancedContextManager.db
       fst snd].
  rewrite (newest_first_is_reversal _ _ Hperm Hsorted Htime).
  rewrite firstn_rev, rev_involutive.
  match goal with
  | |- context [fold_left _ ?rows ?self] =>
      destruct (load_rows rows self [] eq_refl)
        as (H1 & H2 & H3 & H4 & H5 & H6)
  end.
  cbn [AdvancedContextManager.context_window AdvancedContextManager.db
       AdvancedContextManager.vector_memory
       AdvancedContextManager.save_tasks app] in H1, H2, H5, H6.
  rewrite H1, H2, H5, H6.
  assert (Hmap :
    map DatabaseManager.message
        (drop (length (DatabaseManager.messages db) - window)
              (DatabaseManager.messages db))
    = lastn window saved).
  { subst saved. unfold lastn. rewrite length_map.
    rewrite <- skipn_map. reflexivity. }
  rewrite Hmap.
  assert (Hlast : lastn window (lastn window saved) = lastn window saved).
  { apply lastn_all. rewrite lastn_length. lia. }
  rewrite Hlast. repeat split.
  rewrite length_rev, length_drop. subst saved.
  rewrite length_map. lia.
Qed.

(** X23: a restart forgets the profiles.  [__init__] never reads the
    profile table: whatever it holds, the profile store starts empty,
    and the first message of an author after the restart replaces the
    stored profile of that author by a new one with one interaction and
    the level ["незнакомец"]. *)
Theorem restart_forgets_profiles
    (window : nat) (db : DatabaseManager.state Vec) (m : Message) :
  let started := (Startup.init encode order window db).1 in
  let after := (AdvancedContextManager.add_message encode lower m started).2 in
  AdvancedContextManager.user_profiles started = ∅
  /\ exists p,
       DatabaseManager.user_profiles (AdvancedContextManager.db after)
       = <[user_id m := p]> (DatabaseManager.user_profiles db)
       /\ AdvancedContextManager.user_profiles after = {[ user_id m := p ]}
       /\ interaction_count p = 1
       /\ relationship_level p = "незнакомец".
Proof.
  intros started after.
  assert (Hempty : AdvancedContextManager.user_profiles started = ∅
                   /\ AdvancedContextManager.db started = db).
  { subst started. unfold Startup.init, Startup.load_recent_messages.
    cbn [fst].
    match goal with
    | |- context [fold_left _ ?rows ?self] =>
        destruct (load_rows rows self [] eq_refl)
          as (_ & _ & _ & H4 & _ & H6)
    end.
    rewrite H4, H6. split; reflexivity. }
  destruct Hempty as [Hempty Hdb].
  split; [exact Hempty|].
  destruct (add_message_profile encode lower m started)
    as (p & _ & Hps & Hdbp & Hok & _ & _ & Hnew).
  { intros uid q. rewrite Hempty, lookup_empty. discriminate. }
  rewrite Hempty, lookup_empty in Hnew. destruct Hnew as (Hid & Hcount & _).
  exists p. subst after. rewrite Hdbp, Hps, Hid, Hdb, Hempty.
  split; [reflexivity|]. split; [reflexivity|]. split; [exact Hcount|].
  destruct Hok as [Hlevel _]. rewrite Hlevel, Hcount. reflexivity.
Qed.
Lemma StronglySorted_list_filter {A} (R : A -> A -> Prop) (f : A -> bool)
      (l : list A) :
  StronglySorted R l -> StronglySorted R (List.filter f l).
Proof.
  induction 1 as [|a l Hs IH Ha]; [constructor|].
  cbn [List.filter]. destruct (f a); [|exact IH].
  constructor; [exact IH|].
  apply Forall_forall. intros x Hx.
  apply list_elem_of_In, filter_In in Hx. destruct Hx as [Hx _].
  apply list_elem_of_In in Hx. revert x Hx. apply Forall_forall. exact Ha.
Qed.

(** X29: the history of an author.  When the rows of the message table
    are in time order and the database returns the rows of the author
    newest first, [get_user_history] returns the messages of that
    author -- all of them for a negative [limit], the last [limit]
    otherwise -- from the newest to the oldest. *)
Theorem user_history_newest_first
    (uid limit : Z) (db : DatabaseManager.state Vec) :
  rows_in_time_order (DatabaseManager.messages db) ->
  sorts_newest_first
    order
    (List.filter (fun r => user_id (DatabaseManager.message r) =? uid)
                 (DatabaseManager.messages db)) ->
  let theirs :=
    List.filter (fun m => user_id m =? uid)
                (map DatabaseManager.message (DatabaseManager.messages db)) in
  History.get_user_history order uid limit db
  = rev (if limit <? 0 then theirs else lastn (Z.to_nat limit) theirs).
Proof.
  intros Htime [Hperm Hsorted] theirs. unfold History.get_user_history.
  rewrite (newest_first_is_reversal _ _ Hperm Hsorted
             (StronglySorted_list_filter _ _ _ Htime)).
  assert (Hmap :
    map DatabaseManager.message
        (List.filter (fun r => user_id (DatabaseManager.message r) =? uid)
                     (DatabaseManager.messages db)) = theirs).
  { subst theirs. symmetry.
    apply (filter_map_swap (fun m => user_id m =? uid)
                           DatabaseManager.message). }
  destruct (limit <? 0).
  - rewrite map_rev, Hmap. reflexivity.
  - rewrite firstn_rev, map_rev. f_equal. unfold lastn.
    rewrite <- Hmap, length_map. symmetry. apply skipn_map.
Qed.
End Restart.

Lemma restart_restores_window_witness :
  AdvancedContextManager.recent_messages
    (Startup.init (Vec := unit) (fun _ => Ret tt) newest_first 250
                  scenario_db).1
  = lastn 250 (map DatabaseManager.message
                   (DatabaseManager.messages scenario_db)).
Proof.
  refine (proj1 (restart_restores_window
                   (Vec := unit) (fun _ => Ret tt) newest_first 250
                   scenario_db _ _)).
  - split; vm_compute; [apply perm_swap|repeat constructor].
  - vm_compute. repeat constructor.
Defined.

(* ===================================================================== *)
(** * The command [/schedule_test]                                         *)
(* ===================================================================== *)

Section CommandTest.
Variable strftime : ScheduledMessages.datetime -> str.

(** X27: the command [/schedule_test] uses up the announcements of
    the day.  Run from Monday to Friday with the schedule enabled, it
    calls both generators, which record the date as if the announcements
    had been sent: the report it sends holds two replies of the model (3
    to 303 code points each), and a later run of the scheduler job on
    the same day sends and logs nothing, whatever the hour. *)
Theorem schedule_test_consumes_the_day
    (env : Commands.test_env) (s : ScheduledMessages.state)
    (t : ScheduledMessages.tick) :
  ScheduledMessages.weekday (Commands.now_greeting env) <= 4 ->
  ScheduledMessages.date (ScheduledMessages.now_greeting_check t)
  = ScheduledMessages.date (Commands.now_greeting env) ->
  ScheduledMessages.date (ScheduledMessages.now_farewell_check t)
  = ScheduledMessages.date (Commands.now_farewell env) ->
  let out := Commands.schedule_test strftime env (Some s) in
  exists s' greeting farewell,
    out.1.1.2 = Some s'
    /\ ScheduledMessages.last_greeting_date s'
       = Some (ScheduledMessages.date (Commands.now_greeting env))
    /\ ScheduledMessages.last_farewell_date s'
       = Some (ScheduledMessages.date (Commands.now_farewell env))
    /\ (3 <= length greeting <= 303)%nat
    /\ (3 <= length farewell <= 303)%nat
    /\ head (outgoing out.1.2)
       = Some (Commands.test_text strftime (Commands.now_report env)
                                  greeting farewell)
    /\ ScheduledMessages.check_scheduled_messages t (Some s')
       = {| ScheduledMessages.scheduler := Some s';
            ScheduledMessages.sent := [];
            ScheduledMessages.logged := [] |}.
Proof.
  intros Hwd Hg Hf out. subst out. unfold Commands.schedule_test.
  pose proof (weekday_range (Commands.now_greeting env)) as Hr.
  destruct (generate_morning_greeting_sets
              (Commands.now_greeting env) (Commands.http_greeting env) s
              ltac:(lia)) as [greeting Hgreet].
  pose proof Hgreet as Hgl.
  unfold ScheduledMessages.generate_morning_greeting in Hgl.
  rewrite Hgreet.
  match goal with
  | |- context [ScheduledMessages.generate_evening_farewell ?n ?h ?st] =>
      destruct (generate_evening_farewell_sets n h st) as [farewell Hfare];
      pose proof Hfare as Hfl;
      unfold ScheduledMessages.generate_evening_farewell in Hfl;
      rewrite Hfare
  end.
  cbn [ScheduledMessages.last_greeting_date
       ScheduledMessages.last_farewell_date].
  eexists _, greeting, farewell.
  assert (Hlg : (3 <= length greeting <= 303)%nat).
  { destruct (if ScheduledMessages.weekday (Commands.now_greeting env) =? 4
              then _ else _) as [p|e]; [|discriminate Hgl].
    destruct (SmartBot.ask_local_model p _) as [r|e] eqn:Hask;
      [|discriminate Hgl].
    injection Hgl as <-. eapply ask_reply_length, Hask. }
  assert (Hlf : (3 <= length farewell <= 303)%nat).
  { destruct (SmartBot.ask_local_model _ _) as [r|e] eqn:Hask;
      [|discriminate Hfl].
    injection Hfl as <-. eapply ask_reply_length, Hask. }
  assert (Hquiet :
    ScheduledMessages.check_scheduled_messages t
      (Some {| ScheduledMessages.last_greeting_date :=
                 Some (ScheduledMessages.date (Commands.now_greeting env));
               ScheduledMessages.last_farewell_date :=
                 Some (ScheduledMessages.date (Commands.now_farewell env)) |})
    = {| ScheduledMessages.scheduler :=
           Some {| ScheduledMessages.last_greeting_date :=
                     Some (ScheduledMessages.date (Commands.now_greeting env));
                   ScheduledMessages.last_farewell_date :=
                     Some (ScheduledMessages.date
                             (Commands.now_farewell env)) |};
         ScheduledMessages.sent := [];
         ScheduledMessages.logged := [] |}).
  { unfold ScheduledMessages.check_scheduled_messages.
    assert (Hng : ScheduledMessages.should_send_greeting
                    (ScheduledMessages.now_greeting_check t)
                    {| ScheduledMessages.last_greeting_date :=
                         Some (ScheduledMessages.date
                                 (Commands.now_greeting env));
                       ScheduledMessages.last_farewell_date :=
                         Some (ScheduledMessages.date
                                 (Commands.now_farewell env)) |} = false).
    { unfold ScheduledMessages.should_send_greeting.
      cbn [ScheduledMessages.last_greeting_date]. rewrite Hg.
      rewrite bool_decide_eq_true_2 by reflexivity.
      destruct (_ <=? _); [reflexivity|].
      destruct (negb _); reflexivity. }
    assert (Hnf : ScheduledMessages.should_send_farewell
                    (ScheduledMessages.now_farewell_check t)
                    {| ScheduledMessages.last_greeting_date :=
                         Some (ScheduledMessages.date
                                 (Commands.now_greeting env));
                       ScheduledMessages.last_farewell_date :=
                         Some (ScheduledMessages.date
                                 (Commands.now_farewell env)) |} = false).
    { unfold ScheduledMessages.should_send_farewell.
      cbn [ScheduledMessages.last_farewell_date]. rewrite Hf.
      rewrite bool_decide_eq_true_2 by reflexivity.
      destruct (_ <=? _); [reflexivity|].
      destruct (negb _); reflexivity. }
    rewrite Hng. unfold ScheduledMessages.slot at 1. cbv beta iota.
    rewrite Hnf. unfold ScheduledMessages.slot. reflexivity. }
  destruct (Commands.report env) as [[]|e];
    unfold Commands.failed; cbn [fst snd];
    (split; [reflexivity|]); (split; [reflexivity|]);
    (split; [reflexivity|]); (split; [exact Hlg|]); (split; [exact Hlf|]);
    (split; [reflexivity|exact Hquiet]).
Qed.
End CommandTest.

Lemma schedule_test_consumes_the_day_witness :
  exists s',
    (Commands.schedule_test (fun _ => u "07:00, Monday") (test_at monday 7)
                            (Some ScheduledMessages.init)).1.1.2 = Some s'
    /\ ScheduledMessages.sent
         (ScheduledMessages.check_scheduled_messages
            (tick_at monday 8 0) (Some s')) = [].
Proof.
  destruct (schedule_test_consumes_the_day
              (fun _ => u "07:00, Monday") (test_at monday 7)
              ScheduledMessages.init (tick_at monday 8 0))
    as (s' & g & f & Hs & _ & _ & _ & _ & _ & Hq).
  - vm_compute. discriminate.
  - reflexivity.
  - reflexivity.
  - exists s'. split; [exact Hs|]. rewrite Hq. reflexivity.
Defined.

(** On a Saturday the command fails on the list of day names and
    answers with its failure text; nothing is recorded. *)
Example schedule_test_on_saturday :
  Commands.schedule_test (fun _ => u "07:00, Saturday") (test_at saturday 7)
                         (Some ScheduledMessages.init)
  = (Ret tt, Some ScheduledMessages.init,
     [LogScheduleTestError IndexError;
      ReplyText (u "Чёт с тестом планировщика хуйня.")],
     []).
Proof. vm_compute. reflexivity. Qed.

(* ===================================================================== *)
(** * The command [/status]                                                *)
(* ===================================================================== *)

Section StatusCommand.
Context {Vec : Type}.
Variable time : nat -> float.
Variable values : gmap Z UserProfile -> list UserProfile.
Variable strftime : ScheduledMessages.datetime -> str.

(** X28: the command [/status] never shows the status.  Its text needs
    [config.enable_vision], a field [BotConfig] does not have: in every
    state, in a private chat as in the group, with the inference service
    up or down, the command logs the [AttributeError] and answers with
    its failure text, and ends as that call ends. *)
Theorem status_always_fails
    (env : Status.status_env) (config : BotConfig.t) (is_private : bool)
    (chat_id : Z) (cm : AdvancedContextManager.state Vec)
    (scheduler : option ScheduledMessages.state) :
  Status.status time values strftime env config is_private chat_id cm
                scheduler
  = (Status.excuse env,
     [LogStatusError AttributeError;
      ReplyText (u "Чёт со статусом хуйня.")]).
Proof.
  unfold Status.status, Status.status_body, BotConfig.enable_vision.
  reflexivity.
Qed.
End StatusCommand.

Lemma user_history_newest_first_witness :
  History.get_user_history (Vec := unit) newest_first 1 1 scenario_db
  = rev (lastn 1 (List.filter
                    (fun m => user_id m =? 1)
                    (map DatabaseManager.message
                         (DatabaseManager.messages scenario_db)))).
Proof.
  refine (user_history_newest_first
            (Vec := unit) newest_first 1 1 scenario_db _ _).
  - vm_compute. repeat constructor.
  - split; vm_compute; [apply Permutation_refl || apply perm_swap
                       |repeat constructor].
Defined.
